(** * The research dashboard: reminder engine, notifier backends, vault export

    A shallow embedding of [scheduler.py], of the notifier and export classes
    of [integrations.py] and of the rows of [models.py] they read, followed by
    the properties of the reminder scheduling, of the rendered payloads and of
    the vault export.

    Conventions of the embedding.
    - Text is a [string] holding the UTF-8 bytes of the Python text; [chars]
      cuts it into its characters, each with its bytes.  White space and the
      decimal digits are those of Unicode; which characters outside ASCII are
      alphanumeric or cased, and their case mappings, is left to the Unicode
      database, a parameter ([Unicode]).
    - A [date] is its proleptic Gregorian ordinal ([date.toordinal]).
    - A nullable column is an [option]; Python truthiness of such a value is
      [truthy].
    - Exceptions are values of [exn]; a computation that may raise runs in the
      state-and-error monad [M] over the outside world. *)

From Stdlib Require Import ZArith List String Ascii Bool Lia DecimalString.
From stdpp Require Import gmap strings sorting.

Local Open Scope string_scope.
Local Open Scope Z_scope.

(* ================================================================== *)
(** ** Python builtins used by the program *)
(* ================================================================== *)

Module Py.

Definition code (c : ascii) : Z := Z.of_N (N_of_ascii c).
Definition chr (n : Z) : ascii := ascii_of_N (Z.to_N n).

Definition between (lo hi : Z) (c : ascii) : bool :=
  (lo <=? code c) && (code c <=? hi).

(** The tests and mappings of one ASCII character. *)
Definition isdigit (c : ascii) : bool := between 48 57 c.
Definition isupper (c : ascii) : bool := between 65 90 c.
Definition islower (c : ascii) : bool := between 97 122 c.
Definition isalpha (c : ascii) : bool := isupper c || islower c.
Definition isalnum (c : ascii) : bool := isalpha c || isdigit c.
Definition upper (c : ascii) : ascii := if islower c then chr (code c - 32) else c.
Definition lower (c : ascii) : ascii := if isupper c then chr (code c + 32) else c.

(** *** The characters of a text *)

Definition is_ascii (c : ascii) : bool := code c <? 128.
(** The bytes [10xxxxxx], which continue a character of several bytes. *)
Definition is_continuation (c : ascii) : bool := between 128 191 c.

(** The characters of a text, each with its bytes: a character begins at
    every byte that is not a continuation byte. *)
Definition continues (h : string) : bool :=
  match h with
  | String c _ => is_continuation c
  | EmptyString => false
  end.
Fixpoint chars (s : string) : list string :=
  match s with
  | EmptyString => []
  | String c s' =>
      match chars s' with
      | h :: t => if continues h then String c h :: t else String c EmptyString :: h :: t
      | [] => [String c EmptyString]
      end
  end.

(** ["".join(l)] *)
Fixpoint text (l : list string) : string :=
  match l with
  | [] => EmptyString
  | ch :: l' => ch +:+ text l'
  end.

Definition tail_bits (c : ascii) : Z := code c - 128.

(** [ord(ch)] for the bytes of one character; [-1] for bytes that are not
    the UTF-8 form of a character. *)
Definition ord (ch : string) : Z :=
  match ch with
  | String a EmptyString => if is_ascii a then code a else -1
  | String a (String b EmptyString) =>
      if between 194 223 a && is_continuation b
      then (code a - 192) * 64 + tail_bits b
      else -1
  | String a (String b (String c EmptyString)) =>
      let n := (code a - 224) * 4096 + tail_bits b * 64 + tail_bits c in
      if between 224 239 a && is_continuation b && is_continuation c
         && (2048 <=? n) && negb ((55296 <=? n) && (n <=? 57343))
      then n
      else -1
  | String a (String b (String c (String d EmptyString))) =>
      let n :=
        (code a - 240) * 262144 + tail_bits b * 4096 + tail_bits c * 64 + tail_bits d in
      if between 240 244 a && is_continuation b && is_continuation c
         && is_continuation d && (65536 <=? n) && (n <=? 1114111)
      then n
      else -1
  | _ => -1
  end.

(** The one byte of an ASCII character. *)
Definition ascii_of (ch : string) : option ascii :=
  match ch with
  | String c EmptyString => if is_ascii c then Some c else None
  | _ => None
  end.
(** A character outside ASCII. *)
Definition is_wide (ch : string) : bool := 128 <=? ord ch.

(** [ch.isspace()] by code point: TAB..CR, FS..US, the space, NEL, NBSP and
    the space separators and line and paragraph separators above them. *)
Definition isspace_cp (n : Z) : bool :=
  ((9 <=? n) && (n <=? 13)) || ((28 <=? n) && (n <=? 32))
  || (n =? 133) || (n =? 160) || (n =? 5760)
  || ((8192 <=? n) && (n <=? 8202))
  || (n =? 8232) || (n =? 8233) || (n =? 8239) || (n =? 8287) || (n =? 12288).
Definition isspace_char (ch : string) : bool := isspace_cp (ord ch).

(** [s.lstrip()], [s.rstrip()] and [s.strip()], on the characters. *)
Fixpoint lstrip_chars (l : list string) : list string :=
  match l with
  | [] => []
  | ch :: l' => if isspace_char ch then lstrip_chars l' else l
  end.
Fixpoint rstrip_chars (l : list string) : list string :=
  match l with
  | [] => []
  | ch :: l' =>
      match rstrip_chars l' with
      | [] => if isspace_char ch then [] else [ch]
      | r => ch :: r
      end
  end.
Definition strip_chars (l : list string) : list string := rstrip_chars (lstrip_chars l).
(** [s.strip()] *)
Definition strip (s : string) : string := text (strip_chars (chars s)).

(** The Unicode character database for the characters outside ASCII, each
    given by its bytes: what CPython's tables say of it. *)
Class Unicode : Type := {
  (** [ch.isalnum()] *)
  wide_isalnum : string -> bool;
  (** the character is cased *)
  wide_iscased : string -> bool;
  (** its title-case mapping *)
  wide_title : string -> string;
  (** its lower-case mapping where it stands, between the characters before
      it and those after it (the capital sigma is mapped by what surrounds
      it) *)
  wide_lower : list string -> string -> list string -> string;
  (** a title-case mapping is not empty and does not begin with a slash *)
  wide_title_head :
    forall ch, is_wide ch = true ->
      exists c t, wide_title ch = String c t /\ c <> "/"%char
}.

Section Characters.
Context {U : Unicode}.

(** [ch.isalnum()] *)
Definition isalnum_char (ch : string) : bool :=
  match ascii_of ch with
  | Some c => isalnum c
  | None => is_wide ch && wide_isalnum ch
  end.

Definition iscased_char (ch : string) : bool :=
  match ascii_of ch with
  | Some c => isalpha c
  | None => is_wide ch && wide_iscased ch
  end.
Definition title_char (ch : string) : string :=
  match ascii_of ch with
  | Some c => String (upper c) EmptyString
  | None => if is_wide ch then wide_title ch else ch
  end.
Definition lower_char (before : list string) (ch : string) (after : list string) : string :=
  match ascii_of ch with
  | Some c => String (lower c) EmptyString
  | None => if is_wide ch then wide_lower before ch after else ch
  end.

(** [s.title()]: a character that follows an uncased one gets its title-case
    mapping, a character that follows a cased one its lower-case mapping. *)
Fixpoint title_from (previous_is_cased : bool) (before l : list string) : list string :=
  match l with
  | [] => []
  | ch :: after =>
      (if previous_is_cased then lower_char before ch after else title_char ch)
      :: title_from (iscased_char ch) (before ++ [ch]) after
  end.
Definition title (s : string) : string := text (title_from false [] (chars s)).
End Characters.

(** [s.replace(a, b)] for one-character [a] and [b]. *)
Fixpoint replace_char (a b : ascii) (s : string) : string :=
  match s with
  | EmptyString => EmptyString
  | String c s' => String (if Ascii.eqb c a then b else c) (replace_char a b s')
  end.

(** [s.split(sep)] for a one-character separator: never the empty list. *)
Fixpoint split (sep : ascii) (s : string) : list string :=
  match s with
  | EmptyString => [EmptyString]
  | String c s' =>
      if Ascii.eqb c sep then EmptyString :: split sep s'
      else match split sep s' with
           | h :: t => String c h :: t
           | [] => [String c EmptyString]
           end
  end.

(** [sep.join(l)] *)
Definition join (sep : string) (l : list string) : string := String.concat sep l.

(** [str(n)] for an [int]. *)
Definition str_int (n : Z) : string := NilZero.string_of_int (Z.to_int n).

Fixpoint zeros (n : nat) : string :=
  match n with O => EmptyString | S n' => String "0"%char (zeros n') end.
(** ["%0wd" % n] for [0 <= n]. *)
Definition zero_padded (w : nat) (n : Z) : string :=
  let s := str_int n in zeros (w - String.length s)%nat +:+ s.

(** Truthiness of a nullable text: [None] and [""] are false. *)
Definition truthy (o : option string) : bool :=
  match o with
  | Some s => negb (String.eqb s "")
  | None => false
  end.

(** [f"{x}"] of a nullable text: [None] prints as [None]. *)
Definition fmt (o : option string) : string :=
  match o with Some s => s | None => "None" end.
(** [x or ''] *)
Definition or_empty (o : option string) : string :=
  match o with Some s => s | None => "" end.

(** [l[:n]] for [0 <= n]. *)
Definition slice_to {A} (n : nat) (l : list A) : list A := firstn n l.

(** [needle in s] *)
Fixpoint contains (needle s : string) : bool :=
  String.prefix needle s ||
  match s with
  | EmptyString => false
  | String _ s' => contains needle s'
  end.

(** *** [datetime.date] and [datetime.datetime] *)

(** A naive [datetime], in microseconds from the start of year 1. *)
Definition datetime := Z.
Definition date := Z.
Definition MINORDINAL : Z := 1.
(** [date.max.toordinal()], 9999-12-31 *)
Definition MAXORDINAL : Z := 3652059.
Definition valid_date (d : date) : bool := (MINORDINAL <=? d) && (d <=? MAXORDINAL).

Definition DAYS_BEFORE_MONTH (m : Z) : Z :=
  nth (Z.to_nat m) [0; 0; 31; 59; 90; 120; 151; 181; 212; 243; 273; 304; 334] 0.
Definition DAYS_IN_MONTH (m : Z) : Z :=
  nth (Z.to_nat m) [0; 31; 28; 31; 30; 31; 30; 31; 31; 30; 31; 30; 31] 0.

(** CPython's [_ord2ymd]: ordinal to (year, month, day). *)
Definition ord2ymd (n0 : Z) : Z * Z * Z :=
  let n := n0 - 1 in
  let n400 := n / 146097 in let n := n mod 146097 in
  let year := n400 * 400 + 1 in
  let n100 := n / 36524 in let n := n mod 36524 in
  let n4 := n / 1461 in let n := n mod 1461 in
  let n1 := n / 365 in let n := n mod 365 in
  let year := year + n100 * 100 + n4 * 4 + n1 in
  if (n1 =? 4) || (n100 =? 4) then (year - 1, 12, 31)
  else
    let leapyear := (n1 =? 3) && (negb (n4 =? 24) || (n100 =? 3)) in
    let month := Z.shiftr (n + 50) 5 in
    let preceding :=
      DAYS_BEFORE_MONTH month + (if (2 <? month) && leapyear then 1 else 0) in
    if n <? preceding then
      let month' := month - 1 in
      let preceding' :=
        preceding - (DAYS_IN_MONTH month' + (if (month' =? 2) && leapyear then 1 else 0)) in
      (year, month', n - preceding' + 1)
    else (year, month, n - preceding + 1).

(** [d.isoformat()] *)
Definition isoformat (d : date) : string :=
  let '(y, m, dd) := ord2ymd d in
  zero_padded 4 y +:+ "-" +:+ zero_padded 2 m +:+ "-" +:+ zero_padded 2 dd.

(** [d.weekday()], Monday is 0. *)
Definition weekday (d : date) : Z := (d + 6) mod 7.
Definition day_name (w : Z) : string :=
  nth (Z.to_nat w)
    ["Monday"; "Tuesday"; "Wednesday"; "Thursday"; "Friday"; "Saturday"; "Sunday"] "".
Definition month_name (m : Z) : string :=
  nth (Z.to_nat m)
    [""; "January"; "February"; "March"; "April"; "May"; "June"; "July";
     "August"; "September"; "October"; "November"; "December"] "".
(** [d.strftime('%A, %B %d, %Y')] in the C locale. *)
Definition strftime_long (d : date) : string :=
  let '(y, m, dd) := ord2ymd d in
  day_name (weekday d) +:+ ", " +:+ month_name m +:+ " " +:+ zero_padded 2 dd
    +:+ ", " +:+ str_int y.

(** *** [os.path.join] on a POSIX system *)

Definition ends_with_slash (s : string) : bool :=
  match String.get (String.length s - 1)%nat s with
  | Some c => Ascii.eqb c "/"%char
  | None => false
  end.
Definition join2 (a b : string) : string :=
  if String.prefix "/" b then b
  else if String.eqb a "" || ends_with_slash a then a +:+ b
  else a +:+ "/" +:+ b.
Definition path_join (a : string) (rest : list string) : string :=
  fold_left join2 rest a.

(** *** Text pieces that a literal cannot hold *)

Definition nl : string := String "010"%char EmptyString.
Definition dq : string := String "034"%char EmptyString.
(** [s] between double quotes. *)
Definition quoted (s : string) : string := dq +:+ s +:+ dq.
(** The lines of a multi-line literal, joined by the newline. *)
Definition lines (l : list string) : string := String.concat nl l.

(** *** [int(s)]: white space around, a sign, decimal digits with single
    underscores between them *)

(** The decimal digits of Unicode (14.0, as in CPython 3.11): they come in
    runs of ten, from zero to nine; the first code point of each run. *)
Definition decimal_runs : list Z :=
  [ 0x30; 0x660; 0x6f0; 0x7c0; 0x966; 0x9e6; 0xa66; 0xae6; 0xb66; 0xbe6; 0xc66; 0xce6;
    0xd66; 0xde6; 0xe50; 0xed0; 0xf20; 0x1040; 0x1090; 0x17e0; 0x1810; 0x1946; 0x19d0;
    0x1a80; 0x1a90; 0x1b50; 0x1bb0; 0x1c40; 0x1c50; 0xa620; 0xa8d0; 0xa900; 0xa9d0;
    0xa9f0; 0xaa50; 0xabf0; 0xff10; 0x104a0; 0x10d30; 0x11066; 0x110f0; 0x11136;
    0x111d0; 0x112f0; 0x11450; 0x114d0; 0x11650; 0x116c0; 0x11730; 0x118e0; 0x11950;
    0x11c50; 0x11d50; 0x11da0; 0x16a60; 0x16ac0; 0x16b50;
    0x1d7ce; 0x1d7d8; 0x1d7e2; 0x1d7ec; 0x1d7f6;
    0x1e140; 0x1e2f0; 0x1e950; 0x1fbf0 ].
(** [unicodedata.decimal(ch, None)] by code point. *)
Definition decimal_cp (n : Z) : option Z :=
  match List.find (fun start => (start <=? n) && (n <? start + 10)) decimal_runs with
  | Some start => Some (n - start)
  | None => None
  end.

(** What [int] makes of one character before it parses: a character of
    ASCII stays, white space outside ASCII becomes a space and a decimal
    digit outside ASCII the ASCII digit; anything else is refused. *)
Definition to_ascii (ch : string) : option ascii :=
  match ascii_of ch with
  | Some c => Some c
  | None =>
      if is_wide ch && isspace_char ch then Some " "%char
      else if is_wide ch then option_map (fun d => chr (48 + d)) (decimal_cp (ord ch))
      else None
  end.
Fixpoint transform (l : list string) : option string :=
  match l with
  | [] => Some EmptyString
  | ch :: l' =>
      match to_ascii ch, transform l' with
      | Some c, Some s => Some (String c s)
      | _, _ => None
      end
  end.

(** The white space the parser skips at both ends: that of C's [isspace]. *)
Definition c_isspace (c : ascii) : bool := between 9 13 c || (code c =? 32).
Fixpoint skip_spaces (s : string) : string :=
  match s with
  | EmptyString => EmptyString
  | String c s' => if c_isspace c then skip_spaces s' else s
  end.
Fixpoint drop_trailing_spaces (s : string) : string :=
  match s with
  | EmptyString => EmptyString
  | String c s' =>
      match drop_trailing_spaces s' with
      | EmptyString => if c_isspace c then EmptyString else String c EmptyString
      | r => String c r
      end
  end.

Fixpoint digits_value (acc : Z) (previous_is_digit : bool) (s : string) : option Z :=
  match s with
  | EmptyString => if previous_is_digit then Some acc else None
  | String c s' =>
      if isdigit c then digits_value (10 * acc + (code c - 48)) true s'
      else if Ascii.eqb c "_"%char && previous_is_digit then
        match s' with
        | String c' _ => if isdigit c' then digits_value acc false s' else None
        | EmptyString => None
        end
      else None
  end.

(** [sys.int_info.default_max_str_digits]: a text with more digits is
    refused. *)
Definition max_str_digits : nat := 4300.
Fixpoint count_digits (s : string) : nat :=
  match s with
  | EmptyString => O
  | String c s' => ((if isdigit c then 1 else 0) + count_digits s')%nat
  end.

Definition int_of_string (s : string) : option Z :=
  match transform (chars s) with
  | None => None
  | Some a =>
      let body := drop_trailing_spaces (skip_spaces a) in
      if (max_str_digits <? count_digits body)%nat then None
      else
        match body with
        | String "-"%char s' => option_map Z.opp (digits_value 0 false s')
        | String "+"%char s' => digits_value 0 false s'
        | s' => digits_value 0 false s'
        end
  end.

End Py.

(* ================================================================== *)
(** ** Exceptions and results *)
(* ================================================================== *)

(** The exceptions the modelled code can raise.  [TransportError] stands for
    whatever [requests] or [smtplib] raise on a failed delivery (time-out,
    non-2xx answer, rejected login); all are subclasses of [Exception]. *)
Inductive exn : Type :=
| TypeError (msg : string)
| AttributeError (msg : string)
| ValueError (msg : string)
| OverflowError (msg : string)
| TransportError (msg : string).

(** [str(e)] *)
Definition exn_str (e : exn) : string :=
  match e with
  | TypeError m | AttributeError m | ValueError m | OverflowError m
  | TransportError m => m
  end.

Definition is_transport_error (e : exn) : bool :=
  match e with TransportError _ => true | _ => false end.

Inductive result (A : Type) : Type :=
| Ok (a : A)
| Raise (e : exn).
Arguments Ok {A} a.
Arguments Raise {A} e.

Definition rbind {A B} (r : result A) (k : A -> result B) : result B :=
  match r with
  | Ok a => k a
  | Raise e => Raise e
  end.

(** [[f(x) for x in l]] where [f] may raise: stops at the first exception. *)
Fixpoint rmap {A B} (f : A -> result B) (l : list A) : result (list B) :=
  match l with
  | [] => Ok []
  | x :: l' => rbind (f x) (fun y => rbind (rmap f l') (fun ys => Ok (y :: ys)))
  end.

(** [today + timedelta(days=n)]: [OverflowError] outside [date.min .. date.max]
    (for a valid [today] that covers the bound on [timedelta] itself). *)
Definition date_add (today : Py.date) (n : Z) : result Py.date :=
  if Py.valid_date (today + n) then Ok (today + n)
  else Raise (OverflowError "date value out of range").

(* ================================================================== *)
(** ** models.py: the rows the reminder engine and the export read *)
(* ================================================================== *)

Module Event.
Record t : Type := {
  id : Z;
  title : string;
  category : string;
  edition : option string;
  website : option string;
  association : option string;
  relevance_tags : option string;
  location : option string;
  city : option string;
  submission_deadline : option Py.date;
  notification_date : option Py.date;
  camera_ready_date : option Py.date;
  event_start_date : option Py.date;
  event_end_date : option Py.date;
  description : option string;
  notes : option string;
  status : option string;
  pinned : option bool;
  created_at : option Py.datetime;
  updated_at : option Py.datetime
}.

(** The property [days_until_deadline]; [today] is [date.today()]. *)
Definition days_until_deadline (today : Py.date) (self : t) : option Z :=
  match submission_deadline self with
  | Some d => Some (d - today)
  | None => None
  end.

Definition is_deadline_soon (today : Py.date) (self : t) : bool :=
  match days_until_deadline today self with
  | Some d => (0 <=? d) && (d <=? 14)
  | None => false
  end.

Definition is_deadline_passed (today : Py.date) (self : t) : bool :=
  match days_until_deadline today self with
  | Some d => d <? 0
  | None => false
  end.
End Event.

#[global] Instance Event_eq_dec : EqDecision Event.t.
Proof. solve_decision. Defined.

Module Researcher.
Record t : Type := {
  id : Z;
  name : string;
  website : option string;
  affiliation : option string;
  research_areas : option string;
  notes : option string
}.
End Researcher.

Module Todo.
Record t : Type := {
  id : Z;
  title : string;
  description : option string;
  priority : option string;
  due_date : option Py.date;
  status : option string;
  category : option string
}.

(** The property [is_overdue]; [today] is [date.today()]. *)
Definition is_overdue (today : Py.date) (self : t) : bool :=
  match due_date self with
  | Some due =>
      if match status self with
         | Some s => negb (String.eqb s "completed")
         | None => true
         end
      then due <? today
      else false
  | None => false
  end.
End Todo.

(** The [Float] column [hours_worked]: the type of Python floats with the two
    operations the export applies to it. *)
Class PyFloat : Type := {
  float : Type;
  (** [f"{x}"] *)
  float_str : float -> string;
  (** truthiness, [x != 0.0] *)
  float_truthy : float -> bool
}.

Module DailyLog.
Record t `{PyFloat} : Type := {
  id : Z;
  log_date : Py.date;
  content : option string;
  hours_worked : option float;
  mood : option string;
  tags : option string
}.
End DailyLog.

Module PhDMilestone.
Record t : Type := {
  id : Z;
  title : string;
  description : option string;
  target_date : option Py.date;
  completed_date : option Py.date;
  status : option string;
  category : option string;
  sort_order : option Z
}.
End PhDMilestone.

(** The row id SQLite gives the next row of a table with the ids [ids]. *)
Definition next_id (ids : list Z) : Z := 1 + fold_right Z.max 0 ids.

Module AppSetting.
Record t : Type := {
  id : Z;
  key : string;
  value : option string
}.

(** [AppSetting.query.filter_by(key=key).first()] *)
Definition first_by_key (k : string) (table : list t) : option t :=
  List.find (fun setting => String.eqb (key setting) k) table.

(** [AppSetting.get(key, default)] on the table of settings. *)
Definition get (k : string) (default : option string) (table : list t) : option string :=
  match first_by_key k table with
  | Some setting => value setting
  | None => default
  end.

(** [AppSetting.set(key, value)]: the table after the commit.  The row found
    is updated through its primary key; a new row goes to the end. *)
Definition set (k v : string) (table : list t) : list t :=
  match first_by_key k table with
  | Some setting =>
      map (fun row =>
             if id row =? id setting
             then {| id := id row; key := key row; value := Some v |}
             else row) table
  | None => (table ++ [ {| id := next_id (map id table); key := k; value := Some v |} ])%list
  end.
End AppSetting.

(* ================================================================== *)
(** ** The outside world: webhook and SMTP deliveries *)
(* ================================================================== *)

Record EmbedField : Type := {
  field_name : string;
  field_value : string;
  field_inline : bool
}.

(** A Discord embed, the dict built by [DiscordNotifier]; an absent key is
    [None]. *)
Record Embed : Type := {
  embed_title : string;
  embed_description : option string;
  embed_url : option string;
  embed_color : Z;
  embed_fields : option (list EmbedField)
}.

(** The JSON body of [requests.post]. *)
Record Payload : Type := {
  payload_content : string;
  payload_embeds : option (list Embed)
}.

(** The message [EmailNotifier._send] builds. *)
Record Mail : Type := {
  mail_subject : string;
  mail_from : string;
  mail_to : string;
  mail_html : string
}.

Inductive request : Type :=
| HttpPost (url : string) (json : Payload)
| SmtpSession (server : string) (port : Z) (username password : string) (msg : Mail).

(** What a notifier is asked to deliver. *)
Inductive delivery : Type :=
| Reminder (event : Event.t)
| Digest (upcoming : list Event.t) (pending_todos : list Todo.t).

(** The world decides, request by request, whether a delivery goes through
    ([None]) or raises ([Some message]). *)
Class Transport : Type := {
  World : Type;
  deliver : World -> request -> World * option string
}.

Section Monad.
Context `{Transport}.

(** The state a tick runs in: the world, the requests put on the wire, the
    deliveries the scheduler asked of its notifiers (by notifier kind), and
    the lines given to [app.logger.error]. *)
Record State : Type := {
  world : World;
  sent : list request;
  calls : list (string * delivery);
  errors : list string
}.

Definition M (A : Type) : Type := State -> State * result A.

Definition ret {A} (a : A) : M A := fun s => (s, Ok a).
Definition raise {A} (e : exn) : M A := fun s => (s, Raise e).
Definition bind {A B} (m : M A) (k : A -> M B) : M B :=
  fun s => match m s with
           | (s', Ok a) => k a s'
           | (s', Raise e) => (s', Raise e)
           end.
Definition lift {A} (r : result A) : M A := fun s => (s, r).

(** [try: body  except Exception as e: handler(e)] *)
Definition try_except (body : M unit) (handler : exn -> M unit) : M unit :=
  fun s => match body s with
           | (s', Ok tt) => (s', Ok tt)
           | (s', Raise e) => handler e s'
           end.

(** [for x in l: body(x)] *)
Fixpoint for_each {A} (l : list A) (body : A -> M unit) : M unit :=
  match l with
  | [] => ret tt
  | x :: l' => bind (body x) (fun _ => for_each l' body)
  end.

(** One request on the wire. *)
Definition perform (r : request) : M unit :=
  fun s =>
    let (w, outcome) := deliver (world s) r in
    ({| world := w; sent := (sent s ++ [r])%list; calls := calls s; errors := errors s |},
     match outcome with
     | None => Ok tt
     | Some msg => Raise (TransportError msg)
     end).

(** [app.logger.error(line)] *)
Definition logger_error (line : string) : M unit :=
  fun s =>
    ({| world := world s; sent := sent s; calls := calls s;
        errors := (errors s ++ [line])%list |}, Ok tt).

(** The scheduler hands [what] to the notifier registered as [kind]. *)
Definition record_call (kind : string) (what : delivery) : M unit :=
  fun s =>
    ({| world := world s; sent := sent s; calls := (calls s ++ [(kind, what)])%list;
        errors := errors s |}, Ok tt).

Definition initial (w : World) : State :=
  {| world := w; sent := []; calls := []; errors := [] |}.
End Monad.

Notation "'do' x <- m ; k" := (bind m (fun x => k))
  (at level 10, x name, m at level 100, k at level 200).
Notation "'run' m ; k" := (bind m (fun _ => k))
  (at level 10, m at level 100, k at level 200).

(* ================================================================== *)
(** ** integrations.py *)
(* ================================================================== *)

Definition none_le_int : exn :=
  TypeError "'<=' not supported between instances of 'NoneType' and 'int'".
Definition none_isoformat : exn :=
  AttributeError "'NoneType' object has no attribute 'isoformat'".

(** [{"high": ..., "medium": ..., "low": ...}.get(t.priority, default)] *)
Definition priority_icon (priority : option string) : string :=
  match priority with
  | Some p =>
      if String.eqb p "high" then "🔴"
      else if String.eqb p "medium" then "🟡"
      else if String.eqb p "low" then "🟢"
      else "⚪"
  | None => "⚪"
  end.

Module DiscordNotifier.
Record t : Type := { webhook_url : string }.

Section Methods.
Context `{Transport}.
Context {U : Py.Unicode}.

(** [send_message(self, content, embeds=None)] *)
Definition send_message (self : t) (content : string)
    (embeds : option (list Embed)) : M unit :=
  let payload :=
    match embeds with
    | Some (_ :: _) => {| payload_content := content; payload_embeds := embeds |}
    | _ => {| payload_content := content; payload_embeds := None |}
    end in
  perform (HttpPost (webhook_url self) payload).

(** The embed of [send_deadline_reminder]. *)
Definition reminder_embed (today : Py.date) (event : Event.t) : result Embed :=
  match Event.days_until_deadline today event with
  | None => Raise none_le_int
  | Some days =>
      let color := if days <=? 3 then 0xFF0000 else 0xFFAA00 in
      match Event.submission_deadline event with
      | None => Raise none_isoformat
      | Some deadline =>
          let fields :=
            [ {| field_name := "Category";
                 field_value := Py.title (Event.category event);
                 field_inline := true |};
              {| field_name := "Days Left";
                 field_value := Py.str_int days;
                 field_inline := true |};
              {| field_name := "Deadline";
                 field_value := Py.isoformat deadline;
                 field_inline := true |} ] in
          Ok {| embed_title := "Deadline Reminder: " +:+ Event.title event;
                embed_description := None;
                embed_url :=
                  if Py.truthy (Event.website event) then Event.website event
                  else None;
                embed_color := color;
                embed_fields :=
                  Some (if Py.truthy (Event.relevance_tags event)
                        then (fields ++
                             [ {| field_name := "Tags";
                                  field_value := Py.or_empty (Event.relevance_tags event);
                                  field_inline := false |} ])%list
                        else fields) |}
      end
  end.

Definition send_deadline_reminder (self : t) (today : Py.date)
    (event : Event.t) : M unit :=
  do embed <- lift (reminder_embed today event);
  send_message self "" (Some [embed]).

(** One line of the deadlines embed of the digest. *)
Definition deadline_line (today : Py.date) (e : Event.t) : result string :=
  match Event.submission_deadline e with
  | None => Raise none_isoformat
  | Some deadline =>
      Ok ("**" +:+ Event.title e +:+ "** — "
          +:+ match Event.days_until_deadline today e with
              | Some days => Py.str_int days
              | None => "None"
              end
          +:+ " days left (" +:+ Py.isoformat deadline +:+ ")")
  end.

(** The embeds of [send_daily_digest]. *)
Definition digest_embeds (today : Py.date) (upcoming_deadlines : list Event.t)
    (pending_todos : list Todo.t) : result (list Embed) :=
  rbind
    (match upcoming_deadlines with
     | [] => Ok []
     | _ :: _ =>
         rbind (rmap (deadline_line today) (Py.slice_to 10 upcoming_deadlines))
           (fun dl_lines =>
              Ok [ {| embed_title := "Upcoming Deadlines";
                      embed_description := Some (Py.join Py.nl dl_lines);
                      embed_url := None;
                      embed_color := 0xFFAA00;
                      embed_fields := None |} ])
     end)
    (fun embeds =>
       match pending_todos with
       | [] => Ok embeds
       | _ :: _ =>
           let todo_lines :=
             map (fun t => "• " +:+ Todo.title t) (Py.slice_to 10 pending_todos) in
           Ok (embeds ++
               [ {| embed_title :=
                      "Pending Todos ("
                      +:+ Py.str_int (Z.of_nat (length pending_todos)) +:+ ")";
                    embed_description := Some (Py.join Py.nl todo_lines);
                    embed_url := None;
                    embed_color := 0x5865F2;
                    embed_fields := None |} ])%list
       end).

Definition send_daily_digest (self : t) (today : Py.date)
    (upcoming_deadlines : list Event.t) (pending_todos : list Todo.t) : M unit :=
  do embeds <- lift (digest_embeds today upcoming_deadlines pending_todos);
  match embeds with
  | [] => ret tt
  | _ :: _ =>
      send_message self ("**Daily Digest — " +:+ Py.isoformat today +:+ "**")
        (Some embeds)
  end.

(** One line of [send_todo_reminder]. *)
Definition todo_line (t : Todo.t) : string :=
  let icon := priority_icon (Todo.priority t) in
  let due :=
    match Todo.due_date t with
    | Some d => " (due: " +:+ Py.isoformat d +:+ ")"
    | None => ""
    end in
  icon +:+ " " +:+ Todo.title t +:+ due.

Definition todo_reminder_embed (todos : list Todo.t) : Embed :=
  {| embed_title := "Pending Tasks";
     embed_description := Some (Py.join Py.nl (map todo_line todos));
     embed_url := None;
     embed_color := 0x5865F2;
     embed_fields := None |}.

Definition send_todo_reminder (self : t) (todos : list Todo.t) : M unit :=
  match todos with
  | [] => ret tt
  | _ :: _ => send_message self "" (Some [todo_reminder_embed todos])
  end.
End Methods.
End DiscordNotifier.

Module EmailNotifier.
Record t : Type := {
  smtp_server : string;
  smtp_port : Z;
  username : string;
  password : string;
  to_email : string
}.

Section Templates.
Context {U : Py.Unicode}.

(** ["<p><a href='" + event.website + "'>Visit website</a></p>" if event.website else ""] *)
Definition website_paragraph (event : Event.t) : string :=
  if Py.truthy (Event.website event)
  then "<p><a href='" +:+ Py.or_empty (Event.website event) +:+ "'>Visit website</a></p>"
  else "".

(** The HTML body of [send_deadline_reminder]. *)
Definition reminder_html (today : Py.date) (event : Event.t) : result string :=
  match Event.days_until_deadline today event with
  | None => Raise none_le_int
  | Some days =>
      let color := if days <=? 3 then "#dc2626" else "#f59e0b" in
      match Event.submission_deadline event with
      | None => Raise none_isoformat
      | Some deadline =>
          Ok (Py.lines
    [ "";
      "        <div style=" +:+ Py.dq +:+ "font-family: sans-serif; max-width: 600px; margin: 0 auto;" +:+ Py.dq +:+ ">";
      "            <div style=" +:+ Py.dq +:+ "background: " +:+ color +:+ "; color: white; padding: 16px; border-radius: 8px 8px 0 0;" +:+ Py.dq +:+ ">";
      "                <h2 style=" +:+ Py.dq +:+ "margin:0;" +:+ Py.dq +:+ ">Deadline Reminder</h2>";
      "            </div>";
      "            <div style=" +:+ Py.dq +:+ "border: 1px solid #e5e7eb; padding: 16px; border-radius: 0 0 8px 8px;" +:+ Py.dq +:+ ">";
      "                <h3>" +:+ Event.title event +:+ "</h3>";
      "                <p><strong>Deadline:</strong> " +:+ Py.isoformat deadline +:+ "</p>";
      "                <p><strong>Days remaining:</strong> " +:+ Py.str_int days +:+ "</p>";
      "                <p><strong>Category:</strong> " +:+ Py.title (Event.category event) +:+ "</p>";
      "                " +:+ website_paragraph event;
      "            </div>";
      "        </div>";
      "        " ])
      end
  end.

Definition reminder_subject (today : Py.date) (event : Event.t) : string :=
  "[PPML Dashboard] Deadline: " +:+ Event.title event +:+ " ("
  +:+ match Event.days_until_deadline today event with
      | Some days => Py.str_int days
      | None => "None"
      end
  +:+ " days left)".

(** One [<tr>] of the deadline table of the digest. *)
Definition deadline_row (today : Py.date) (e : Event.t) : result string :=
  match Event.days_until_deadline today e with
  | None => Raise none_le_int
  | Some days =>
      let color :=
        if days <=? 3 then "#dc2626"
        else if days <=? 7 then "#f59e0b" else "#10b981" in
      let link :=
        if Py.truthy (Event.website e)
        then "<a href='" +:+ Py.or_empty (Event.website e) +:+ "'>"
             +:+ Event.title e +:+ "</a>"
        else Event.title e in
      match Event.submission_deadline e with
      | None => Raise none_isoformat
      | Some deadline =>
          Ok ("<tr><td>" +:+ link +:+ "</td><td>" +:+ Event.category e
              +:+ "</td><td style='color:" +:+ color +:+ ";font-weight:bold;'>"
              +:+ Py.str_int days +:+ " days</td><td>" +:+ Py.isoformat deadline
              +:+ "</td></tr>")
      end
  end.

(** One [<li>] of the task list of the digest. *)
Definition todo_item (t : Todo.t) : string :=
  let icon := priority_icon (Todo.priority t) in
  let due :=
    match Todo.due_date t with
    | Some d => " — due " +:+ Py.isoformat d
    | None => ""
    end in
  "<li>" +:+ icon +:+ " " +:+ Todo.title t +:+ due +:+ "</li>".

Definition deadlines_section (deadline_rows : string) : string :=
  if negb (String.eqb deadline_rows "")
  then "<table style='width:100%;border-collapse:collapse;'><tr style='background:#f3f4f6;'><th style='text-align:left;padding:8px;'>Event</th><th style='padding:8px;'>Type</th><th style='padding:8px;'>Remaining</th><th style='padding:8px;'>Date</th></tr>"
       +:+ deadline_rows +:+ "</table>"
  else "<p>No upcoming deadlines.</p>".

Definition tasks_section (todo_items : string) : string :=
  if negb (String.eqb todo_items "")
  then "<ul>" +:+ todo_items +:+ "</ul>"
  else "<p>No pending tasks.</p>".

(** The HTML body of [send_daily_digest]. *)
Definition digest_html (today : Py.date) (upcoming_deadlines : list Event.t)
    (pending_todos : list Todo.t) : result string :=
  rbind (rmap (deadline_row today) (Py.slice_to 15 upcoming_deadlines))
    (fun rows =>
       let deadline_rows := String.concat "" rows in
       let todo_items :=
         String.concat "" (map todo_item (Py.slice_to 10 pending_todos)) in
       Ok (Py.lines
    [ "";
      "        <div style=" +:+ Py.dq +:+ "font-family: sans-serif; max-width: 700px; margin: 0 auto;" +:+ Py.dq +:+ ">";
      "            <div style=" +:+ Py.dq +:+ "background: #4f46e5; color: white; padding: 16px; border-radius: 8px 8px 0 0;" +:+ Py.dq +:+ ">";
      "                <h2 style=" +:+ Py.dq +:+ "margin:0;" +:+ Py.dq +:+ ">PPML/FHE Dashboard — Daily Digest</h2>";
      "                <p style=" +:+ Py.dq +:+ "margin:4px 0 0 0; opacity:0.8;" +:+ Py.dq +:+ ">" +:+ Py.strftime_long today +:+ "</p>";
      "            </div>";
      "            <div style=" +:+ Py.dq +:+ "border: 1px solid #e5e7eb; padding: 16px;" +:+ Py.dq +:+ ">";
      "                <h3>Upcoming Deadlines</h3>";
      "                " +:+ deadlines_section deadline_rows;
      "            </div>";
      "            <div style=" +:+ Py.dq +:+ "border: 1px solid #e5e7eb; padding: 16px; border-radius: 0 0 8px 8px;" +:+ Py.dq +:+ ">";
      "                <h3>Pending Tasks (" +:+ Py.str_int (Z.of_nat (length pending_todos)) +:+ ")</h3>";
      "                " +:+ tasks_section todo_items;
      "            </div>";
      "        </div>";
      "        " ])).

End Templates.

Section Methods.
Context `{Transport}.
Context {U : Py.Unicode}.

(** [_send]: one SMTP session (connect, STARTTLS, login, sendmail). *)
Definition _send (self : t) (subject html_body : string) : M unit :=
  perform
    (SmtpSession (smtp_server self) (smtp_port self) (username self) (password self)
       {| mail_subject := subject;
          mail_from := username self;
          mail_to := to_email self;
          mail_html := html_body |}).

Definition send_deadline_reminder (self : t) (today : Py.date)
    (event : Event.t) : M unit :=
  do html <- lift (reminder_html today event);
  _send self (reminder_subject today event) html.

Definition send_daily_digest (self : t) (today : Py.date)
    (upcoming_deadlines : list Event.t) (pending_todos : list Todo.t) : M unit :=
  do html <- lift (digest_html today upcoming_deadlines pending_todos);
  _send self ("[PPML Dashboard] Daily Digest — " +:+ Py.isoformat today) html.
End Methods.
End EmailNotifier.

(** [x <= y] on text, by code points. *)
Definition str_le (a b : string) : Prop := Is_true (String.leb a b).
#[global] Instance str_le_dec : RelDecision str_le.
Proof. intros a b. unfold str_le. apply _. Defined.

(** [sorted(set(l))] for a list of texts. *)
Definition sorted_set (l : list string) : list string :=
  merge_sort str_le (remove_dups l).

Module ObsidianExport.
Record t : Type := {
  vault_path : string;
  base_dir : string
}.

(** [__init__] *)
Definition init (vault_path : string) : t :=
  {| vault_path := vault_path;
     base_dir := Py.path_join vault_path ["PPML-FHE-Dashboard"] |}.

(** The files of the vault, by path.  [_ensure_dir] only creates the
    directories a path goes through; they are not part of the state. *)
Abbreviation vault := (gmap string string).

(** [_write_file]: opens with mode ['w'], so the content replaces what the
    file held. *)
Definition _write_file (filepath content : string) (fs : vault) : vault :=
  <[filepath := content]> fs.

Definition when {A} (b : bool) (l : list A) : list A := if b then l else [].
Definition is_some {A} (o : option A) : bool :=
  match o with Some _ => true | None => false end.
Definition iso (o : option Py.date) : string :=
  match o with Some d => Py.isoformat d | None => "" end.

Section Vault.
Context {U : Py.Unicode}.

(** [[f"  - {t.strip()}" for t in s.split(",")]] *)
Definition tag_lines (s : string) : list string :=
  map (fun t => "  - " +:+ Py.strip t) (Py.split ","%char s).

(** [safe_title] of [export_event]:
    ["".join(c for c in title if c.isalnum() or c in (' ', '-', '_')).strip()] *)
Definition safe_title (title : string) : string :=
  Py.strip
    (Py.text
       (List.filter
          (fun c => Py.isalnum_char c || existsb (String.eqb c) [" "; "-"; "_"])
          (Py.chars title))).

Definition event_filepath (self : t) (event : Event.t) : string :=
  let category_dir :=
    Py.path_join (base_dir self) ["Events"; Py.title (Event.category event) +:+ "s"] in
  Py.path_join category_dir [safe_title (Event.title event) +:+ ".md"].

Definition event_content (event : Event.t) : string :=
  let website := Py.or_empty (Event.website event) in
  let frontmatter :=
    ([ "---";
       "title: " +:+ Py.quoted (Event.title event);
       "category: " +:+ Event.category event;
       "status: " +:+ Py.fmt (Event.status event) ]
     ++ when (Py.truthy (Event.website event)) ["website: " +:+ Py.quoted website]
     ++ when (is_some (Event.submission_deadline event))
          ["submission_deadline: " +:+ iso (Event.submission_deadline event)]
     ++ when (is_some (Event.event_start_date event))
          ["event_start: " +:+ iso (Event.event_start_date event)]
     ++ when (is_some (Event.event_end_date event))
          ["event_end: " +:+ iso (Event.event_end_date event)]
     ++ when (Py.truthy (Event.relevance_tags event))
          ("tags:" :: tag_lines (Py.or_empty (Event.relevance_tags event)))
     ++ when (Py.truthy (Event.location event))
          ["location: " +:+ Py.or_empty (Event.location event)]
     ++ ["---"; ""])%list in
  let body :=
    ([ "# " +:+ Event.title event; "" ]
     ++ when (Py.truthy (Event.website event))
          ["**Website:** [" +:+ website +:+ "](" +:+ website +:+ ")"]
     ++ when (Py.truthy (Event.association event))
          ["**Association:** " +:+ Py.or_empty (Event.association event)]
     ++ when (Py.truthy (Event.location event))
          ["**Location:** " +:+ Py.or_empty (Event.location event)]
     ++ [""]
     ++ when (is_some (Event.submission_deadline event)
              || is_some (Event.notification_date event)
              || is_some (Event.event_start_date event))
          (["## Key Dates"]
           ++ when (is_some (Event.submission_deadline event))
                ["- **Submission Deadline:** " +:+ iso (Event.submission_deadline event)]
           ++ when (is_some (Event.notification_date event))
                ["- **Notification:** " +:+ iso (Event.notification_date event)]
           ++ when (is_some (Event.camera_ready_date event))
                ["- **Camera Ready:** " +:+ iso (Event.camera_ready_date event)]
           ++ when (is_some (Event.event_start_date event))
                ["- **Event Date:** " +:+ iso (Event.event_start_date event)
                 +:+ (if is_some (Event.event_end_date event)
                      then " to " +:+ iso (Event.event_end_date event) else "")]
           ++ [""])
     ++ when (Py.truthy (Event.description event))
          ["## Description"; Py.or_empty (Event.description event); ""]
     ++ when (Py.truthy (Event.notes event))
          ["## Notes"; Py.or_empty (Event.notes event); ""])%list in
  Py.join Py.nl frontmatter +:+ Py.join Py.nl body.

Definition export_event (self : t) (event : Event.t) (fs : vault) : vault :=
  _write_file (event_filepath self event) (event_content event) fs.

Definition researcher_filename (researcher : Researcher.t) : string :=
  Py.replace_char "/"%char "-"%char (Researcher.name researcher) +:+ ".md".

Definition researcher_filepath (self : t) (researcher : Researcher.t) : string :=
  Py.path_join (base_dir self) ["Researchers"; researcher_filename researcher].

Definition researcher_content (researcher : Researcher.t) : string :=
  let areas := Py.or_empty (Researcher.research_areas researcher) in
  let website := Py.or_empty (Researcher.website researcher) in
  Py.join Py.nl
    ([ "---";
       "name: " +:+ Py.quoted (Researcher.name researcher);
       "affiliation: " +:+ Py.quoted (Py.or_empty (Researcher.affiliation researcher)) ]
     ++ when (Py.truthy (Researcher.research_areas researcher))
          ("tags:" :: tag_lines areas)
     ++ ["---"; ""; "# " +:+ Researcher.name researcher; ""]
     ++ when (Py.truthy (Researcher.affiliation researcher))
          ["**Affiliation:** " +:+ Py.or_empty (Researcher.affiliation researcher)]
     ++ when (Py.truthy (Researcher.website researcher))
          ["**Website:** [" +:+ website +:+ "](" +:+ website +:+ ")"]
     ++ when (Py.truthy (Researcher.research_areas researcher))
          ["**Research Areas:** " +:+ areas]
     ++ when (Py.truthy (Researcher.notes researcher))
          [""; "## Notes"; Py.or_empty (Researcher.notes researcher)])%list.

Definition export_researcher (self : t) (researcher : Researcher.t) (fs : vault) : vault :=
  _write_file (researcher_filepath self researcher) (researcher_content researcher) fs.

Definition index_content (events : list Event.t) : string :=
  let index_lines :=
    [ "# PPML/FHE Research Dashboard"; "";
      "## Quick Links";
      "- [[Events]]"; "- [[Researchers]]"; "- [[Daily Notes]]";
      ""; "## Event Categories" ] in
  let categories := sorted_set (map Event.category events) in
  Py.join Py.nl
    (index_lines
     ++ map (fun cat => "- [[Events/" +:+ Py.title cat +:+ "s/]]") categories)%list.

(** [for x in l: export(x)] on the vault. *)
Definition export_each {A} (export : A -> vault -> vault) (l : list A)
    (fs : vault) : vault :=
  fold_left (fun fs x => export x fs) l fs.

Section DailyLogs.
Context `{PyFloat}.

Definition hours_str (h : option float) : string :=
  match h with Some x => float_str x | None => "None" end.
Definition hours_truthy (h : option float) : bool :=
  match h with Some x => float_truthy x | None => false end.

Definition daily_log_filepath (self : t) (log : DailyLog.t) : string :=
  Py.path_join (base_dir self)
    ["Daily Notes"; Py.isoformat (DailyLog.log_date log) +:+ ".md"].

Definition daily_log_content (log : DailyLog.t) : string :=
  let day := Py.isoformat (DailyLog.log_date log) in
  Py.join Py.nl
    ([ "---";
       "date: " +:+ day;
       "hours_worked: " +:+ hours_str (DailyLog.hours_worked log) ]
     ++ when (Py.truthy (DailyLog.mood log))
          ["mood: " +:+ Py.or_empty (DailyLog.mood log)]
     ++ when (Py.truthy (DailyLog.tags log))
          ("tags:" :: tag_lines (Py.or_empty (DailyLog.tags log)))
     ++ ["---"; ""; "# " +:+ day; ""]
     ++ when (hours_truthy (DailyLog.hours_worked log))
          ["**Hours worked:** " +:+ hours_str (DailyLog.hours_worked log)]
     ++ when (Py.truthy (DailyLog.mood log))
          ["**Mood:** " +:+ Py.or_empty (DailyLog.mood log)]
     ++ [""; Py.or_empty (DailyLog.content log)])%list.

Definition export_daily_log (self : t) (log : DailyLog.t) (fs : vault) : vault :=
  _write_file (daily_log_filepath self log) (daily_log_content log) fs.

Definition export_all (self : t) (events : list Event.t)
    (researchers : list Researcher.t) (daily_logs : list DailyLog.t)
    (fs : vault) : vault :=
  let fs := export_each (export_event self) events fs in
  let fs := export_each (export_researcher self) researchers fs in
  let fs := export_each (export_daily_log self) daily_logs fs in
  _write_file (Py.path_join (base_dir self) ["Index.md"]) (index_content events) fs.
End DailyLogs.
End Vault.
End ObsidianExport.

(** The Notion API as the sync sees it: a request is answered with the JSON
    of the page ([inr]) or fails ([inl], whatever [requests] raises). *)
Module NotionSync.
Record t : Type := {
  api_key : string;
  events_db_id : option string;
  todos_db_id : option string
}.

(** The [properties] of an event page; an absent key is [None]. *)
Record EventProperties : Type := {
  Title : string;
  Category : string;
  Status : option string;
  Website : option string;
  Tags : option (list string);
  Location : option string;
  Submission_Deadline : option string;
  Event_Date : option (string * option string)
}.

(** The [properties] of a todo page. *)
Record TodoProperties : Type := {
  todo_Title : string;
  todo_Status : option string;
  todo_Priority : option string;
  todo_Due_Date : option string;
  todo_Category : option string
}.

Inductive page : Type :=
| EventPage (database_id : string) (properties : EventProperties)
| TodoPage (database_id : string) (properties : TodoProperties).

(** [requests.post(f"{base_url}/{endpoint}", headers=..., json=data)] *)
Record post : Type := {
  url : string;
  authorization : string;
  data : page
}.

Definition base_url : string := "https://api.notion.com/v1".

(** The [properties] dict of [sync_event]. *)
Definition event_properties (event : Event.t) : EventProperties :=
  {| Title := Event.title event;
     Category := Event.category event;
     Status := Event.status event;
     Website := if Py.truthy (Event.website event) then Event.website event else None;
     Tags :=
       if Py.truthy (Event.relevance_tags event)
       then Some (map Py.strip (Py.split "," (Py.or_empty (Event.relevance_tags event))))
       else None;
     Location := if Py.truthy (Event.location event) then Event.location event else None;
     Submission_Deadline := option_map Py.isoformat (Event.submission_deadline event);
     Event_Date :=
       match Event.event_start_date event with
       | Some start =>
           Some (Py.isoformat start, option_map Py.isoformat (Event.event_end_date event))
       | None => None
       end |}.

(** The [properties] dict of [sync_todo]. *)
Definition todo_properties (todo : Todo.t) : TodoProperties :=
  {| todo_Title := Todo.title todo;
     todo_Status := Todo.status todo;
     todo_Priority := Todo.priority todo;
     todo_Due_Date := option_map Py.isoformat (Todo.due_date todo);
     todo_Category :=
       if Py.truthy (Todo.category todo) then Todo.category todo else None |}.

Definition page_post (self : t) (p : page) : post :=
  {| url := base_url +:+ "/" +:+ "pages";
     authorization := "Bearer " +:+ api_key self;
     data := p |}.

Section Methods.
Context {World : Type} (api : World -> post -> World * (string + string)).

(** The world and the posts made so far. *)
Definition state : Type := World * list post.

(** [_post]: the answer's JSON, or the exception. *)
Definition _post (self : t) (p : page) (s : state) : state * result string :=
  let (w, answer) := api s.1 (page_post self p) in
  ((w, (s.2 ++ [page_post self p])%list),
   match answer with
   | inr json => Ok json
   | inl msg => Raise (TransportError msg)
   end).

(** [sync_event]: [None] without a request when no events database is set. *)
Definition sync_event (self : t) (event : Event.t) (s : state)
  : state * result (option string) :=
  if Py.truthy (events_db_id self) then
    let (s', r) :=
      _post self (EventPage (Py.or_empty (events_db_id self)) (event_properties event)) s in
    (s', rbind r (fun json => Ok (Some json)))
  else (s, Ok None).

(** [sync_todo]: [None] without a request when no todos database is set. *)
Definition sync_todo (self : t) (todo : Todo.t) (s : state)
  : state * result (option string) :=
  if Py.truthy (todos_db_id self) then
    let (s', r) :=
      _post self (TodoPage (Py.or_empty (todos_db_id self)) (todo_properties todo)) s in
    (s', rbind r (fun json => Ok (Some json)))
  else (s, Ok None).
End Methods.
End NotionSync.

(* ================================================================== *)
(** ** scheduler.py *)
(* ================================================================== *)

Module Scheduler.

(** A notifier instance of either class; the scheduler calls both through
    the same two methods. *)
Inductive Notifier : Type :=
| Discord (n : DiscordNotifier.t)
| Email (n : EmailNotifier.t).

(** [os.environ] *)
Abbreviation environment := (gmap string string).

(** The tables the ticks query. *)
Record Db : Type := {
  events : list Event.t;
  todos : list Todo.t
}.

(** [_get_notifiers]: [os.getenv(k)] is [environ !! k]. *)
Definition _get_notifiers (environ : environment) : result (list (string * Notifier)) :=
  let discord_url := environ !! "DISCORD_WEBHOOK_URL" in
  let notifiers :=
    if Py.truthy discord_url
    then [("discord", Discord {| DiscordNotifier.webhook_url := Py.or_empty discord_url |})]
    else [] in
  let smtp_server := environ !! "SMTP_SERVER" in
  let smtp_user := environ !! "SMTP_USERNAME" in
  let smtp_pass := environ !! "SMTP_PASSWORD" in
  let email_to := environ !! "EMAIL_TO" in
  if Py.truthy smtp_server && Py.truthy smtp_user && Py.truthy smtp_pass
     && Py.truthy email_to
  then
    match Py.int_of_string (default "587" (environ !! "SMTP_PORT")) with
    | Some port =>
        Ok (notifiers ++
            [("email",
              Email {| EmailNotifier.smtp_server := Py.or_empty smtp_server;
                       EmailNotifier.smtp_port := port;
                       EmailNotifier.username := Py.or_empty smtp_user;
                       EmailNotifier.password := Py.or_empty smtp_pass;
                       EmailNotifier.to_email := Py.or_empty email_to |})])%list
    | None => Raise (ValueError "invalid literal for int() with base 10")
    end
  else Ok notifiers.

(** [max(l)] *)
Definition py_max (l : list Z) : result Z :=
  match l with
  | [] => Raise (ValueError "max() arg is an empty sequence")
  | x :: l' => Ok (fold_left Z.max l' x)
  end.

(** Ascending order on a nullable date column, SQLite's: NULL first. *)
Definition date_asc (a b : option Py.date) : bool :=
  match a, b with
  | None, _ => true
  | Some _, None => false
  | Some x, Some y => x <=? y
  end.

(** [ORDER BY submission_deadline] *)
Definition by_deadline (a b : Event.t) : Prop :=
  Is_true (date_asc (Event.submission_deadline a) (Event.submission_deadline b)).

(** The query of [upcoming]: deadline not NULL, [>= today], [<= limit],
    ordered by deadline. *)
Definition in_window (today limit : Py.date) (e : Event.t) : bool :=
  match Event.submission_deadline e with
  | Some d => (today <=? d) && (d <=? limit)
  | None => false
  end.
Definition upcoming_query (today limit : Py.date) (table : list Event.t) : list Event.t :=
  merge_sort by_deadline (List.filter (in_window today limit) table).

(** [Todo.status.in_(["pending", "in_progress"])] *)
Definition is_pending (t : Todo.t) : bool :=
  match Todo.status t with
  | Some s => String.eqb s "pending" || String.eqb s "in_progress"
  | None => false
  end.

(** [due_date.asc().nullslast()] *)
Definition due_compare (a b : option Py.date) : comparison :=
  match a, b with
  | Some x, Some y => x ?= y
  | Some _, None => Lt
  | None, Some _ => Gt
  | None, None => Eq
  end.
(** [Todo.priority], ascending on the text column: NULL first, then by
    code points. *)
Definition priority_asc (a b : option string) : bool :=
  match a, b with
  | None, _ => true
  | Some _, None => false
  | Some x, Some y => String.leb x y
  end.
(** [ORDER BY due_date ASC NULLS LAST, priority] *)
Definition by_due_then_priority (a b : Todo.t) : Prop :=
  Is_true
    match due_compare (Todo.due_date a) (Todo.due_date b) with
    | Lt => true
    | Gt => false
    | Eq => priority_asc (Todo.priority a) (Todo.priority b)
    end.
Definition pending_todos_query (table : list Todo.t) : list Todo.t :=
  merge_sort by_due_then_priority (List.filter is_pending table).

(** [Event.submission_deadline == target_date] *)
Definition deadline_is (target_date : Py.date) (e : Event.t) : bool :=
  match Event.submission_deadline e with
  | Some d => d =? target_date
  | None => false
  end.

(** The environment read by [init_scheduler]. *)
Record Config : Type := {
  digest_hour : Z;
  reminder_days : list Z
}.
Definition parse_int (s : string) : result Z :=
  match Py.int_of_string s with
  | Some n => Ok n
  | None => Raise (ValueError "invalid literal for int() with base 10")
  end.
Definition read_config (environ : environment) : result Config :=
  rbind (parse_int (default "9" (environ !! "DAILY_DIGEST_HOUR")))
    (fun hour =>
       rbind (rmap (fun d => parse_int (Py.strip d))
                (Py.split ","%char (default "7,3,1" (environ !! "REMINDER_DAYS_BEFORE"))))
         (fun days => Ok {| digest_hour := hour; reminder_days := days |})).

Section Ticks.
Context `{Transport}.
Context {U : Py.Unicode}.

Definition send_deadline_reminder (notifier : Notifier) (today : Py.date)
    (event : Event.t) : M unit :=
  match notifier with
  | Discord n => DiscordNotifier.send_deadline_reminder n today event
  | Email n => EmailNotifier.send_deadline_reminder n today event
  end.

Definition send_daily_digest (notifier : Notifier) (today : Py.date)
    (upcoming : list Event.t) (pending_todos : list Todo.t) : M unit :=
  match notifier with
  | Discord n => DiscordNotifier.send_daily_digest n today upcoming pending_todos
  | Email n => EmailNotifier.send_daily_digest n today upcoming pending_todos
  end.

(** The body of the [for kind, notifier in notifiers] loop of the digest. *)
Definition digest_via (today : Py.date) (upcoming : list Event.t)
    (pending_todos : list Todo.t) (entry : string * Notifier) : M unit :=
  let (kind, notifier) := entry in
  try_except
    (run record_call kind (Digest upcoming pending_todos);
     send_daily_digest notifier today upcoming pending_todos)
    (fun e =>
       logger_error ("Failed to send daily digest via " +:+ kind +:+ ": " +:+ exn_str e)).

(** [_send_daily_digest(app, reminder_days)]; [today] is [date.today()],
    [db] the tables of [app], [environ] the environment. *)
Definition _send_daily_digest (environ : environment) (today : Py.date)
    (db : Db) (reminder_days : list Z) : M unit :=
  do notifiers <- lift (_get_notifiers environ);
  match notifiers with
  | [] => ret tt
  | _ :: _ =>
      do longest <- lift (py_max reminder_days);
      let max_days := longest + 7 in
      do limit <- lift (date_add today max_days);
      let upcoming := upcoming_query today limit (events db) in
      let pending_todos := pending_todos_query (todos db) in
      for_each notifiers (digest_via today upcoming pending_todos)
  end.

(** The body of the [for kind, notifier in notifiers] loop of the check. *)
Definition remind_via (today : Py.date) (event : Event.t)
    (entry : string * Notifier) : M unit :=
  let (kind, notifier) := entry in
  try_except
    (run record_call kind (Reminder event);
     send_deadline_reminder notifier today event)
    (fun e =>
       logger_error ("Failed to send reminder for " +:+ Event.title event
                     +:+ " via " +:+ kind +:+ ": " +:+ exn_str e)).

(** [_check_deadlines(app, reminder_days)] *)
Definition _check_deadlines (environ : environment) (today : Py.date)
    (db : Db) (reminder_days : list Z) : M unit :=
  do notifiers <- lift (_get_notifiers environ);
  match notifiers with
  | [] => ret tt
  | _ :: _ =>
      for_each reminder_days (fun days =>
        do target_date <- lift (date_add today days);
        let events := List.filter (deadline_is target_date) (events db) in
        for_each events (fun event =>
          for_each notifiers (remind_via today event)))
  end.
End Ticks.
End Scheduler.

(* ================================================================== *)
(** ** app.py: what the handlers do to the tables *)
(* ================================================================== *)

(** The handlers are modelled by their effect on the tables they commit to
    and by what they answer; log-in, templates and redirects are left out.
    A handler that raises or aborts commits nothing. *)
Module App.

(** [request.form], with the first value of every key. *)
Abbreviation form := (gmap string string).

(** [request.form.get(key, default)] *)
Definition form_get (f : form) (k fallback : string) : string :=
  match f !! k with
  | Some v => v
  | None => fallback
  end.

(** [s.strip() or None] *)
Definition strip_or_none (s : string) : option string :=
  let stripped := Py.strip s in
  if String.eqb stripped "" then None else Some stripped.

(** How a handler ends: it commits and answers, it aborts with an HTTP
    status ([get_or_404], a missing form key), or it raises. *)
Inductive outcome (A : Type) : Type :=
| Done (a : A)
| Abort (status : Z)
| Failed (e : exn).
Arguments Done {A} a.
Arguments Abort {A} status.
Arguments Failed {A} e.

(** [not x] for a nullable flag. *)
Definition py_not (x : option bool) : bool :=
  match x with
  | Some b => negb b
  | None => true
  end.

(** [event.pinned = value], committed at [now]: the row is written, so
    [updated_at] gets its [onupdate] value. *)
Definition with_pinned (e : Event.t) (value : option bool) (now : Py.datetime)
  : Event.t :=
  {| Event.id := Event.id e; Event.title := Event.title e;
     Event.category := Event.category e; Event.edition := Event.edition e;
     Event.website := Event.website e; Event.association := Event.association e;
     Event.relevance_tags := Event.relevance_tags e; Event.location := Event.location e;
     Event.city := Event.city e;
     Event.submission_deadline := Event.submission_deadline e;
     Event.notification_date := Event.notification_date e;
     Event.camera_ready_date := Event.camera_ready_date e;
     Event.event_start_date := Event.event_start_date e;
     Event.event_end_date := Event.event_end_date e;
     Event.description := Event.description e; Event.notes := Event.notes e;
     Event.status := Event.status e; Event.pinned := value;
     Event.created_at := Event.created_at e; Event.updated_at := Some now |}.

(** [event_pin]: the table after the commit and the flag it answers; [now]
    is [datetime.utcnow()] at the commit. *)
Definition event_pin (event_id : Z) (now : Py.datetime) (table : list Event.t)
  : outcome (list Event.t * bool) :=
  match List.find (fun e => Event.id e =? event_id) table with
  | None => Abort 404
  | Some event =>
      let pinned := py_not (Event.pinned event) in
      Done (map (fun e =>
                   if Event.id e =? Event.id event
                   then with_pinned e (Some pinned) now
                   else e) table,
            pinned)
  end.

(** The count of [overdue_todos] of the dashboard:
    [Todo.due_date < today, Todo.status != "completed"] in SQL, where a
    comparison with NULL selects nothing. *)
Definition overdue_row (today : Py.date) (t : Todo.t) : bool :=
  match Todo.due_date t, Todo.status t with
  | Some due, Some s => (due <? today) && negb (String.eqb s "completed")
  | _, _ => false
  end.
Definition overdue_todos (today : Py.date) (table : list Todo.t) : nat :=
  length (List.filter (overdue_row today) table).

(** The [upcoming_deadlines] of the dashboard: the next 60 days, the first
    15 by deadline. *)
Definition dashboard_upcoming (today : Py.date) (table : list Event.t)
  : result (list Event.t) :=
  rbind (date_add today 60)
    (fun limit => Ok (Py.slice_to 15 (Scheduler.upcoming_query today limit table))).

(** The keys of the settings page. *)
Definition setting_keys : list string :=
  [ "notion_api_key"; "notion_events_db_id"; "notion_todos_db_id";
    "obsidian_vault_path"; "discord_webhook_url";
    "smtp_server"; "smtp_port"; "smtp_username"; "smtp_password"; "email_to";
    "reminder_days_before"; "daily_digest_hour" ].

(** [settings], action [save_integrations]. *)
Definition save_integrations (f : form) (table : list AppSetting.t) : list AppSetting.t :=
  fold_left (fun table key => AppSetting.set key (Py.strip (form_get f key "")) table)
    setting_keys table.

(** [settings], the settings it shows: [{k: AppSetting.get(k, "") ...}]. *)
Definition current_settings (table : list AppSetting.t) : list (string * option string) :=
  map (fun k => (k, AppSetting.get k (Some "") table)) setting_keys.

(** [MAX(sort_order)]: NULL when no row has one. *)
Definition sql_max (l : list (option Z)) : option Z :=
  fold_right (fun x acc =>
                match x, acc with
                | Some a, Some b => Some (Z.max a b)
                | Some a, None => Some a
                | None, _ => acc
                end) None l.

(** [x or 0] *)
Definition or_zero (x : option Z) : Z :=
  match x with Some n => n | None => 0 end.

Section Handlers.
(** [date.fromisoformat]; [None] stands for its [ValueError]. *)
Variable fromisoformat : string -> option Py.date.

(** [date.fromisoformat(val) if val else None] *)
Definition parse_date (val : string) : result (option Py.date) :=
  if String.eqb val "" then Ok None
  else match fromisoformat val with
       | Some d => Ok (Some d)
       | None => Raise (ValueError "Invalid isoformat string")
       end.

(** [_event_from_form(event)]; [now] is [datetime.utcnow()]. *)
Definition _event_from_form (event : Event.t) (f : form) (now : Py.datetime)
  : result Event.t :=
  let date_field (name : string) := parse_date (Py.strip (form_get f name "")) in
  rbind (date_field "submission_deadline") (fun submission_deadline =>
  rbind (date_field "notification_date") (fun notification_date =>
  rbind (date_field "camera_ready_date") (fun camera_ready_date =>
  rbind (date_field "event_start_date") (fun event_start_date =>
  rbind (date_field "event_end_date") (fun event_end_date =>
  Ok {| Event.id := Event.id event;
        Event.title := Py.strip (form_get f "title" "");
        Event.category := form_get f "category" "conference";
        Event.edition := strip_or_none (form_get f "edition" "");
        Event.website := strip_or_none (form_get f "website" "");
        Event.association := strip_or_none (form_get f "association" "");
        Event.relevance_tags := strip_or_none (form_get f "relevance_tags" "");
        Event.location := strip_or_none (form_get f "location" "");
        Event.city := strip_or_none (form_get f "city" "");
        Event.submission_deadline := submission_deadline;
        Event.notification_date := notification_date;
        Event.camera_ready_date := camera_ready_date;
        Event.event_start_date := event_start_date;
        Event.event_end_date := event_end_date;
        Event.description := strip_or_none (form_get f "description" "");
        Event.notes := strip_or_none (form_get f "notes" "");
        Event.status := Some (form_get f "status" "upcoming");
        Event.pinned := Event.pinned event;
        Event.created_at := Event.created_at event;
        Event.updated_at := Some now |}))))).

(** [todo_new]: the table after the commit; the status is the default of
    the column. *)
Definition todo_new (f : form) (table : list Todo.t) : outcome (list Todo.t) :=
  match f !! "title" with
  | None => Abort 400
  | Some title =>
      match parse_date (Py.strip (form_get f "due_date" "")) with
      | Raise e => Failed e
      | Ok due_date =>
          Done (table ++
                [ {| Todo.id := next_id (map Todo.id table);
                     Todo.title := Py.strip title;
                     Todo.description := strip_or_none (form_get f "description" "");
                     Todo.priority := Some (form_get f "priority" "medium");
                     Todo.due_date := due_date;
                     Todo.status := Some "pending";
                     Todo.category := strip_or_none (form_get f "category" "") |} ])%list
      end
  end.

(** The row of [todo_update] after the assignments. *)
Definition updated_todo (t : Todo.t) (f : form) : result Todo.t :=
  rbind
    match f !! "due_date" with
    | Some s => parse_date (Py.strip s)
    | None => Ok (Todo.due_date t)
    end
    (fun due_date =>
       Ok {| Todo.id := Todo.id t;
             Todo.title :=
               match f !! "title" with
               | Some s => Py.strip s
               | None => Todo.title t
               end;
             Todo.description :=
               match f !! "description" with
               | Some s => strip_or_none s
               | None => Todo.description t
               end;
             Todo.priority :=
               match f !! "priority" with
               | Some s => Some s
               | None => Todo.priority t
               end;
             Todo.due_date := due_date;
             Todo.status :=
               match f !! "status" with
               | Some s => Some s
               | None => Todo.status t
               end;
             Todo.category :=
               match f !! "category" with
               | Some s => strip_or_none s
               | None => Todo.category t
               end |}).

(** [todo_update]: the table after the commit. *)
Definition todo_update (tid : Z) (f : form) (table : list Todo.t)
  : outcome (list Todo.t) :=
  match List.find (fun t => Todo.id t =? tid) table with
  | None => Abort 404
  | Some t =>
      match updated_todo t f with
      | Raise e => Failed e
      | Ok t' => Done (map (fun row => if Todo.id row =? Todo.id t then t' else row) table)
      end
  end.

(** [milestone_new]: the table after the commit. *)
Definition milestone_new (f : form) (table : list PhDMilestone.t)
  : outcome (list PhDMilestone.t) :=
  match f !! "title" with
  | None => Abort 400
  | Some title =>
      match parse_date (Py.strip (form_get f "target_date" "")) with
      | Raise e => Failed e
      | Ok target_date =>
          let max_order := or_zero (sql_max (map PhDMilestone.sort_order table)) in
          Done (table ++
                [ {| PhDMilestone.id := next_id (map PhDMilestone.id table);
                     PhDMilestone.title := Py.strip title;
                     PhDMilestone.description := strip_or_none (form_get f "description" "");
                     PhDMilestone.target_date := target_date;
                     PhDMilestone.completed_date := None;
                     PhDMilestone.status := Some (form_get f "status" "pending");
                     PhDMilestone.category := strip_or_none (form_get f "category" "");
                     PhDMilestone.sort_order := Some (max_order + 1) |} ])%list
      end
  end.

(** The row of [milestone_update] after the assignments. *)
Definition updated_milestone (m : PhDMilestone.t) (f : form) (today : Py.date)
  : result PhDMilestone.t :=
  let title :=
    match f !! "title" with
    | Some s => Py.strip s
    | None => PhDMilestone.title m
    end in
  let description :=
    match f !! "description" with
    | Some s => strip_or_none s
    | None => PhDMilestone.description m
    end in
  let status :=
    match f !! "status" with
    | Some s => Some s
    | None => PhDMilestone.status m
    end in
  let completed_date :=
    match f !! "status" with
    | Some s =>
        if String.eqb s "completed"
        then match PhDMilestone.completed_date m with
             | Some d => Some d
             | None => Some today
             end
        else PhDMilestone.completed_date m
    | None => PhDMilestone.completed_date m
    end in
  rbind
    match f !! "target_date" with
    | Some s => parse_date (Py.strip s)
    | None => Ok (PhDMilestone.target_date m)
    end
    (fun target_date =>
       Ok {| PhDMilestone.id := PhDMilestone.id m;
             PhDMilestone.title := title;
             PhDMilestone.description := description;
             PhDMilestone.target_date := target_date;
             PhDMilestone.completed_date := completed_date;
             PhDMilestone.status := status;
             PhDMilestone.category :=
               match f !! "category" with
               | Some s => strip_or_none s
               | None => PhDMilestone.category m
               end;
             PhDMilestone.sort_order := PhDMilestone.sort_order m |}).

(** [milestone_update]: the table after the commit; [today] is
    [date.today()]. *)
Definition milestone_update (mid : Z) (f : form) (today : Py.date)
    (table : list PhDMilestone.t) : outcome (list PhDMilestone.t) :=
  match List.find (fun m => PhDMilestone.id m =? mid) table with
  | None => Abort 404
  | Some m =>
      match updated_milestone m f today with
      | Raise e => Failed e
      | Ok m' =>
          Done (map (fun row => if PhDMilestone.id row =? PhDMilestone.id m then m' else row)
                  table)
      end
  end.
End Handlers.

Section Discord.
Context `{Transport}.

(** [settings], action [test_discord]: the message flashed, with its
    category. *)
Definition test_discord (settings : list AppSetting.t) : M (string * string) :=
  let webhook := AppSetting.get "discord_webhook_url" (Some "") settings in
  if Py.truthy webhook then
    fun s =>
      let dn := {| DiscordNotifier.webhook_url := Py.or_empty webhook |} in
      match DiscordNotifier.send_message dn "Test message from PPML/FHE Dashboard!" None s with
      | (s', Ok _) => (s', Ok ("Discord test message sent.", "success"))
      | (s', Raise e) => (s', Ok ("Discord test failed: " +:+ exn_str e, "error"))
      end
  else ret ("Discord webhook URL not configured.", "error").
End Discord.

Section Notion.
Context {World : Type} (api : World -> NotionSync.post -> World * (string + string)).

(** The loop of [sync_notion]: the state, the lines logged and [count]. *)
Fixpoint sync_events (ns : NotionSync.t) (events : list Event.t)
    (s : NotionSync.state (World := World)) (log : list string) (count : Z)
  : NotionSync.state (World := World) * list string * Z :=
  match events with
  | [] => (s, log, count)
  | event :: rest =>
      match NotionSync.sync_event api ns event s with
      | (s', Ok _) => sync_events ns rest s' log (count + 1)
      | (s', Raise e) =>
          sync_events ns rest s'
            (log ++ ["Notion sync failed for " +:+ Event.title event +:+ ": "
                     +:+ exn_str e])%list
            count
      end
  end.

(** [settings], action [sync_notion]: the state, the lines logged, and the
    message flashed with its category. *)
Definition sync_notion (settings : list AppSetting.t) (events : list Event.t)
    (s : NotionSync.state (World := World))
  : NotionSync.state (World := World) * list string * (string * string) :=
  let api_key := AppSetting.get "notion_api_key" (Some "") settings in
  let events_db := AppSetting.get "notion_events_db_id" (Some "") settings in
  if Py.truthy api_key && Py.truthy events_db then
    let ns := {| NotionSync.api_key := Py.or_empty api_key;
                 NotionSync.events_db_id := events_db;
                 NotionSync.todos_db_id :=
                   AppSetting.get "notion_todos_db_id" (Some "") settings |} in
    let '(s', log, count) := sync_events ns events s [] 0 in
    (s', log, ("Synced " +:+ Py.str_int count +:+ " events to Notion.", "success"))
  else (s, [], ("Notion API key and Events DB ID required.", "error")).
End Notion.
End App.

(* ================================================================== *)
(** ** Vocabulary of the properties *)
(* ================================================================== *)

Import Scheduler.

Section Vocabulary.
Context {U : Py.Unicode}.

(** The request [send_deadline_reminder] puts on the wire, when rendering the
    event does not raise. *)
Definition reminder_request (notifier : Notifier) (today : Py.date)
    (event : Event.t) : result request :=
  match notifier with
  | Discord n =>
      rbind (DiscordNotifier.reminder_embed today event)
        (fun embed =>
           Ok (HttpPost (DiscordNotifier.webhook_url n)
                 {| payload_content := ""; payload_embeds := Some [embed] |}))
  | Email n =>
      rbind (EmailNotifier.reminder_html today event)
        (fun html =>
           Ok (SmtpSession (EmailNotifier.smtp_server n) (EmailNotifier.smtp_port n)
                 (EmailNotifier.username n) (EmailNotifier.password n)
                 {| mail_subject := EmailNotifier.reminder_subject today event;
                    mail_from := EmailNotifier.username n;
                    mail_to := EmailNotifier.to_email n;
                    mail_html := html |}))
  end.

(** The request [send_daily_digest] puts on the wire, if any. *)
Definition digest_request (notifier : Notifier) (today : Py.date)
    (upcoming : list Event.t) (pending_todos : list Todo.t) : result (option request) :=
  match notifier with
  | Discord n =>
      rbind (DiscordNotifier.digest_embeds today upcoming pending_todos)
        (fun embeds =>
           match embeds with
           | [] => Ok None
           | _ :: _ =>
               Ok (Some (HttpPost (DiscordNotifier.webhook_url n)
                           {| payload_content :=
                                "**Daily Digest — " +:+ Py.isoformat today +:+ "**";
                              payload_embeds := Some embeds |}))
           end)
  | Email n =>
      rbind (EmailNotifier.digest_html today upcoming pending_todos)
        (fun html =>
           Ok (Some (SmtpSession (EmailNotifier.smtp_server n) (EmailNotifier.smtp_port n)
                       (EmailNotifier.username n) (EmailNotifier.password n)
                       {| mail_subject :=
                            "[PPML Dashboard] Daily Digest — " +:+ Py.isoformat today;
                          mail_from := EmailNotifier.username n;
                          mail_to := EmailNotifier.to_email n;
                          mail_html := html |})))
  end.

(** The requests a rendering leads to: none when it raises. *)
Definition wire (r : result request) : list request :=
  match r with Ok q => [q] | Raise _ => [] end.
Definition wire_opt (r : result (option request)) : list request :=
  match r with Ok (Some q) => [q] | _ => [] end.

(** What a run of a tick asks of the notifiers and puts on the wire, and how
    it ends. *)
Record Outcome : Type := {
  asked : list (string * delivery);
  wired : list request;
  ended : result unit
}.

(** A loop whose body first computes something that may raise and then
    delivers: the deliveries up to the first exception. *)
Fixpoint plan {A} (step : A -> result (list (string * delivery) * list request))
    (l : list A) : Outcome :=
  match l with
  | [] => {| asked := []; wired := []; ended := Ok tt |}
  | x :: l' =>
      match step x with
      | Raise e => {| asked := []; wired := []; ended := Raise e |}
      | Ok (cs, rs) =>
          let rest := plan step l' in
          {| asked := (cs ++ asked rest)%list; wired := (rs ++ wired rest)%list;
             ended := ended rest |}
      end
  end.

(** The reminders of one event. *)
Definition reminders_of (notifiers : list (string * Notifier)) (today : Py.date)
    (event : Event.t) : list (string * delivery) * list request :=
  (map (fun entry : string * Notifier => (entry.1, Reminder event)) notifiers,
   flat_map (fun entry : string * Notifier => wire (reminder_request entry.2 today event))
     notifiers).

(** The reminders of one offset. *)
Definition reminders_on (notifiers : list (string * Notifier)) (today : Py.date)
    (table : list Event.t) (days : Z)
  : result (list (string * delivery) * list request) :=
  rbind (date_add today days)
    (fun target_date =>
       let due := List.filter (deadline_is target_date) table in
       Ok (flat_map (fun e => (reminders_of notifiers today e).1) due,
           flat_map (fun e => (reminders_of notifiers today e).2) due)).

(** The outcome of [_check_deadlines], read off its inputs alone. *)
Definition check_outcome (environ : environment) (today : Py.date) (db : Db)
    (reminder_days : list Z) : Outcome :=
  match _get_notifiers environ with
  | Raise e => {| asked := []; wired := []; ended := Raise e |}
  | Ok [] => {| asked := []; wired := []; ended := Ok tt |}
  | Ok notifiers => plan (reminders_on notifiers today (events db)) reminder_days
  end.

(** The outcome of [_send_daily_digest], read off its inputs alone. *)
Definition digest_outcome (environ : environment) (today : Py.date) (db : Db)
    (reminder_days : list Z) : Outcome :=
  match _get_notifiers environ with
  | Raise e => {| asked := []; wired := []; ended := Raise e |}
  | Ok [] => {| asked := []; wired := []; ended := Ok tt |}
  | Ok notifiers =>
      match rbind (py_max reminder_days) (fun longest => date_add today (longest + 7)) with
      | Raise e => {| asked := []; wired := []; ended := Raise e |}
      | Ok limit =>
          let upcoming := upcoming_query today limit (events db) in
          let pending_todos := pending_todos_query (todos db) in
          {| asked :=
               map (fun entry : string * Notifier =>
                      (entry.1, Digest upcoming pending_todos)) notifiers;
             wired :=
               flat_map (fun entry : string * Notifier =>
                           wire_opt (digest_request entry.2 today upcoming pending_todos))
                 notifiers;
             ended := Ok tt |}
      end
  end.

(** The reminders asked of the notifier [kind] for [event]. *)
Definition is_reminder_for (kind : string) (event : Event.t)
    (c : string * delivery) : bool :=
  match c with
  | (k, Reminder e) => String.eqb k kind && bool_decide (e = event)
  | (_, Digest _ _) => false
  end.
Definition reminders_for (kind : string) (event : Event.t)
    (cs : list (string * delivery)) : nat :=
  length (List.filter (is_reminder_for kind event) cs).

Section Effects.
Context `{Transport}.

(** [m] asks [cs] of the notifiers and puts [rs] on the wire, whatever the
    state it starts in. *)
Definition attempts {A} (m : M A) (cs : list (string * delivery))
    (rs : list request) : Prop :=
  forall s, calls (m s).1 = (calls s ++ cs)%list /\ sent (m s).1 = (sent s ++ rs)%list.

(** [m] moreover ends with [r]. *)
Definition does {A} (m : M A) (cs : list (string * delivery))
    (rs : list request) (r : result A) : Prop :=
  attempts m cs rs /\ forall s, (m s).2 = r.

Definition achieves (m : M unit) (o : Outcome) : Prop :=
  does m (asked o) (wired o) (ended o).
End Effects.

(** The number of occurrences of [x] in [l]. *)
Definition occurrences {A : Type} `{EqDecision A} (x : A) (l : list A) : nat :=
  length (List.filter (fun y => bool_decide (y = x)) l).

(** The notifiers registered under [kind]. *)
Definition registered (kind : string) (notifiers : list (string * Notifier)) : nat :=
  length (List.filter (fun entry : string * Notifier => String.eqb entry.1 kind) notifiers).

(** All the text of a request, one piece per line. *)
Definition field_text (f : EmbedField) : string :=
  field_name f +:+ Py.nl +:+ field_value f.
Definition embed_text (e : Embed) : string :=
  Py.lines
    (embed_title e :: Py.or_empty (embed_description e) :: Py.or_empty (embed_url e)
     :: map field_text (default [] (embed_fields e))).
Definition request_text (q : request) : string :=
  match q with
  | HttpPost _ json =>
      Py.lines (payload_content json :: map embed_text (default [] (payload_embeds json)))
  | SmtpSession _ _ _ _ msg => Py.lines [mail_subject msg; mail_html msg]
  end.
(** [piece] occurs somewhere in the request. *)
Definition says (piece : string) (q : request) : bool :=
  Py.contains piece (request_text q).



(** The file-name rule in the words of the specification: keep exactly the
    alphanumerics, spaces, hyphens and underscores, drop everything else. *)
Definition keep_char (c : string) : bool :=
  Py.isalnum_char c || String.eqb c " " || String.eqb c "-" || String.eqb c "_".
Definition sanitized (name : string) : string :=
  Py.text (List.filter keep_char (Py.chars name)).

(** A character other than the slash. *)
Definition not_slash (c : ascii) : bool := negb (Ascii.eqb c "/").

(** [s] is not empty and neither its first nor its last character is white
    space. *)
Definition trimmed (s : string) : Prop :=
  s <> ""
  /\ (forall ch l, Py.chars s = ch :: l -> Py.isspace_char ch = false)
  /\ (forall ch l, Py.chars s = (l ++ [ch])%list -> Py.isspace_char ch = false).
(** All the characters of [s] are white space. *)
Definition all_space (s : string) : bool := forallb Py.isspace_char (Py.chars s).

(** Every character of [s] passes [test]. *)
Fixpoint all_chars (test : ascii -> bool) (s : string) : bool :=
  match s with
  | EmptyString => true
  | String c s' => test c && all_chars test s'
  end.

(** The bytes of one character: a first byte and continuation bytes. *)
Definition one_char (ch : string) : bool :=
  match ch with
  | String _ t => all_chars Py.is_continuation t
  | EmptyString => false
  end.
(** [ch] begins with the first byte of a character. *)
Definition begins_char (ch : string) : bool :=
  match ch with
  | String c _ => negb (Py.is_continuation c)
  | EmptyString => false
  end.
(** A list of characters as [chars] gives them: only the first may lack its
    first byte. *)
Definition char_list (l : list string) : Prop :=
  Forall (fun ch => one_char ch = true) l
  /\ Forall (fun ch => begins_char ch = true) (tl l).

(** The pending writes of an export, in order, and their effect. *)
Definition write_all (ws : list (string * string)) (fs : gmap string string)
  : gmap string string :=
  fold_left (fun fs w => ObsidianExport._write_file w.1 w.2 fs) ws fs.
(** The content the writes [ws] leave in [path], if any of them is to it. *)
Fixpoint last_write (path : string) (ws : list (string * string)) : option string :=
  match ws with
  | [] => None
  | (p, c) :: ws' =>
      match last_write path ws' with
      | Some c' => Some c'
      | None => if String.eqb p path then Some c else None
      end
  end.

(** The writes of [export_all], in the order it makes them. *)
Definition export_writes `{PyFloat} (self : ObsidianExport.t) (events : list Event.t)
    (researchers : list Researcher.t) (daily_logs : list DailyLog.t)
  : list (string * string) :=
  (map (fun e => (ObsidianExport.event_filepath self e, ObsidianExport.event_content e))
     events
   ++ map (fun r => (ObsidianExport.researcher_filepath self r,
                     ObsidianExport.researcher_content r)) researchers
   ++ map (fun l => (ObsidianExport.daily_log_filepath self l,
                     ObsidianExport.daily_log_content l)) daily_logs
   ++ [(Py.path_join (ObsidianExport.base_dir self) ["Index.md"],
        ObsidianExport.index_content events)])%list.

(** Every exported entity is filed under its sanitized title or name. *)
Definition file_names_sanitized : Prop :=
  (forall self event,
      ObsidianExport.event_filepath self event =
      Py.path_join (ObsidianExport.base_dir self)
        ["Events"; Py.title (Event.category event) +:+ "s";
         sanitized (Event.title event) +:+ ".md"])
  /\ (forall self researcher,
         ObsidianExport.researcher_filepath self researcher =
         Py.path_join (ObsidianExport.base_dir self)
           ["Researchers"; sanitized (Researcher.name researcher) +:+ ".md"]).

(** Ascending due dates, the undated last. *)
Definition due_before (a b : Todo.t) : Prop :=
  due_compare (Todo.due_date a) (Todo.due_date b) <> Gt.

End Vocabulary.

(** *** Sample data: the scenarios of the specification *)

Module Sample.
(** 2024-01-10 *)
Definition today : Py.date := 738895.

Definition event (id : Z) (title : string) (deadline : option Py.date)
    (website tags : option string) : Event.t :=
  {| Event.id := id; Event.title := title; Event.category := "conference";
     Event.edition := None; Event.website := website; Event.association := None;
     Event.relevance_tags := tags; Event.location := None; Event.city := None;
     Event.submission_deadline := deadline; Event.notification_date := None;
     Event.camera_ready_date := None; Event.event_start_date := None;
     Event.event_end_date := None; Event.description := None; Event.notes := None;
     Event.status := Some "cfp_open"; Event.pinned := Some false;
     Event.created_at := Some 63840000000000000;
     Event.updated_at := Some 63840000000000000 |}.
(** Deadline 2024-01-17, seven days out. *)
Definition event_A : Event.t :=
  event 1 "Crypto" (Some 738902) (Some "https://crypto.example") (Some "fhe,mpc").
(** Deadline 2024-01-16, six days out. *)
Definition event_B : Event.t := event 2 "Eurocrypt" (Some 738901) None None.
(** No deadline. *)
Definition event_C : Event.t := event 3 "Seminar" None None None.

Definition todo (id : Z) (title : string) (priority : option string)
    (due : option Py.date) (status : string) : Todo.t :=
  {| Todo.id := id; Todo.title := title; Todo.description := None;
     Todo.priority := priority; Todo.due_date := due; Todo.status := Some status;
     Todo.category := None |}.
Definition todo_medium : Todo.t := todo 1 "review" (Some "medium") None "pending".
Definition todo_low : Todo.t := todo 2 "tidy" (Some "low") None "pending".
Definition todo_high : Todo.t := todo 3 "submit" (Some "high") None "in_progress".
Definition todo_done : Todo.t := todo 4 "register" (Some "high") None "completed".

Definition db : Db :=
  {| events := [event_A; event_B; event_C];
     todos := [todo_medium; todo_low; todo_high; todo_done] |}.

Definition discord : DiscordNotifier.t :=
  {| DiscordNotifier.webhook_url := "https://discord.example/hook" |}.
Definition email : EmailNotifier.t :=
  {| EmailNotifier.smtp_server := "smtp.example"; EmailNotifier.smtp_port := 587;
     EmailNotifier.username := "me@example"; EmailNotifier.password := "secret";
     EmailNotifier.to_email := "me@example" |}.

(** Both backends configured. *)
Definition environ : gmap string string :=
  <["DISCORD_WEBHOOK_URL" := "https://discord.example/hook"]>
    (<["SMTP_SERVER" := "smtp.example"]>
       (<["SMTP_USERNAME" := "me@example"]>
          (<["SMTP_PASSWORD" := "secret"]>
             (<["EMAIL_TO" := "me@example"]> ∅)))).
(** Only a part of the SMTP credentials. *)
Definition environ_partial : gmap string string :=
  <["SMTP_SERVER" := "smtp.example"]> (<["SMTP_USERNAME" := "me@example"]> ∅).

(** A world where every delivery goes through. *)
Definition faultless : Transport :=
  {| World := unit; deliver := fun w _ => (w, None) |}.
(** A world where the webhook answers 500 and the mail goes through. *)
Definition webhook_down : Transport :=
  {| World := unit;
     deliver := fun w q =>
       (w, match q with
           | HttpPost _ _ => Some "500 Server Error"
           | SmtpSession _ _ _ _ _ => None
           end) |}.

Definition researcher (name : string) : Researcher.t :=
  {| Researcher.id := 1; Researcher.name := name; Researcher.website := None;
     Researcher.affiliation := None; Researcher.research_areas := None;
     Researcher.notes := None |}.

(** Hours given as whole numbers, for the examples of the export. *)
Definition whole_hours : PyFloat :=
  {| float := Z; float_str := fun h => Py.str_int h +:+ ".0";
     float_truthy := fun h => negb (h =? 0) |}.

(** An event of the category [category], with nothing else set. *)
Definition event_in (category : string) : Event.t :=
  {| Event.id := 9; Event.title := "Notes"; Event.category := category;
     Event.edition := None; Event.website := None; Event.association := None;
     Event.relevance_tags := None; Event.location := None; Event.city := None;
     Event.submission_deadline := None; Event.notification_date := None;
     Event.camera_ready_date := None; Event.event_start_date := None;
     Event.event_end_date := None; Event.description := None; Event.notes := None;
     Event.status := None; Event.pinned := None;
     Event.created_at := None; Event.updated_at := None |}.

(** A todo due the day before [today], with no status. *)
Definition todo_no_status : Todo.t :=
  {| Todo.id := 5; Todo.title := "renew"; Todo.description := None;
     Todo.priority := None; Todo.due_date := Some (today - 1); Todo.status := None;
     Todo.category := None |}.

(** A settings table with one row. *)
Definition settings : list AppSetting.t :=
  [ {| AppSetting.id := 1; AppSetting.key := "smtp_port"; AppSetting.value := Some "25" |} ].

(** A milestone reached on the day before [today], and one still open. *)
Definition milestone (id : Z) (completed_date : option Py.date) : PhDMilestone.t :=
  {| PhDMilestone.id := id; PhDMilestone.title := "Proposal";
     PhDMilestone.description := None; PhDMilestone.target_date := None;
     PhDMilestone.completed_date := completed_date;
     PhDMilestone.status := Some "pending"; PhDMilestone.category := None;
     PhDMilestone.sort_order := Some id |}.
Definition milestones : list PhDMilestone.t :=
  [ milestone 1 (Some (today - 1)); milestone 2 None ].

(** A [date.fromisoformat] that accepts nothing, for forms without dates. *)
Definition no_date (s : string) : option Py.date := None.

(** A Notion API that refuses every second request. *)
Definition notion_flaky (w : bool) (p : NotionSync.post) : bool * (string + string) :=
  (negb w, if w then inl "503 Server Error" else inr "{}").

(** A character database for the examples: outside ASCII it knows the
    accented e, small and capital, and the superscript two. *)
Definition latin : Py.Unicode.
Proof.
  refine
    {| Py.wide_isalnum := fun ch =>
         String.eqb ch "é" || String.eqb ch "É" || String.eqb ch "²";
       Py.wide_iscased := fun ch => String.eqb ch "é" || String.eqb ch "É";
       Py.wide_title := fun ch => if String.eqb ch "é" then "É" else ch;
       Py.wide_lower := fun _ ch _ => if String.eqb ch "É" then "é" else ch |}.
  intros ch Hwide. destruct (String.eqb ch "é"); [by eexists _, _|].
  destruct ch as [|a t]; [discriminate|]. exists a, t. split; [done|].
  intros ->. destruct t as [|b [|c [|d [|e t]]]]; vm_compute in Hwide; discriminate.
Defined.

End Sample.

(** The examples and witnesses below run with the sample database. *)
#[global] Existing Instance Sample.latin.

(* ================================================================== *)
(** ** How the monadic code acts on the state *)
(* ================================================================== *)

Section EffectLemmas.
Context `{Transport}.

Lemma attempts_lift {A} (r : result A) : attempts (lift r) [] [].
Proof. intros s. cbn. by rewrite !app_nil_r. Qed.

Lemma does_lift {A} (r : result A) : does (lift r) [] [] r.
Proof. split; [apply attempts_lift | done]. Qed.

Lemma does_ret {A} (a : A) : does (ret a) [] [] (Ok a).
Proof. apply (does_lift (Ok a)). Qed.

Lemma attempts_perform (r : request) : attempts (perform r) [] [r].
Proof.
  intros s. unfold perform. destruct (deliver (world s) r) as [w o]. cbn.
  by rewrite app_nil_r.
Qed.

Lemma does_record_call kind what :
  does (record_call kind what) [(kind, what)] [] (Ok tt).
Proof. split; [|done]. intros s. cbn. by rewrite app_nil_r. Qed.

Lemma does_logger_error line : does (logger_error line) [] [] (Ok tt).
Proof. split; [|done]. intros s. cbn. by rewrite !app_nil_r. Qed.

Lemma does_bind_ok {A B} (m : M A) (k : A -> M B) cs rs a cs' rs' r :
  does m cs rs (Ok a) -> does (k a) cs' rs' r ->
  does (bind m k) (cs ++ cs') (rs ++ rs') r.
Proof.
  intros [Hm Hr] [Hk Hkr]. split; intros s; unfold bind;
    specialize (Hm s); specialize (Hr s);
    destruct (m s) as [s' [a'|e]]; cbn in *; try discriminate;
    injection Hr as ->.
  - destruct (Hk s') as [-> ->]. destruct Hm as [-> ->].
    by rewrite !app_assoc.
  - apply Hkr.
Qed.

Lemma does_bind_raise {A B} (m : M A) (k : A -> M B) cs rs e :
  does m cs rs (Raise e) -> does (bind m k) cs rs (Raise e).
Proof.
  intros [Hm Hr]. split; intros s; unfold bind;
    specialize (Hm s); specialize (Hr s);
    destruct (m s) as [s' [a'|e']]; cbn in *; try discriminate;
    [done | by injection Hr as ->].
Qed.

Lemma attempts_bind_ok {A B} (m : M A) (k : A -> M B) cs rs a cs' rs' :
  does m cs rs (Ok a) -> attempts (k a) cs' rs' ->
  attempts (bind m k) (cs ++ cs') (rs ++ rs').
Proof.
  intros [Hm Hr] Hk s. unfold bind.
  specialize (Hm s); specialize (Hr s).
  destruct (m s) as [s' [a'|e]]; cbn in *; try discriminate.
  injection Hr as ->. destruct (Hk s') as [-> ->]. destruct Hm as [-> ->].
  by rewrite !app_assoc.
Qed.

Lemma attempts_bind_raise {A B} (m : M A) (k : A -> M B) cs rs e :
  does m cs rs (Raise e) -> attempts (bind m k) cs rs.
Proof. intros Hm. by apply (does_bind_raise m k) in Hm as [? _]. Qed.

(** An exception of the body is logged and goes no further. *)
Lemma does_try_logged (body : M unit) (line : exn -> string) cs rs :
  attempts body cs rs ->
  does (try_except body (fun e => logger_error (line e))) cs rs (Ok tt).
Proof.
  intros Hb. split; intros s; unfold try_except; specialize (Hb s);
    destruct (body s) as [s' [[]|e]]; cbn in *; try done.
Qed.

Lemma does_for_each {A} (l : list A) (body : A -> M unit)
    (cs : A -> list (string * delivery)) (rs : A -> list request) :
  (forall x, In x l -> does (body x) (cs x) (rs x) (Ok tt)) ->
  does (for_each l body) (flat_map cs l) (flat_map rs l) (Ok tt).
Proof.
  induction l as [|x l IH]; intros Hbody; cbn [for_each flat_map].
  - apply does_ret.
  - apply does_bind_ok with (a := tt).
    + apply Hbody. by left.
    + apply IH. intros y Hy. apply Hbody. by right.
Qed.

Lemma achieves_for_each_plan {A} (l : list A) (body : A -> M unit)
    (step : A -> result (list (string * delivery) * list request)) :
  (forall x, match step x with
             | Ok (cs, rs) => does (body x) cs rs (Ok tt)
             | Raise e => does (body x) [] [] (Raise e)
             end) ->
  achieves (for_each l body) (plan step l).
Proof.
  intros Hbody. unfold achieves.
  induction l as [|x l IH]; cbn [for_each plan].
  - apply does_ret.
  - specialize (Hbody x). destruct (step x) as [[cs rs]|e]; cbn.
    + by apply does_bind_ok with (a := tt).
    + by apply does_bind_raise.
Qed.
End EffectLemmas.

Section TickLemmas.
Context `{Transport}.
Context {U : Py.Unicode}.

Lemma send_deadline_reminder_attempts notifier today event :
  attempts (send_deadline_reminder notifier today event) []
    (wire (reminder_request notifier today event)).
Proof.
  destruct notifier as [n|n]; cbn [send_deadline_reminder reminder_request].
  - unfold DiscordNotifier.send_deadline_reminder.
    destruct (DiscordNotifier.reminder_embed today event) as [embed|e]; cbn [rbind wire].
    + apply (attempts_bind_ok _ _ [] [] embed [] [_]); [apply does_lift|].
      apply attempts_perform.
    + apply (attempts_bind_raise _ _ [] [] e), does_lift.
  - unfold EmailNotifier.send_deadline_reminder.
    destruct (EmailNotifier.reminder_html today event) as [html|e]; cbn [rbind wire].
    + apply (attempts_bind_ok _ _ [] [] html [] [_]); [apply does_lift|].
      apply attempts_perform.
    + apply (attempts_bind_raise _ _ [] [] e), does_lift.
Qed.

Lemma send_daily_digest_attempts notifier today upcoming pending_todos :
  attempts (send_daily_digest notifier today upcoming pending_todos) []
    (wire_opt (digest_request notifier today upcoming pending_todos)).
Proof.
  destruct notifier as [n|n]; cbn [send_daily_digest digest_request].
  - unfold DiscordNotifier.send_daily_digest.
    destruct (DiscordNotifier.digest_embeds today upcoming pending_todos)
      as [[|embed embeds]|e]; cbn [rbind wire_opt].
    + apply (attempts_bind_ok _ _ [] [] [] [] []); [apply does_lift|].
      apply (attempts_lift (Ok tt)).
    + apply (attempts_bind_ok _ _ [] [] (embed :: embeds) [] [_]); [apply does_lift|].
      apply attempts_perform.
    + apply (attempts_bind_raise _ _ [] [] e), does_lift.
  - unfold EmailNotifier.send_daily_digest.
    destruct (EmailNotifier.digest_html today upcoming pending_todos) as [html|e];
      cbn [rbind wire_opt].
    + apply (attempts_bind_ok _ _ [] [] html [] [_]); [apply does_lift|].
      apply attempts_perform.
    + apply (attempts_bind_raise _ _ [] [] e), does_lift.
Qed.

Lemma remind_via_does today event entry :
  does (remind_via today event entry) [(entry.1, Reminder event)]
    (wire (reminder_request entry.2 today event)) (Ok tt).
Proof.
  destruct entry as [kind notifier]. unfold remind_via. cbn [fst snd].
  apply does_try_logged.
  apply (attempts_bind_ok _ _ [_] [] tt [] _); [apply does_record_call|].
  apply send_deadline_reminder_attempts.
Qed.

Lemma digest_via_does today upcoming pending_todos entry :
  does (digest_via today upcoming pending_todos entry)
    [(entry.1, Digest upcoming pending_todos)]
    (wire_opt (digest_request entry.2 today upcoming pending_todos)) (Ok tt).
Proof.
  destruct entry as [kind notifier]. unfold digest_via. cbn [fst snd].
  apply does_try_logged.
  apply (attempts_bind_ok _ _ [_] [] tt [] _); [apply does_record_call|].
  apply send_daily_digest_attempts.
Qed.

Lemma flat_map_singleton {A B} (f : A -> B) (l : list A) :
  flat_map (fun x => [f x]) l = map f l.
Proof. induction l; cbn; congruence. Qed.

Lemma remind_all_does notifiers today event :
  does (for_each notifiers (remind_via today event))
    (reminders_of notifiers today event).1 (reminders_of notifiers today event).2 (Ok tt).
Proof.
  unfold reminders_of. cbn [fst snd]. rewrite <- flat_map_singleton.
  apply does_for_each. intros entry _. apply remind_via_does.
Qed.

Lemma digest_all_does notifiers today upcoming pending_todos :
  does (for_each notifiers (digest_via today upcoming pending_todos))
    (map (fun entry : string * Notifier => (entry.1, Digest upcoming pending_todos))
       notifiers)
    (flat_map (fun entry : string * Notifier =>
                 wire_opt (digest_request entry.2 today upcoming pending_todos))
       notifiers)
    (Ok tt).
Proof.
  rewrite <- flat_map_singleton.
  apply does_for_each. intros entry _. apply digest_via_does.
Qed.

(** [_check_deadlines] does what [check_outcome] reads off its inputs,
    whatever the world answers. *)
Lemma check_deadlines_achieves environ today db reminder_days :
  achieves (_check_deadlines environ today db reminder_days)
    (check_outcome environ today db reminder_days).
Proof.
  unfold _check_deadlines, check_outcome, achieves.
  destruct (_get_notifiers environ) as [[|entry notifiers]|e]; cbn [asked wired ended].
  - apply (does_bind_ok _ _ [] [] [] [] []); [apply does_lift | apply does_ret].
  - apply (does_bind_ok _ _ [] [] (entry :: notifiers) _ _); [apply does_lift|].
    apply achieves_for_each_plan. intros days. unfold reminders_on.
    destruct (date_add today days) as [target|e]; cbn [rbind].
    + apply (does_bind_ok _ _ [] [] target _ _); [apply does_lift|].
      apply does_for_each. intros event _. apply remind_all_does.
    + apply (does_bind_raise _ _ [] [] e), does_lift.
  - apply (does_bind_raise _ _ [] [] e), does_lift.
Qed.

(** [_send_daily_digest] does what [digest_outcome] reads off its inputs,
    whatever the world answers. *)
Lemma send_daily_digest_achieves environ today db reminder_days :
  achieves (_send_daily_digest environ today db reminder_days)
    (digest_outcome environ today db reminder_days).
Proof.
  unfold _send_daily_digest, digest_outcome, achieves.
  destruct (_get_notifiers environ) as [[|entry notifiers]|e]; cbn [asked wired ended].
  - apply (does_bind_ok _ _ [] [] [] [] []); [apply does_lift | apply does_ret].
  - apply (does_bind_ok _ _ [] [] (entry :: notifiers) _ _); [apply does_lift|].
    destruct (py_max reminder_days) as [longest|e]; cbn [rbind].
    + apply (does_bind_ok _ _ [] [] longest _ _); [apply does_lift|].
      destruct (date_add today (longest + 7)) as [limit|e]; cbn [asked wired ended].
      * apply (does_bind_ok _ _ [] [] limit _ _); [apply does_lift|].
        apply digest_all_does.
      * apply (does_bind_raise _ _ [] [] e), does_lift.
    + apply (does_bind_raise _ _ [] [] e), does_lift.
  - apply (does_bind_raise _ _ [] [] e), does_lift.
Qed.

(** From the initial state, the final state holds exactly the outcome. *)
Lemma achieves_initial (m : M unit) (o : Outcome) (w : World) :
  achieves m o ->
  calls (m (initial w)).1 = asked o /\ sent (m (initial w)).1 = wired o
  /\ (m (initial w)).2 = ended o.
Proof.
  intros [Ha Hr]. destruct (Ha (initial w)) as [Hc Hs]. cbn in Hc, Hs. auto.
Qed.
End TickLemmas.

(* ================================================================== *)
(** ** Counting in lists *)
(* ================================================================== *)

Section Counting.
Context {A : Type} `{EqDecision A}.

Lemma occurrences_absent (x : A) (l : list A) : ~ In x l -> occurrences x l = 0%nat.
Proof.
  unfold occurrences. induction l as [|y l IH]; intros Hx; cbn; [done|].
  case_bool_decide as Hy.
  - subst. exfalso. apply Hx. by left.
  - apply IH. intros Hin. apply Hx. by right.
Qed.

Lemma occurrences_NoDup (x : A) (l : list A) :
  List.NoDup l -> In x l -> occurrences x l = 1%nat.
Proof.
  unfold occurrences. induction 1 as [|y l Hy Hl IH]; intros Hx; [destruct Hx|].
  cbn. case_bool_decide as Heq.
  - subst. cbn. f_equal. by apply occurrences_absent.
  - destruct Hx as [->|Hx]; [done|]. by apply IH.
Qed.

Lemma occurrences_filter (q : A -> bool) (x : A) (l : list A) :
  occurrences x (List.filter q l) = if q x then occurrences x l else 0%nat.
Proof.
  unfold occurrences. induction l as [|y l IH]; cbn.
  - by destruct (q x).
  - destruct (q y) eqn:Hq; cbn; case_bool_decide as Heq; subst; cbn.
    + rewrite IH, Hq. done.
    + done.
    + rewrite IH, Hq. done.
    + done.
Qed.
End Counting.

(* ================================================================== *)
(** ** The deadline check: who is reminded, and how often *)
(* ================================================================== *)

Lemma reminders_for_app kind event cs cs' :
  reminders_for kind event (cs ++ cs') =
  (reminders_for kind event cs + reminders_for kind event cs')%nat.
Proof. unfold reminders_for. by rewrite List.filter_app, length_app. Qed.

Lemma reminders_for_one_event {U : Py.Unicode} kind event notifiers today e :
  reminders_for kind event (reminders_of notifiers today e).1 =
  if bool_decide (e = event) then registered kind notifiers else 0%nat.
Proof.
  unfold reminders_for, reminders_of, registered. cbn [fst].
  destruct (bool_decide (e = event)) eqn:He;
    induction notifiers as [|[k n] notifiers IH];
    cbn [map List.filter length fst is_reminder_for]; try done;
    rewrite He; destruct (String.eqb k kind); cbn [andb length]; by rewrite ?IH.
Qed.

Lemma reminders_for_events {U : Py.Unicode} kind event notifiers today (l : list Event.t) :
  reminders_for kind event (flat_map (fun e => (reminders_of notifiers today e).1) l) =
  (occurrences event l * registered kind notifiers)%nat.
Proof.
  unfold occurrences. induction l as [|e l IH]; cbn [flat_map]; [done|].
  rewrite reminders_for_app, IH, reminders_for_one_event. cbn.
  case_bool_decide; cbn; lia.
Qed.

(** The reminders of one offset, when its target date exists. *)
Lemma reminders_on_count {U : Py.Unicode} kind event notifiers today table days cs rs :
  reminders_on notifiers today table days = Ok (cs, rs) ->
  reminders_for kind event cs =
  if deadline_is (today + days) event
  then (occurrences event table * registered kind notifiers)%nat
  else 0%nat.
Proof.
  unfold reminders_on, date_add.
  destruct (Py.valid_date (today + days)); cbn [rbind]; [|discriminate].
  intros [= <- _].
  etrans; [exact (reminders_for_events kind event notifiers today _)|].
  rewrite occurrences_filter.
  by destruct (deadline_is (today + days) event).
Qed.

Lemma reminders_on_valid {U : Py.Unicode} notifiers today table days :
  Py.valid_date (today + days) = true ->
  exists cs rs, reminders_on notifiers today table days = Ok (cs, rs).
Proof. intros Hv. unfold reminders_on, date_add. rewrite Hv. cbn. eauto. Qed.

(** No offset matches: no reminder, even if the loop stops early. *)
Lemma plan_no_reminder {U : Py.Unicode} kind event notifiers today table reminder_days :
  (forall d, In d reminder_days -> deadline_is (today + d) event = false) ->
  reminders_for kind event
    (asked (plan (reminders_on notifiers today table) reminder_days)) = 0%nat.
Proof.
  induction reminder_days as [|d l IH]; intros Hno; cbn [plan]; [done|].
  destruct (reminders_on notifiers today table d) as [[cs rs]|e] eqn:Hd;
    cbn [asked]; [|done].
  rewrite reminders_for_app, (reminders_on_count _ _ _ _ _ _ _ _ Hd).
  rewrite Hno by (by left). cbn [Nat.add]. apply IH. intros d' Hd'. apply Hno. by right.
Qed.

(** Every target date exists: one batch of reminders per matching offset. *)
Lemma plan_reminders {U : Py.Unicode} kind event notifiers today table reminder_days :
  Forall (fun d => Py.valid_date (today + d) = true) reminder_days ->
  reminders_for kind event
    (asked (plan (reminders_on notifiers today table) reminder_days)) =
  (length (List.filter (fun d => deadline_is (today + d)%Z event) reminder_days)
   * (occurrences event table * registered kind notifiers))%nat
  /\ ended (plan (reminders_on notifiers today table) reminder_days) = Ok tt.
Proof.
  induction 1 as [|d l Hd Hl [IHc IHe]]; cbn [plan List.filter]; [done|].
  destruct (reminders_on_valid notifiers today table d Hd) as (cs & rs & Hon).
  rewrite Hon. cbn [asked ended]. split; [|done].
  rewrite reminders_for_app, IHc, (reminders_on_count _ _ _ _ _ _ _ _ Hon).
  destruct (deadline_is (today + d) event); cbn [length]; lia.
Qed.

Lemma matching_offsets (today d0 : Z) (event : Event.t) (reminder_days : list Z) :
  Event.submission_deadline event = Some (today + d0) ->
  length (List.filter (fun d => deadline_is (today + d) event) reminder_days) =
  occurrences d0 reminder_days.
Proof.
  intros Hd. unfold occurrences. f_equal. apply filter_ext. intros d.
  unfold deadline_is. rewrite Hd.
  case_bool_decide; [subst; apply Z.eqb_refl | apply Z.eqb_neq; lia].
Qed.

(** [_get_notifiers] registers each kind at most once, and only the two
    kinds of the module. *)
Lemma get_notifiers_cases environ notifiers :
  _get_notifiers environ = Ok notifiers ->
  exists d m, (notifiers = [] \/ notifiers = [("discord", Discord d)]
               \/ notifiers = [("email", Email m)]
               \/ notifiers = [("discord", Discord d); ("email", Email m)]).
Proof.
  unfold _get_notifiers.
  set (d := {| DiscordNotifier.webhook_url := Py.or_empty (environ !! "DISCORD_WEBHOOK_URL") |}).
  destruct (Py.truthy (environ !! "DISCORD_WEBHOOK_URL"));
    destruct (_ && _);
    try destruct (Py.int_of_string _) as [port|]; try discriminate;
    intros [= <-]; cbn.
  - eexists d, _. right; right; right. reflexivity.
  - exists d, (EmailNotifier.Build_t "" 0 "" "" ""). auto.
  - eexists d, _. right; right; left. reflexivity.
  - exists d, (EmailNotifier.Build_t "" 0 "" "" ""). auto.
Qed.

Lemma registered_once environ notifiers kind n :
  _get_notifiers environ = Ok notifiers ->
  In (kind, n) notifiers -> registered kind notifiers = 1%nat.
Proof.
  intros Hget Hin. destruct (get_notifiers_cases _ _ Hget) as (d & m & Hcases).
  destruct Hcases as [-> | [-> | [-> | ->]]]; cbn in Hin;
    intuition; simplify_eq; reflexivity.
Qed.

(** Rendering a reminder cannot raise once the deadline is set: the other
    columns it reads are either mandatory or tested before use. *)
Lemma reminder_request_ok {U : Py.Unicode} notifier today event deadline :
  Event.submission_deadline event = Some deadline ->
  exists q, reminder_request notifier today event = Ok q.
Proof.
  intros Hd. destruct notifier as [n|n]; cbn [reminder_request];
    unfold DiscordNotifier.reminder_embed, EmailNotifier.reminder_html,
      Event.days_until_deadline; rewrite Hd; cbn [rbind]; eauto.
Qed.

Lemma plan_wired_In {U : Py.Unicode} notifiers today table reminder_days d event entry q :
  Forall (fun d' => Py.valid_date (today + d') = true) reminder_days ->
  In d reminder_days ->
  In event table -> deadline_is (today + d) event = true ->
  In entry notifiers ->
  reminder_request entry.2 today event = Ok q ->
  In q (wired (plan (reminders_on notifiers today table) reminder_days)).
Proof.
  intros Hvalid Hd Hev Hdue Hentry Hq.
  induction Hvalid as [|d' l Hd' Hl IH]; [destruct Hd|].
  cbn [plan]. unfold reminders_on at 1, date_add. rewrite Hd'. cbn [rbind wired].
  apply in_or_app. destruct Hd as [->|Hd]; [left | right; by apply IH].
  apply in_flat_map. exists event. split; [apply filter_In; by split|].
  unfold reminders_of. cbn [snd]. apply in_flat_map. exists entry. split; [done|].
  rewrite Hq. by left.
Qed.

Lemma length_flat_map_eq {A B C} (f : A -> list B) (g : A -> list C) (l : list A) :
  (forall x, In x l -> length (f x) = length (g x)) ->
  length (flat_map f l) = length (flat_map g l).
Proof.
  induction l as [|x l IH]; intros Hfg; cbn [flat_map]; [done|].
  rewrite !length_app, Hfg by (by left). f_equal. apply IH.
  intros y Hy. apply Hfg. by right.
Qed.

(** One request per reminder asked: every event the check picks has its
    deadline set, so its reminder is rendered and sent. *)
Lemma reminders_on_lengths {U : Py.Unicode} notifiers today table days cs rs :
  reminders_on notifiers today table days = Ok (cs, rs) -> length rs = length cs.
Proof.
  unfold reminders_on, date_add.
  destruct (Py.valid_date (today + days)); cbn [rbind]; [|discriminate].
  intros [= <- <-].
  apply length_flat_map_eq. intros e [_ He]%filter_In.
  unfold reminders_of. cbn [fst snd]. rewrite length_map.
  unfold deadline_is in He.
  destruct (Event.submission_deadline e) as [deadline|] eqn:Hd; [|discriminate].
  induction notifiers as [|[k n] ns IHn]; cbn [flat_map length]; [done|].
  destruct (reminder_request_ok n today e deadline Hd) as [q Hq].
  cbn [snd]. rewrite Hq. cbn [wire app length]. by rewrite IHn.
Qed.

Lemma plan_one_request_per_call {U : Py.Unicode} notifiers today table reminder_days :
  length (wired (plan (reminders_on notifiers today table) reminder_days)) =
  length (asked (plan (reminders_on notifiers today table) reminder_days)).
Proof.
  induction reminder_days as [|d l IH]; cbn [plan]; [done|].
  destruct (reminders_on notifiers today table d) as [[cs rs]|e] eqn:Hon;
    cbn [asked wired]; [|done].
  by rewrite !length_app, IH, (reminders_on_lengths _ _ _ _ _ _ Hon).
Qed.

(** C1, as amended.  In the deadline check, an event whose deadline is
    exactly [today + d] for an offset [d] of the configured reminder days is
    handed once to every active backend, which puts one request on the wire
    for it, provided no offset is listed twice and every listed offset leads
    to a date that exists ([today + d'] up to [date.max]); an event whose
    deadline is null or is [today + d] for a [d] that is not listed is handed
    to no backend, whatever the list.  The events are rows with distinct
    primary keys. *)
Theorem check_deadlines_exact_match {U : Py.Unicode} `{Transport} (w : World)
    environ today db reminder_days notifiers event :
  _get_notifiers environ = Ok notifiers ->
  List.NoDup (map Event.id (events db)) ->
  In event (events db) ->
  let final := (_check_deadlines environ today db reminder_days (initial w)).1 in
  (forall d,
      List.NoDup reminder_days ->
      Forall (fun d' => Py.valid_date (today + d') = true) reminder_days ->
      In d reminder_days ->
      Event.submission_deadline event = Some (today + d) ->
      forall kind notifier, In (kind, notifier) notifiers ->
        reminders_for kind event (calls final) = 1%nat
        /\ exists q, reminder_request notifier today event = Ok q /\ In q (sent final))
  /\ ((Event.submission_deadline event = None
       \/ exists d, Event.submission_deadline event = Some (today + d)
                    /\ ~ In d reminder_days) ->
      forall kind, reminders_for kind event (calls final) = 0%nat)
  /\ length (sent final) = length (calls final).
Proof.
  intros Hget Hkeys Hev final.
  destruct (achieves_initial _ _ w
              (check_deadlines_achieves environ today db reminder_days))
    as (Hcalls & Hsent & _).
  fold final in Hcalls, Hsent. rewrite Hcalls, Hsent. clear Hcalls Hsent final.
  unfold check_outcome. rewrite Hget.
  split; [|split].
  - intros d Hnodup Hvalid Hd Hdeadline kind notifier Hentry.
    destruct notifiers as [|entry0 notifiers0] eqn:Hns; [destruct Hentry|].
    rewrite <- Hns in *. split.
    + destruct (plan_reminders kind event notifiers today (events db) reminder_days Hvalid)
        as [-> _].
      rewrite (matching_offsets today d event reminder_days Hdeadline).
      rewrite (occurrences_NoDup d reminder_days Hnodup Hd).
      rewrite (occurrences_NoDup event (events db)
                 (NoDup_map_inv _ _ Hkeys) Hev).
      by rewrite (registered_once environ notifiers kind notifier Hget Hentry).
    + destruct (reminder_request_ok notifier today event _ Hdeadline) as [q Hq].
      exists q. split; [done|].
      apply (plan_wired_In notifiers today (events db) reminder_days d event
               (kind, notifier) q); try done.
      unfold deadline_is. rewrite Hdeadline. apply Z.eqb_refl.
  - intros Hout kind. destruct notifiers as [|entry0 notifiers0] eqn:Hns; [done|].
    rewrite <- Hns. apply plan_no_reminder. intros d Hd. unfold deadline_is.
    destruct Hout as [->|(d0 & -> & Hd0)]; [done|].
    apply Z.eqb_neq. intros Heq. apply Hd0. by replace d0 with d by lia.
  - destruct notifiers as [|entry0 notifiers0] eqn:Hns; [done|].
    rewrite <- Hns. apply plan_one_request_per_call.
Qed.

(* ================================================================== *)
(** ** Failure isolation *)
(* ================================================================== *)

Lemma plan_ended_not_transport {A}
    (step : A -> result (list (string * delivery) * list request)) (l : list A) e :
  (forall x e', step x = Raise e' -> is_transport_error e' = false) ->
  ended (plan step l) = Raise e -> is_transport_error e = false.
Proof.
  intros Hstep. induction l as [|x l IH]; cbn [plan]; [discriminate|].
  destruct (step x) as [[cs rs]|e'] eqn:Hx; cbn [ended]; [done|].
  intros [= <-]. by apply (Hstep x).
Qed.

Lemma get_notifiers_not_transport environ e :
  _get_notifiers environ = Raise e -> is_transport_error e = false.
Proof.
  unfold _get_notifiers. destruct (_ && _); [|discriminate].
  destruct (Py.int_of_string _); [discriminate|]. by intros [= <-].
Qed.

Lemma check_outcome_not_transport {U : Py.Unicode} environ today db reminder_days e :
  ended (check_outcome environ today db reminder_days) = Raise e ->
  is_transport_error e = false.
Proof.
  unfold check_outcome.
  destruct (_get_notifiers environ) as [[|entry notifiers]|e'] eqn:Hget; cbn [ended].
  - discriminate.
  - apply plan_ended_not_transport. intros d e1. unfold reminders_on, date_add.
    destruct (Py.valid_date (today + d)); cbn [rbind]; [discriminate|].
    by intros [= <-].
  - intros [= <-]. by apply (get_notifiers_not_transport environ).
Qed.

Lemma digest_outcome_not_transport environ today db reminder_days e :
  ended (digest_outcome environ today db reminder_days) = Raise e ->
  is_transport_error e = false.
Proof.
  unfold digest_outcome.
  destruct (_get_notifiers environ) as [[|entry notifiers]|e'] eqn:Hget; cbn [ended].
  - discriminate.
  - unfold py_max, date_add. destruct reminder_days as [|d l]; cbn [rbind ended].
    + by intros [= <-].
    + destruct (Py.valid_date _); cbn [ended]; [discriminate|]. by intros [= <-].
  - intros [= <-]. by apply (get_notifiers_not_transport environ).
Qed.

(** A loop that gets through its first stretch carries on with the rest. *)
Lemma plan_app {A} (step : A -> result (list (string * delivery) * list request))
    (l1 l2 : list A) :
  (forall x, In x l1 -> exists c, step x = Ok c) ->
  asked (plan step (l1 ++ l2)) = (asked (plan step l1) ++ asked (plan step l2))%list
  /\ wired (plan step (l1 ++ l2)) = (wired (plan step l1) ++ wired (plan step l2))%list
  /\ ended (plan step (l1 ++ l2)) = ended (plan step l2)
  /\ ended (plan step l1) = Ok tt.
Proof.
  induction l1 as [|x l1 IH]; intros Hok; [done|].
  destruct (Hok x) as [[cs rs] Hx]; [by left|].
  destruct IH as (Ha & Hw & He & He1); [intros y Hy; apply Hok; by right|].
  cbn [app plan]. rewrite Hx. cbn [asked wired ended].
  by rewrite Ha, Hw, He, He1, !app_assoc.
Qed.

(** Every target date exists: the loop runs to its end. *)
Lemma plan_valid_ends {U : Py.Unicode} notifiers today table reminder_days :
  Forall (fun d => Py.valid_date (today + d) = true) reminder_days ->
  ended (plan (reminders_on notifiers today table) reminder_days) = Ok tt.
Proof.
  induction 1 as [|d l Hd Hl IH]; cbn [plan]; [done|].
  by destruct (reminders_on_valid notifiers today table d Hd) as (cs & rs & ->).
Qed.

(** An offset that the loop reaches has its reminders asked and sent. *)
Lemma plan_reached {U : Py.Unicode} notifiers today table before d after event entry :
  Forall (fun d' => Py.valid_date (today + d') = true) (before ++ [d]) ->
  In event table -> Event.submission_deadline event = Some (today + d) ->
  In entry notifiers ->
  In (entry.1, Reminder event)
    (asked (plan (reminders_on notifiers today table) (before ++ d :: after)))
  /\ exists q,
       reminder_request entry.2 today event = Ok q
       /\ In q (wired (plan (reminders_on notifiers today table) (before ++ d :: after))).
Proof.
  intros [Hbefore [Hd _]%List.Forall_cons_iff]%List.Forall_app Hev Hdeadline Hentry.
  destruct (plan_app (reminders_on notifiers today table) before (d :: after))
    as (-> & -> & _).
  { intros x Hx. rewrite List.Forall_forall in Hbefore.
    destruct (reminders_on_valid notifiers today table x (Hbefore x Hx)) as (cs & rs & ->).
    by eexists. }
  assert (Hdue : In event (List.filter (deadline_is (today + d)) table)).
  { apply filter_In. split; [done|]. unfold deadline_is. rewrite Hdeadline.
    apply Z.eqb_refl. }
  destruct (reminder_request_ok entry.2 today event _ Hdeadline) as [q Hq].
  assert (Hstep : reminders_on notifiers today table d
                  = Ok (flat_map (fun e => (reminders_of notifiers today e).1)
                          (List.filter (deadline_is (today + d)) table),
                        flat_map (fun e => (reminders_of notifiers today e).2)
                          (List.filter (deadline_is (today + d)) table))).
  { unfold reminders_on, date_add. by rewrite Hd. }
  cbn [plan]. rewrite Hstep. cbn [asked wired].
  split.
  - apply in_or_app. right. apply in_or_app. left.
    apply in_flat_map. exists event. split; [done|].
    unfold reminders_of. cbn [fst]. apply in_map_iff. by exists entry.
  - exists q. split; [done|]. apply in_or_app. right. apply in_or_app. left.
    apply in_flat_map. exists event. split; [done|].
    unfold reminders_of. cbn [snd]. apply in_flat_map. exists entry. split; [done|].
    rewrite Hq. by left.
Qed.

(** C2. A failed delivery stops nothing.  Whatever the outside world answers
    to the deliveries (all fail, some fail, none fails), the deadline check
    asks the reminder for every event due at an offset it reaches of every
    active backend and puts its request on the wire, and the digest tick asks
    the digest of every active backend, each once and in their order.  Which
    deliveries are asked and put on the wire is the same under any two
    behaviours of the world, and no tick ends with the exception of a failed
    delivery. *)
Theorem tick_failure_isolation {U : Py.Unicode} (T1 T2 : Transport)
    (w1 : @World T1) (w2 : @World T2) environ today db reminder_days notifiers :
  _get_notifiers environ = Ok notifiers ->
  let check1 := @_check_deadlines T1 U environ today db reminder_days (initial w1) in
  let check2 := @_check_deadlines T2 U environ today db reminder_days (initial w2) in
  let digest1 := @_send_daily_digest T1 environ today db reminder_days (initial w1) in
  let digest2 := @_send_daily_digest T2 environ today db reminder_days (initial w2) in
  (calls check1.1 = calls check2.1 /\ sent check1.1 = sent check2.1
   /\ check1.2 = check2.2
   /\ forall e, check1.2 = Raise e -> is_transport_error e = false)
  /\ (calls digest1.1 = calls digest2.1 /\ sent digest1.1 = sent digest2.1
      /\ digest1.2 = digest2.2
      /\ forall e, digest1.2 = Raise e -> is_transport_error e = false)
  /\ (forall before d after event entry,
        reminder_days = (before ++ d :: after)%list ->
        Forall (fun d' => Py.valid_date (today + d') = true) (before ++ [d]) ->
        In event (events db) ->
        Event.submission_deadline event = Some (today + d) ->
        In entry notifiers ->
        In (entry.1, Reminder event) (calls check1.1)
        /\ exists q, reminder_request entry.2 today event = Ok q /\ In q (sent check1.1))
  /\ (Forall (fun d' => Py.valid_date (today + d') = true) reminder_days ->
      check1.2 = Ok tt)
  /\ (forall longest,
        py_max reminder_days = Ok longest ->
        Py.valid_date (today + (longest + 7)) = true ->
        let upcoming := upcoming_query today (today + (longest + 7)) (events db) in
        let pending_todos := pending_todos_query (todos db) in
        calls digest1.1
        = map (fun entry : string * Notifier => (entry.1, Digest upcoming pending_todos))
            notifiers
        /\ sent digest1.1
           = flat_map (fun entry : string * Notifier =>
                         wire_opt (digest_request entry.2 today upcoming pending_todos))
               notifiers
        /\ digest1.2 = Ok tt).
Proof.
  intros Hget check1 check2 digest1 digest2.
  destruct (achieves_initial _ _ w1
              (@check_deadlines_achieves T1 U environ today db reminder_days))
    as (Hc1 & Hs1 & Hr1).
  destruct (achieves_initial _ _ w2
              (@check_deadlines_achieves T2 U environ today db reminder_days))
    as (Hc2 & Hs2 & Hr2).
  destruct (achieves_initial _ _ w1
              (@send_daily_digest_achieves T1 environ today db reminder_days))
    as (Hdc1 & Hds1 & Hdr1).
  destruct (achieves_initial _ _ w2
              (@send_daily_digest_achieves T2 environ today db reminder_days))
    as (Hdc2 & Hds2 & Hdr2).
  fold check1 in Hc1, Hs1, Hr1. fold check2 in Hc2, Hs2, Hr2.
  fold digest1 in Hdc1, Hds1, Hdr1. fold digest2 in Hdc2, Hds2, Hdr2.
  split; [|split; [|split; [|split]]].
  - repeat split; try congruence.
    intros e He. rewrite Hr1 in He. by apply check_outcome_not_transport in He.
  - repeat split; try congruence.
    intros e He. rewrite Hdr1 in He. by apply digest_outcome_not_transport in He.
  - intros before d after event entry -> Hvalid Hev Hdeadline Hentry.
    rewrite Hc1, Hs1. unfold check_outcome. rewrite Hget.
    destruct notifiers as [|entry0 notifiers0] eqn:Hns; [destruct Hentry|].
    rewrite <- Hns in *. by apply plan_reached.
  - intros Hvalid. rewrite Hr1. unfold check_outcome. rewrite Hget.
    destruct notifiers as [|entry0 notifiers0] eqn:Hns; [done|]. rewrite <- Hns.
    by apply plan_valid_ends.
  - intros longest Hmax Hlimit upcoming pending_todos.
    rewrite Hdc1, Hds1, Hdr1. unfold digest_outcome, date_add.
    rewrite Hget, Hmax. cbn [rbind]. rewrite Hlimit.
    by destruct notifiers.
Qed.

(** The webhook answers 500 to every post: the failure is logged, and the
    mail for the same event is asked all the same and goes out. *)
Lemma tick_failure_isolation_witness :
  let check :=
    @_check_deadlines Sample.webhook_down Sample.latin Sample.environ Sample.today
      Sample.db [7; 3; 1] (@initial Sample.webhook_down tt) in
  errors check.1 = ["Failed to send reminder for Crypto via discord: 500 Server Error"]
  /\ In ("email", Reminder Sample.event_A) (calls check.1)
  /\ exists q,
       reminder_request (Email Sample.email) Sample.today Sample.event_A = Ok q
       /\ In q (sent check.1).
Proof.
  intros check. split; [reflexivity|].
  destruct (tick_failure_isolation Sample.webhook_down Sample.faultless tt tt
              Sample.environ Sample.today Sample.db [7; 3; 1]
              [("discord", Discord Sample.discord); ("email", Email Sample.email)]
              eq_refl) as (_ & _ & Hreached & _).
  apply (Hreached [] 7 [3; 1] Sample.event_A ("email", Email Sample.email)).
  - reflexivity.
  - repeat constructor.
  - by left.
  - reflexivity.
  - right. by left.
Defined.

(* ================================================================== *)
(** ** No active backend *)
(* ================================================================== *)

(** A backend is active only with all of its credentials set. *)
Lemma active_only_when_configured environ notifiers kind notifier :
  _get_notifiers environ = Ok notifiers ->
  In (kind, notifier) notifiers ->
  (kind = "discord" /\ Py.truthy (environ !! "DISCORD_WEBHOOK_URL") = true)
  \/ (kind = "email"
      /\ Py.truthy (environ !! "SMTP_SERVER") = true
      /\ Py.truthy (environ !! "SMTP_USERNAME") = true
      /\ Py.truthy (environ !! "SMTP_PASSWORD") = true
      /\ Py.truthy (environ !! "EMAIL_TO") = true).
Proof.
  unfold _get_notifiers.
  destruct (Py.truthy (environ !! "DISCORD_WEBHOOK_URL")) eqn:Hd;
    destruct (Py.truthy (environ !! "SMTP_SERVER")) eqn:H1;
    destruct (Py.truthy (environ !! "SMTP_USERNAME")) eqn:H2;
    destruct (Py.truthy (environ !! "SMTP_PASSWORD")) eqn:H3;
    destruct (Py.truthy (environ !! "EMAIL_TO")) eqn:H4; cbn [andb];
    try destruct (Py.int_of_string _); try discriminate;
    intros [= <-]; cbn [In app]; intuition; simplify_eq; auto 10.
Qed.

(** With no credential set at all, no backend is active. *)
Lemma unconfigured_no_backend environ :
  Py.truthy (environ !! "DISCORD_WEBHOOK_URL") = false ->
  Py.truthy (environ !! "SMTP_SERVER") && Py.truthy (environ !! "SMTP_USERNAME")
    && Py.truthy (environ !! "SMTP_PASSWORD") && Py.truthy (environ !! "EMAIL_TO") = false ->
  _get_notifiers environ = Ok [].
Proof. intros Hd Hm. unfold _get_notifiers. by rewrite Hd, Hm. Qed.

(** C3. When the set of active backends is empty, either tick returns at once:
    the state is the one it started in (nothing asked of a backend, nothing on
    the wire, nothing logged) and no exception is raised. *)
Theorem no_active_backend_no_delivery {U : Py.Unicode} `{Transport} environ today db reminder_days
    (s : State) :
  _get_notifiers environ = Ok [] ->
  _send_daily_digest environ today db reminder_days s = (s, Ok tt)
  /\ _check_deadlines environ today db reminder_days s = (s, Ok tt).
Proof.
  intros Hget. unfold _send_daily_digest, _check_deadlines, bind, lift.
  by rewrite Hget.
Qed.

(** C10. With no upcoming deadline and no pending todo,
    [DiscordNotifier.send_daily_digest] returns without a request: the state
    is unchanged, so nothing was posted to the webhook. *)
Theorem discord_empty_digest_sends_nothing `{Transport} (self : DiscordNotifier.t)
    (today : Py.date) (s : State) :
  DiscordNotifier.send_daily_digest self today [] [] s = (s, Ok tt)
  /\ digest_request (Discord self) today [] [] = Ok None.
Proof. split; reflexivity. Qed.

(* ================================================================== *)
(** ** The daily digest: the events and the todos it assembles *)
(* ================================================================== *)

Lemma fold_left_max (l : list Z) (x : Z) :
  let m := fold_left Z.max l x in
  In m (x :: l) /\ x <= m /\ Forall (fun d => d <= m) l.
Proof.
  revert x. induction l as [|y l IH]; intros x; cbn [fold_left].
  - cbn. split; [by left|]. split; [lia | constructor].
  - destruct (IH (Z.max x y)) as (Hin & Hle & Hall). cbn zeta.
    split; [|split].
    + destruct Hin as [Hm|Hin]; [|by right; right].
      rewrite <- Hm.
      destruct (Z.max_spec x y) as [[_ ->]|[_ ->]]; [right|]; by left.
    + lia.
    + constructor; [lia | done].
Qed.

Lemma py_max_spec (l : list Z) (m : Z) :
  py_max l = Ok m -> In m l /\ Forall (fun d => d <= m) l.
Proof.
  destruct l as [|x l]; [discriminate|]. cbn [py_max]. intros [= <-].
  destruct (fold_left_max l x) as (Hin & Hle & Hall). split; [done|].
  by constructor.
Qed.

#[global] Instance by_deadline_total : Total by_deadline.
Proof.
  intros a b. unfold by_deadline, date_asc.
  destruct (Event.submission_deadline a) as [x|], (Event.submission_deadline b) as [y|];
    cbn; auto.
  destruct (Z.leb_spec x y), (Z.leb_spec y x); cbn; auto; lia.
Qed.

#[global] Instance by_deadline_trans : Transitive by_deadline.
Proof.
  intros a b c. unfold by_deadline, date_asc.
  destruct (Event.submission_deadline a) as [x|], (Event.submission_deadline b) as [y|],
    (Event.submission_deadline c) as [z|]; cbn; intros Hab Hbc; try done.
  apply Is_true_true in Hab, Hbc. apply Is_true_true. lia.
Qed.

Lemma upcoming_query_In today limit table e :
  In e (upcoming_query today limit table) <->
  In e table /\ exists d, Event.submission_deadline e = Some d /\ today <= d <= limit.
Proof.
  unfold upcoming_query.
  rewrite <- !list_elem_of_In, merge_sort_Permutation, !list_elem_of_In.
  rewrite filter_In. unfold in_window.
  split.
  - intros [Hin Hw]. split; [done|].
    destruct (Event.submission_deadline e) as [d|]; [|discriminate].
    exists d. split; [done|]. lia.
  - intros [Hin (d & -> & Hd)]. split; [done|]. lia.
Qed.

Lemma deadlines_sorted (l : list Event.t) :
  StronglySorted by_deadline l ->
  (forall e, In e l -> exists d, Event.submission_deadline e = Some d) ->
  exists deadlines,
    map Event.submission_deadline l = map Some deadlines
    /\ StronglySorted Z.le deadlines.
Proof.
  induction 1 as [|e l Hl IH Hall]; intros Hsome.
  - exists []. split; [done | constructor].
  - destruct IH as (ds & Hds & Hsorted); [intros e' He'; apply Hsome; by right|].
    destruct (Hsome e) as [d Hd]; [by left|].
    exists (d :: ds). split; [cbn; by rewrite Hd, Hds|].
    constructor; [done|].
    apply List.Forall_forall. intros d' Hd'.
    assert (In (Some d') (map Event.submission_deadline l)) as Hin
      by (rewrite Hds; by apply in_map).
    apply in_map_iff in Hin as (e' & He' & Hin').
    rewrite List.Forall_forall in Hall. specialize (Hall e' Hin').
    unfold by_deadline, date_asc in Hall. rewrite Hd, He' in Hall.
    apply Is_true_true in Hall. lia.
Qed.

(** C4. The digest tick hands every active backend one and the same event
    list: the rows of the event table (each as often as it is there) whose
    deadline is set and lies in [today .. today + max(reminder_days) + 7],
    both ends included, in ascending order of deadline; a row with no
    deadline or with a deadline outside the window is not in it. *)
Theorem digest_event_list `{Transport} (w : World)
    environ today db reminder_days notifiers longest :
  _get_notifiers environ = Ok notifiers ->
  py_max reminder_days = Ok longest ->
  Py.valid_date (today + (longest + 7)) = true ->
  let final := (_send_daily_digest environ today db reminder_days (initial w)).1 in
  (In longest reminder_days /\ Forall (fun d => d <= longest) reminder_days)
  /\ exists upcoming pending_todos,
       calls final =
         map (fun entry : string * Notifier => (entry.1, Digest upcoming pending_todos))
           notifiers
       /\ upcoming ≡ₚ
            List.filter (in_window today (today + (longest + 7))) (events db)
       /\ (forall e,
             In e upcoming <->
             In e (events db)
             /\ exists d, Event.submission_deadline e = Some d
                          /\ today <= d <= today + (longest + 7))
       /\ exists deadlines,
            map Event.submission_deadline upcoming = map Some deadlines
            /\ StronglySorted Z.le deadlines.
Proof.
  intros Hget Hmax Hvalid final. split; [by apply py_max_spec|].
  exists (upcoming_query today (today + (longest + 7)) (events db)),
         (pending_todos_query (todos db)).
  split; [|split; [|split]].
  - destruct (achieves_initial _ _ w
                (send_daily_digest_achieves environ today db reminder_days))
      as (Hcalls & _).
    fold final in Hcalls. rewrite Hcalls. unfold digest_outcome.
    rewrite Hget, Hmax. cbn [rbind]. unfold date_add. rewrite Hvalid.
    by destruct notifiers.
  - apply merge_sort_Permutation.
  - apply upcoming_query_In.
  - apply deadlines_sorted.
    + apply StronglySorted_merge_sort; apply _.
    + intros e He. apply upcoming_query_In in He as (_ & d & Hd & _). eauto.
Qed.

(* ================================================================== *)
(** ** Text: occurrences of a piece in a rendered text *)
(* ================================================================== *)

Lemma prefix_app (n b : string) : String.prefix n (n +:+ b) = true.
Proof.
  induction n as [|c n IH]; simpl; [by destruct b|].
  destruct (ascii_dec c c); [exact IH | congruence].
Qed.

Lemma prefix_app_l (n s t : string) :
  String.prefix n s = true -> String.prefix n (s +:+ t) = true.
Proof.
  revert s. induction n as [|c n IH]; intros s; simpl.
  - by destruct (s +:+ t).
  - destruct s as [|c' s]; [discriminate|]. simpl.
    destruct (ascii_dec c c'); [apply IH | discriminate].
Qed.

Lemma contains_unfold (n s : string) :
  Py.contains n s =
  String.prefix n s
  || match s with EmptyString => false | String _ s' => Py.contains n s' end.
Proof. by destruct s. Qed.

Lemma contains_prefix (n s : string) :
  String.prefix n s = true -> Py.contains n s = true.
Proof. intros Hp. by rewrite contains_unfold, Hp. Qed.

Lemma contains_cons (n s : string) (c : ascii) :
  Py.contains n s = true -> Py.contains n (String c s) = true.
Proof. intros Hs. rewrite contains_unfold, Hs. apply orb_true_r. Qed.

Lemma contains_app_r (n s t : string) :
  Py.contains n t = true -> Py.contains n (s +:+ t) = true.
Proof.
  intros Ht. induction s as [|c s IH]; [done|].
  change (String c s +:+ t) with (String c (s +:+ t)). by apply contains_cons.
Qed.

Lemma contains_app_l (n s t : string) :
  Py.contains n s = true -> Py.contains n (s +:+ t) = true.
Proof.
  induction s as [|c s IH]; rewrite contains_unfold.
  - rewrite orb_false_r. intros Hp. apply contains_prefix.
    by apply (prefix_app_l n "" t).
  - intros [Hp|Hs]%orb_true_iff.
    + apply contains_prefix. by apply prefix_app_l.
    + change (String c s +:+ t) with (String c (s +:+ t)).
      by apply contains_cons, IH.
Qed.

Lemma contains_mid (n a b : string) : Py.contains n (a +:+ n +:+ b) = true.
Proof. apply contains_app_r, contains_prefix, prefix_app. Qed.

Lemma contains_concat (n sep x : string) (l : list string) :
  In x l -> Py.contains n x = true -> Py.contains n (String.concat sep l) = true.
Proof.
  intros Hin Hx. induction l as [|y l IH]; [destruct Hin|].
  destruct l as [|z l].
  - destruct Hin as [->|[]]. done.
  - change (String.concat sep (y :: z :: l))
      with (y +:+ sep +:+ String.concat sep (z :: l)).
    destruct Hin as [->|Hin].
    + by apply contains_app_l.
    + by apply contains_app_r, contains_app_r, IH.
Qed.

(* ================================================================== *)
(** ** The scenarios of the deadline check and of the digest *)
(* ================================================================== *)

Lemma sample_keys : List.NoDup (map Event.id (events Sample.db)).
Proof. cbn. repeat constructor; cbn; intuition discriminate. Qed.

Lemma check_deadlines_exact_match_witness :
  let final :=
    (@_check_deadlines Sample.webhook_down Sample.latin Sample.environ Sample.today Sample.db
       [7; 3; 1] (@initial Sample.webhook_down tt)).1 in
  (reminders_for "discord" Sample.event_A (calls final) = 1%nat
   /\ reminders_for "email" Sample.event_A (calls final) = 1%nat)
  /\ reminders_for "email" Sample.event_B (calls final) = 0%nat
  /\ reminders_for "email" Sample.event_C (calls final) = 0%nat.
Proof.
  intros final.
  set (notifiers := [("discord", Discord Sample.discord); ("email", Email Sample.email)]).
  assert (Hget : _get_notifiers Sample.environ = Ok notifiers) by reflexivity.
  assert (Hdays : List.NoDup [7; 3; 1])
    by (repeat constructor; cbn; intuition discriminate).
  assert (Hvalid : Forall (fun d => Py.valid_date (Sample.today + d) = true) [7; 3; 1])
    by (repeat constructor).
  destruct (check_deadlines_exact_match (H := Sample.webhook_down) tt Sample.environ
              Sample.today Sample.db [7; 3; 1] notifiers Sample.event_A
              Hget sample_keys (or_introl eq_refl)) as [HA _].
  destruct (check_deadlines_exact_match (H := Sample.webhook_down) tt Sample.environ
              Sample.today Sample.db [7; 3; 1] notifiers Sample.event_B
              Hget sample_keys (or_intror (or_introl eq_refl))) as (_ & HB & _).
  destruct (check_deadlines_exact_match (H := Sample.webhook_down) tt Sample.environ
              Sample.today Sample.db [7; 3; 1] notifiers Sample.event_C
              Hget sample_keys (or_intror (or_intror (or_introl eq_refl)))) as (_ & HC & _).
  split; [split|split].
  - apply (HA 7 Hdays Hvalid (or_introl eq_refl) eq_refl "discord" (Discord Sample.discord)).
    by left.
  - apply (HA 7 Hdays Hvalid (or_introl eq_refl) eq_refl "email" (Email Sample.email)).
    right. by left.
  - apply HB. right. exists 6. split; [reflexivity|]. cbn. intuition discriminate.
  - apply HC. by left.
Defined.

(** The reminder days are a list and are walked as they are listed.  With
    seven days listed twice, the event due in seven days is handed twice to
    each of the two active backends; with an offset listed first that leads
    past [date.max], the check raises [OverflowError] before it reaches the
    offset seven, and the same event is handed to no backend. *)
Lemma check_deadlines_not_exactly_one :
  let twice :=
    @_check_deadlines Sample.faultless Sample.latin Sample.environ Sample.today Sample.db
      [7; 3; 7] (@initial Sample.faultless tt) in
  let stopped :=
    @_check_deadlines Sample.faultless Sample.latin Sample.environ Sample.today Sample.db
      [4000000; 7] (@initial Sample.faultless tt) in
  _get_notifiers Sample.environ
  = Ok [("discord", Discord Sample.discord); ("email", Email Sample.email)]
  /\ In Sample.event_A (events Sample.db)
  /\ Event.submission_deadline Sample.event_A = Some (Sample.today + 7)
  /\ (In 7 [7; 3; 7]
      /\ reminders_for "discord" Sample.event_A (calls twice.1) = 2%nat
      /\ reminders_for "email" Sample.event_A (calls twice.1) = 2%nat
      /\ twice.2 = Ok tt)
  /\ (In 7 [4000000; 7]
      /\ reminders_for "discord" Sample.event_A (calls stopped.1) = 0%nat
      /\ reminders_for "email" Sample.event_A (calls stopped.1) = 0%nat
      /\ stopped.2 = Raise (OverflowError "date value out of range")).
Proof.
  cbv zeta. split; [reflexivity|]. split; [by left|]. split; [reflexivity|].
  split.
  - split; [by left|]. by vm_compute.
  - split; [right; by left|]. by vm_compute.
Qed.

(** Without any setting, [init_scheduler] runs the digest at nine and checks
    seven, three and one day ahead; the offsets are kept as they are listed. *)
Example default_config :
  read_config ∅ = Ok {| digest_hour := 9; reminder_days := [7; 3; 1] |}
  /\ read_config (<["REMINDER_DAYS_BEFORE" := "14, 7,7"]> ∅)
     = Ok {| digest_hour := 9; reminder_days := [14; 7; 7] |}.
Proof. split; reflexivity. Qed.

(** The webhook fails on every post; the mail for the same event still goes
    out, and the failure is in the log only. *)
Example webhook_down_mail_still_sent :
  let tick :=
    @_check_deadlines Sample.webhook_down Sample.latin Sample.environ Sample.today Sample.db
      [7; 3; 1] (@initial Sample.webhook_down tt) in
  tick.2 = Ok tt
  /\ calls tick.1 = [("discord", Reminder Sample.event_A); ("email", Reminder Sample.event_A)]
  /\ length (sent tick.1) = 2%nat
  /\ errors tick.1 = ["Failed to send reminder for Crypto via discord: 500 Server Error"].
Proof. vm_compute. repeat split. Qed.

Lemma no_active_backend_witness :
  _get_notifiers Sample.environ_partial = Ok []
  /\ @_check_deadlines Sample.faultless Sample.latin Sample.environ_partial Sample.today Sample.db
       [7; 3; 1] (@initial Sample.faultless tt)
     = (@initial Sample.faultless tt, Ok tt).
Proof.
  split; [reflexivity|].
  apply (no_active_backend_no_delivery (H := Sample.faultless)). reflexivity.
Defined.

Lemma digest_event_list_witness :
  let final :=
    (@_send_daily_digest Sample.faultless Sample.environ Sample.today Sample.db
       [7; 3; 1] (@initial Sample.faultless tt)).1 in
  exists upcoming pending_todos,
    calls final = [("discord", Digest upcoming pending_todos);
                   ("email", Digest upcoming pending_todos)]
    /\ upcoming ≡ₚ [Sample.event_A; Sample.event_B]
    /\ exists deadlines,
         map Event.submission_deadline upcoming = map Some deadlines
         /\ StronglySorted Z.le deadlines.
Proof.
  intros final.
  destruct (digest_event_list (H := Sample.faultless) tt Sample.environ Sample.today
              Sample.db [7; 3; 1]
              [("discord", Discord Sample.discord); ("email", Email Sample.email)] 7
              eq_refl eq_refl eq_refl)
    as (_ & upcoming & pending & Hcalls & Hperm & _ & Hsorted).
  exists upcoming, pending. split; [exact Hcalls|]. split; [exact Hperm | exact Hsorted].
Defined.

(* ================================================================== *)
(** ** The todos of the digest *)
(* ================================================================== *)

Lemma pending_todos_query_In table t :
  In t (pending_todos_query table) <->
  In t table /\ (Todo.status t = Some "pending" \/ Todo.status t = Some "in_progress").
Proof.
  unfold pending_todos_query.
  rewrite <- !list_elem_of_In, merge_sort_Permutation, !list_elem_of_In.
  rewrite filter_In. unfold is_pending. split.
  - intros [Hin Hs]. split; [done|].
    destruct (Todo.status t) as [st|]; [|discriminate].
    apply orb_true_iff in Hs as [Hs|Hs]; apply String.eqb_eq in Hs; subst; auto.
  - intros [Hin [Hs|Hs]]; rewrite Hs; auto.
Qed.

#[global] Instance by_due_then_priority_total : Total by_due_then_priority.
Proof.
  intros a b. unfold by_due_then_priority, due_compare, priority_asc.
  destruct (Todo.due_date a) as [x|], (Todo.due_date b) as [y|]; cbn; auto.
  - rewrite (Z.compare_antisym x y). destruct (x ?= y); cbn; auto.
    destruct (Todo.priority a) as [p|], (Todo.priority b) as [q|]; cbn; auto.
    destruct (String.leb_total p q) as [->| ->]; cbn; auto.
  - destruct (Todo.priority a) as [p|], (Todo.priority b) as [q|]; cbn; auto.
    destruct (String.leb_total p q) as [->| ->]; cbn; auto.
Qed.

(** What the query does give: the pending and in-progress todos, by due date
    with the undated last, and within a due date by the priority as text. *)
Lemma pending_todos_query_sorted table :
  Sorted by_due_then_priority (pending_todos_query table).
Proof. apply Sorted_merge_sort; apply _. Qed.

(** C5, at the failing input.  Three open todos with no due date, of
    priority medium, low and high (and a completed one): the digest lists
    them high, low, medium, the order of the priority names as text, where
    the claim has high, medium, low. *)
Theorem digest_todos_priority_as_text :
  pending_todos_query
    [Sample.todo_medium; Sample.todo_low; Sample.todo_high; Sample.todo_done]
  = [Sample.todo_high; Sample.todo_low; Sample.todo_medium].
Proof. vm_compute. reflexivity. Qed.

(* ================================================================== *)
(** ** What the payloads hold *)
(* ================================================================== *)

Lemma rmap_ok {A B} (f : A -> result B) (l : list A) :
  (forall x, In x l -> exists y, f x = Ok y) -> exists ys, rmap f l = Ok ys.
Proof.
  induction l as [|x l IH]; intros Hf; cbn [rmap]; [eauto|].
  destruct (Hf x) as [y ->]; [by left|].
  destruct IH as [ys ->]; [intros z Hz; apply Hf; by right|].
  cbn. eauto.
Qed.

Lemma In_slice_to {A} (n : nat) (l : list A) (x : A) :
  In x (Py.slice_to n l) -> In x l.
Proof.
  unfold Py.slice_to. revert l. induction n as [|n IH]; intros [|y l]; cbn; try done.
  intros [->|Hin]; [by left | right; by apply IH].
Qed.

Lemma deadline_row_ok today e deadline :
  Event.submission_deadline e = Some deadline ->
  exists row, EmailNotifier.deadline_row today e = Ok row.
Proof.
  intros Hd. unfold EmailNotifier.deadline_row, Event.days_until_deadline.
  rewrite Hd. eauto.
Qed.

(** The mail of the digest can be rendered whenever the events it is given
    have their deadline set. *)
Lemma email_digest_ok today upcoming pending_todos :
  (forall e, In e upcoming -> Event.submission_deadline e <> None) ->
  exists html, EmailNotifier.digest_html today upcoming pending_todos = Ok html.
Proof.
  intros Hset. unfold EmailNotifier.digest_html.
  destruct (rmap_ok (EmailNotifier.deadline_row today) (Py.slice_to 15 upcoming))
    as [rows ->]; [|cbn [rbind]; eauto].
  intros e He. apply In_slice_to in He.
  specialize (Hset e He).
  destruct (Event.submission_deadline e) as [d|] eqn:Hd; [|done].
  by apply (deadline_row_ok today e d).
Qed.

Lemma email_digest_no_tasks today upcoming html :
  EmailNotifier.digest_html today upcoming [] = Ok html ->
  Py.contains "<p>No pending tasks.</p>" html = true.
Proof.
  unfold EmailNotifier.digest_html.
  destruct (rmap _ _) as [rows|e]; cbn [rbind]; [|discriminate].
  intros [= <-]. unfold Py.lines.
  eapply contains_concat; [do 12 right; left; reflexivity|].
  vm_compute. reflexivity.
Qed.

Lemma email_digest_no_deadlines today pending_todos html :
  EmailNotifier.digest_html today [] pending_todos = Ok html ->
  Py.contains "<p>No upcoming deadlines.</p>" html = true.
Proof.
  unfold EmailNotifier.digest_html. cbn [Py.slice_to firstn rmap rbind].
  intros [= <-]. unfold Py.lines.
  eapply contains_concat; [do 8 right; left; reflexivity|].
  vm_compute. reflexivity.
Qed.






(** The scenario of the specification on the mail backend: no pending todo
    and two upcoming events give the explicit line for the tasks and a table
    with one row per event. *)
Example email_digest_two_events_no_todo :
  exists html,
    EmailNotifier.digest_html Sample.today [Sample.event_B; Sample.event_A] [] = Ok html
    /\ Py.contains "<h3>Pending Tasks (0)</h3>" html = true
    /\ Py.contains "<p>No pending tasks.</p>" html = true
    /\ Py.contains
         ("</tr><tr><td>Eurocrypt</td><td>conference</td>"
          +:+ "<td style='color:#f59e0b;font-weight:bold;'>6 days</td>"
          +:+ "<td>2024-01-16</td></tr>"
          +:+ "<tr><td><a href='https://crypto.example'>Crypto</a></td><td>conference</td>"
          +:+ "<td style='color:#f59e0b;font-weight:bold;'>7 days</td>"
          +:+ "<td>2024-01-17</td></tr></table>") html = true.
Proof. eexists. split; [vm_compute; reflexivity|]. vm_compute. auto. Qed.

(** The mail of a reminder is the same whatever the relevance tags of the
    event: it reads the title, the category, the website and the deadline
    only. *)
Lemma email_reminder_ignores_tags {U : Py.Unicode} n today e e' :
  Event.title e = Event.title e' ->
  Event.category e = Event.category e' ->
  Event.website e = Event.website e' ->
  Event.submission_deadline e = Event.submission_deadline e' ->
  reminder_request (Email n) today e = reminder_request (Email n) today e'.
Proof.
  intros Ht Hc Hw Hd. cbn [reminder_request].
  unfold EmailNotifier.reminder_html, EmailNotifier.reminder_subject,
    EmailNotifier.website_paragraph, Event.days_until_deadline.
  by rewrite Ht, Hc, Hw, Hd.
Qed.

(** C7, at the failing input.  For the sample event with the tags
    [fhe,mpc], the reminder of the Discord backend carries the tags and the
    reminder of the mail backend does not; both carry the title, the
    category, the deadline, the days left and the website. *)
Theorem email_reminder_omits_tags {U : Py.Unicode} :
  exists q_discord q_email,
    reminder_request (Discord Sample.discord) Sample.today Sample.event_A = Ok q_discord
    /\ reminder_request (Email Sample.email) Sample.today Sample.event_A = Ok q_email
    /\ says "fhe,mpc" q_discord = true
    /\ says "fhe,mpc" q_email = false
    /\ forallb (fun piece => says piece q_discord && says piece q_email)
         ["Crypto"; "Conference"; "2024-01-17"; "7"; "https://crypto.example"] = true.
Proof. do 2 eexists. repeat split; vm_compute; reflexivity. Qed.

(* ================================================================== *)
(** ** The vault export *)
(* ================================================================== *)

Lemma write_all_cons p c ws (fs : gmap string string) :
  write_all ((p, c) :: ws) fs = write_all ws (<[p := c]> fs).
Proof. reflexivity. Qed.

Lemma write_all_app ws ws' (fs : gmap string string) :
  write_all (ws ++ ws') fs = write_all ws' (write_all ws fs).
Proof. unfold write_all. apply fold_left_app. Qed.

(** After the writes, a file holds what the last write to it put there, and
    what it held before if there was none. *)
Lemma lookup_write_all ws (fs : gmap string string) path :
  write_all ws fs !! path =
  match last_write path ws with
  | Some c => Some c
  | None => fs !! path
  end.
Proof.
  revert fs. induction ws as [|[p c] ws IH]; intros fs; [done|].
  rewrite write_all_cons, IH. cbn [last_write].
  destruct (last_write path ws) as [c'|]; [done|].
  destruct (String.eqb_spec p path) as [->|Hne].
  - apply lookup_insert_eq.
  - by apply lookup_insert_ne.
Qed.

Lemma last_write_snoc ws path c : last_write path (ws ++ [(path, c)]) = Some c.
Proof.
  induction ws as [|[p c'] ws IH]; cbn [app last_write].
  - by rewrite String.eqb_refl.
  - by rewrite IH.
Qed.

Lemma write_all_idempotent ws (fs : gmap string string) :
  write_all ws (write_all ws fs) = write_all ws fs.
Proof.
  apply map_eq. intros path. rewrite !lookup_write_all.
  by destruct (last_write path ws).
Qed.

Lemma export_each_writes {A} (path content : A -> string) (l : list A)
    (fs : gmap string string) :
  ObsidianExport.export_each
    (fun x fs => ObsidianExport._write_file (path x) (content x) fs) l fs =
  write_all (map (fun x => (path x, content x)) l) fs.
Proof.
  unfold ObsidianExport.export_each. revert fs.
  induction l as [|x l IH]; intros fs; [done|].
  cbn [fold_left map]. rewrite write_all_cons. apply IH.
Qed.

Lemma export_all_writes {U : Py.Unicode} `{PyFloat} self events researchers daily_logs
    (fs : gmap string string) :
  ObsidianExport.export_all self events researchers daily_logs fs =
  write_all (export_writes self events researchers daily_logs) fs.
Proof.
  unfold ObsidianExport.export_all, export_writes.
  rewrite !write_all_app.
  unfold ObsidianExport.export_event, ObsidianExport.export_researcher,
    ObsidianExport.export_daily_log.
  rewrite (export_each_writes (ObsidianExport.event_filepath self)
             ObsidianExport.event_content).
  rewrite (export_each_writes (ObsidianExport.researcher_filepath self)
             ObsidianExport.researcher_content).
  rewrite (export_each_writes (ObsidianExport.daily_log_filepath self)
             ObsidianExport.daily_log_content).
  reflexivity.
Qed.

(** C8. Exporting the same events, researchers and daily logs a second time
    leaves the vault exactly as the first export left it, file by file, the
    index included; and what an exported file holds does not depend on what
    the vault held before the export. *)
Theorem export_all_idempotent {U : Py.Unicode} `{PyFloat} (self : ObsidianExport.t)
    (events : list Event.t) (researchers : list Researcher.t)
    (daily_logs : list DailyLog.t) (fs : gmap string string) :
  ObsidianExport.export_all self events researchers daily_logs
    (ObsidianExport.export_all self events researchers daily_logs fs)
  = ObsidianExport.export_all self events researchers daily_logs fs
  /\ (forall (fs' : gmap string string) path,
         In path (map fst (export_writes self events researchers daily_logs)) ->
         ObsidianExport.export_all self events researchers daily_logs fs !! path
         = ObsidianExport.export_all self events researchers daily_logs fs' !! path
         /\ is_Some (ObsidianExport.export_all self events researchers daily_logs fs
                     !! path))
  /\ ObsidianExport.export_all self events researchers daily_logs fs
     !! Py.path_join (ObsidianExport.base_dir self) ["Index.md"]
     = Some (ObsidianExport.index_content events).
Proof.
  rewrite !export_all_writes. split; [apply write_all_idempotent|]. split.
  - intros fs' path Hpath. rewrite export_all_writes, !lookup_write_all.
    assert (is_Some (last_write path
                       (export_writes self events researchers daily_logs))) as [c ->];
      [|split; [done | by eexists]].
    revert Hpath. generalize (export_writes self events researchers daily_logs).
    induction l as [|[p c] ws IH]; cbn [map In last_write fst]; [done|].
    intros [->|Hin].
    + destruct (last_write path ws); [by eexists|].
      rewrite String.eqb_refl. by eexists.
    + destruct (IH Hin) as [c' ->]. by eexists.
  - rewrite lookup_write_all. unfold export_writes.
    by rewrite !app_assoc, last_write_snoc.
Qed.

(* ================================================================== *)
(** ** File names of the vault *)
(* ================================================================== *)

Lemma all_chars_app test (s t : string) :
  all_chars test (s +:+ t) = all_chars test s && all_chars test t.
Proof.
  induction s as [|c s IH]; [done|].
  change (String c s +:+ t) with (String c (s +:+ t)). cbn [all_chars].
  by rewrite IH, andb_assoc.
Qed.

(** *** The characters of a text *)

Lemma append_cons (c : ascii) (s t : string) : String c s +:+ t = String c (s +:+ t).
Proof. reflexivity. Qed.

Lemma append_nil_r (s : string) : s +:+ "" = s.
Proof. induction s as [|c s IH]; [done|]. by rewrite append_cons, IH. Qed.

Lemma append_assoc (a b c : string) : (a +:+ b) +:+ c = a +:+ b +:+ c.
Proof. induction a as [|x a IH]; [done|]. by rewrite !append_cons, IH. Qed.

Lemma chars_cons (c : ascii) (s : string) :
  Py.chars (String c s) =
  match Py.chars s with
  | h :: t => if Py.continues h then String c h :: t else String c "" :: h :: t
  | [] => [String c ""]
  end.
Proof. reflexivity. Qed.

(** The first character of a text begins with its first byte. *)
Lemma chars_head (c : ascii) (s : string) :
  exists t l, Py.chars (String c s) = String c t :: l.
Proof.
  rewrite chars_cons. destruct (Py.chars s) as [|h l]; [by eexists _, _|].
  destruct (Py.continues h); by eexists _, _.
Qed.

Lemma text_app (l l' : list string) : Py.text (l ++ l') = Py.text l +:+ Py.text l'.
Proof.
  induction l as [|ch l IH]; [done|]. cbn [app Py.text]. by rewrite IH, append_assoc.
Qed.

(** Cutting a text into characters loses nothing. *)
Lemma text_chars (s : string) : Py.text (Py.chars s) = s.
Proof.
  induction s as [|c s IH]; [done|]. rewrite chars_cons.
  destruct (Py.chars s) as [|h l].
  - cbn [Py.text] in *. by rewrite <- IH.
  - destruct (Py.continues h); cbn [Py.text] in *; by rewrite ?append_cons, IH.
Qed.

Lemma char_list_chars (s : string) : char_list (Py.chars s).
Proof.
  induction s as [|c s [Hone Hbegin]]; [by split|]. rewrite chars_cons.
  destruct (Py.chars s) as [|h l]; [by split; repeat constructor|].
  apply List.Forall_cons_iff in Hone as [Hh Hl]. cbn [tl] in Hbegin.
  destruct (Py.continues h) eqn:Hcont.
  - split; [|done]. constructor; [|done]. cbn [one_char].
    destruct h as [|c' t']; [done|]. cbn [one_char Py.continues all_chars] in *.
    by rewrite Hcont, Hh.
  - split; [by repeat constructor|]. cbn [tl]. constructor; [|done].
    destruct h as [|c' t']; [done|]. cbn [begins_char Py.continues] in *.
    by rewrite Hcont.
Qed.

Lemma char_list_tail (ch : string) (l : list string) :
  char_list (ch :: l) -> char_list l /\ Forall (fun ch => begins_char ch = true) l.
Proof.
  intros [Hone Hbegin]. apply List.Forall_cons_iff in Hone as [_ Hl]. cbn [tl] in Hbegin.
  split; [|done]. split; [done|]. destruct l as [|x l]; [done|].
  by apply List.Forall_cons_iff in Hbegin as [_ ?].
Qed.

(** A character followed by a text that begins a new character. *)
Lemma chars_one_char (t : string) :
  forall c rest,
    all_chars Py.is_continuation t = true ->
    Py.continues rest = false ->
    Py.chars (String c (t +:+ rest)) = String c t :: Py.chars rest.
Proof.
  induction t as [|c1 t IH]; intros c rest Ht Hrest.
  - change ("" +:+ rest) with rest. rewrite chars_cons.
    destruct rest as [|c' r]; [done|].
    destruct (chars_head c' r) as (t' & l & ->).
    cbn [Py.continues] in *. by rewrite Hrest.
  - cbn [all_chars] in Ht. apply andb_true_iff in Ht as [Hc1 Ht].
    rewrite append_cons, chars_cons, (IH c1 rest Ht Hrest).
    cbn [Py.continues]. by rewrite Hc1.
Qed.

(** Characters put together and cut again are the same characters. *)
Lemma chars_text (l : list string) : char_list l -> Py.chars (Py.text l) = l.
Proof.
  induction l as [|ch l IH]; [done|]. intros Hl.
  destruct (char_list_tail ch l Hl) as [Hl' Hbegin]. destruct Hl as [Hone _].
  apply List.Forall_cons_iff in Hone as [Hch _].
  destruct ch as [|c t]; [done|]. cbn [one_char] in Hch.
  cbn [Py.text]. rewrite append_cons, chars_one_char, IH; try done.
  destruct Hbegin as [|h l' Hh _]; [done|].
  destruct h as [|c' t']; [done|]. cbn [Py.text begins_char] in *.
  rewrite append_cons. cbn [Py.continues]. by destruct (Py.is_continuation c').
Qed.

(** A part of the characters of a text, in their order, is a list of
    characters again. *)
Lemma char_list_incl (l l2 : list string) :
  char_list l ->
  (forall x, In x l2 -> In x l) -> (forall x, In x (tl l2) -> In x (tl l)) ->
  char_list l2.
Proof.
  intros [Hone Hbegin] Hin Htl.
  rewrite List.Forall_forall in Hone, Hbegin.
  split; apply List.Forall_forall; intros x Hx; auto.
Qed.

Lemma In_tl {A} (x : A) (l : list A) : In x (tl l) -> In x l.
Proof. destruct l; [done|]. by right. Qed.

Lemma char_list_filter (keep : string -> bool) (l : list string) :
  char_list l -> char_list (List.filter keep l).
Proof.
  intros Hl. apply (char_list_incl l); [done| |].
  - by intros x [Hx _]%filter_In.
  - clear Hl. induction l as [|a l IH]; [done|]. cbn [List.filter tl].
    destruct (keep a); cbn [tl]; intros x Hx.
    + by apply filter_In in Hx as [Hx _].
    + apply In_tl in Hx. by apply filter_In in Hx as [Hx _].
Qed.

Lemma lstrip_chars_spec (l : list string) :
  exists la,
    l = (la ++ Py.lstrip_chars l)%list
    /\ forallb Py.isspace_char la = true
    /\ forall ch r, Py.lstrip_chars l = ch :: r -> Py.isspace_char ch = false.
Proof.
  induction l as [|ch l (la & Hl & Hla & Hfirst)].
  - exists []. split; [done|]. split; [done|]. discriminate.
  - cbn [Py.lstrip_chars]. destruct (Py.isspace_char ch) eqn:Hch.
    + exists (ch :: la). split; [by cbn [app]; rewrite <- Hl|].
      split; [|done]. cbn [forallb]. by rewrite Hch, Hla.
    + exists []. split; [done|]. split; [done|]. by intros ch' r [= <- _].
Qed.

Lemma rstrip_chars_spec (l : list string) :
  exists lb,
    l = (Py.rstrip_chars l ++ lb)%list
    /\ forallb Py.isspace_char lb = true
    /\ (forall ch r, Py.rstrip_chars l = (r ++ [ch])%list -> Py.isspace_char ch = false)
    /\ (forall ch r, Py.rstrip_chars l = ch :: r -> exists r', l = ch :: r').
Proof.
  induction l as [|ch l (lb & Hl & Hlb & Hlast & Hhead)].
  - exists []. split; [done|]. split; [done|]. split; [|discriminate].
    intros ch [|x r]; discriminate.
  - cbn [Py.rstrip_chars]. destruct (Py.rstrip_chars l) as [|x r] eqn:Hr.
    + cbn [app] in Hl. subst l. destruct (Py.isspace_char ch) eqn:Hch.
      * exists (ch :: lb). split; [done|]. split; [|split].
        -- cbn [forallb]. by rewrite Hch, Hlb.
        -- intros ch' [|x r]; discriminate.
        -- discriminate.
      * exists lb. split; [done|]. split; [done|]. split.
        -- intros ch' [|x [|y r]]; [|discriminate..]. by intros [= <-].
        -- intros ch' r [= <- <-]. by eexists.
    + exists lb. split; [cbn [app]; by f_equal|]. split; [done|]. split.
      * intros ch' [|y r']; [discriminate|]. cbn [app]. intros [= _ Heq].
        by apply (Hlast ch' r').
      * intros ch' r' [= <- _]. by eexists.
Qed.

(** [strip] cuts the white space at both ends and nothing else. *)
Lemma strip_chars_spec (l : list string) :
  exists la lb,
    l = (la ++ Py.strip_chars l ++ lb)%list
    /\ forallb Py.isspace_char la = true /\ forallb Py.isspace_char lb = true
    /\ (forall ch r, Py.strip_chars l = ch :: r -> Py.isspace_char ch = false)
    /\ (forall ch r, Py.strip_chars l = (r ++ [ch])%list -> Py.isspace_char ch = false).
Proof.
  destruct (lstrip_chars_spec l) as (la & Hl & Hla & Hfirst).
  destruct (rstrip_chars_spec (Py.lstrip_chars l)) as (lb & Hm & Hlb & Hlast & Hhead).
  exists la, lb. unfold Py.strip_chars. split; [by rewrite <- Hm|].
  split; [done|]. split; [done|]. split; [|done].
  intros ch r Hch. destruct (Hhead ch r Hch) as [r' Hr']. by apply (Hfirst ch r').
Qed.

Lemma char_list_app (l1 l2 : list string) :
  char_list (l1 ++ l2) -> char_list l1 /\ char_list l2.
Proof.
  intros Hl. split; apply (char_list_incl (l1 ++ l2)); try done.
  - intros x Hx. apply in_or_app. by left.
  - destruct l1 as [|a l1]; [done|]. cbn [app tl]. intros x Hx.
    apply in_or_app. by left.
  - intros x Hx. apply in_or_app. by right.
  - destruct l1 as [|a l1]; [done|]. cbn [app tl]. intros x Hx%In_tl.
    apply in_or_app. by right.
Qed.

(** [s.strip()] on the text: what it cuts is white space, what it leaves are
    the characters between, and neither the first nor the last of them is
    white space. *)
Lemma strip_spec (s : string) :
  exists a b,
    s = a +:+ Py.strip s +:+ b
    /\ all_space a = true /\ all_space b = true
    /\ Py.chars (Py.strip s) = Py.strip_chars (Py.chars s)
    /\ (forall ch l, Py.chars (Py.strip s) = ch :: l -> Py.isspace_char ch = false)
    /\ (forall ch l, Py.chars (Py.strip s) = (l ++ [ch])%list ->
                     Py.isspace_char ch = false).
Proof.
  destruct (strip_chars_spec (Py.chars s)) as (la & lb & Hl & Hla & Hlb & Hfirst & Hlast).
  pose proof (char_list_chars s) as Hs. rewrite Hl in Hs.
  apply char_list_app in Hs as [Ha Hs]. apply char_list_app in Hs as [Hm Hb].
  exists (Py.text la), (Py.text lb). unfold Py.strip, all_space.
  rewrite !chars_text by done.
  split; [by rewrite <- !text_app, <- Hl, text_chars|]. by repeat split.
Qed.

Lemma keep_char_filter {U : Py.Unicode} (l : list string) :
  forallb keep_char (List.filter keep_char l) = true.
Proof.
  apply forallb_forall. by intros x [_ Hx]%filter_In.
Qed.

Lemma get_replace_char a b (s : string) (i : nat) :
  String.get i (Py.replace_char a b s) =
  (fun c => if Ascii.eqb c a then b else c) <$> String.get i s.
Proof.
  revert i. induction s as [|c s IH]; intros i; [done|].
  cbn [Py.replace_char]. destruct i as [|i]; [done|]. apply IH.
Qed.

Lemma safe_title_strip {U : Py.Unicode} (title : string) :
  ObsidianExport.safe_title title = Py.strip (sanitized title).
Proof.
  unfold ObsidianExport.safe_title, sanitized. do 2 f_equal.
  apply filter_ext. intros c. unfold keep_char. cbn [existsb].
  by rewrite orb_false_r, !orb_assoc.
Qed.

Lemma safe_title_chars {U : Py.Unicode} (title : string) :
  exists la lb,
    List.filter keep_char (Py.chars title)
    = (la ++ Py.chars (ObsidianExport.safe_title title) ++ lb)%list
    /\ forallb Py.isspace_char la = true /\ forallb Py.isspace_char lb = true
    /\ char_list (Py.chars (ObsidianExport.safe_title title))
    /\ forallb keep_char (Py.chars (ObsidianExport.safe_title title)) = true.
Proof.
  rewrite safe_title_strip.
  destruct (strip_spec (sanitized title)) as (a & b & _ & _ & _ & Hchars & _).
  rewrite Hchars. unfold sanitized.
  rewrite chars_text by apply char_list_filter, char_list_chars.
  destruct (strip_chars_spec (List.filter keep_char (Py.chars title)))
    as (la & lb & Hl & Hla & Hlb & _).
  exists la, lb. split; [done|]. split; [done|]. split; [done|].
  pose proof (char_list_filter keep_char _ (char_list_chars title)) as Hlist.
  pose proof (keep_char_filter (Py.chars title)) as Hkeep.
  rewrite Hl in Hlist, Hkeep.
  apply char_list_app in Hlist as [_ [Hm _]%char_list_app].
  rewrite !forallb_app in Hkeep.
  by apply andb_true_iff in Hkeep as [_ [Hmid _]%andb_true_iff].
Qed.

(** C9 as stated fails: a researcher file keeps the dot and turns the slash
    into a hyphen, and an event file loses the spaces at the ends of what the
    rule keeps; and this whatever the database says of the characters outside
    ASCII. *)
Lemma file_names_not_sanitized :
  (ObsidianExport.researcher_filename (Sample.researcher "A. Shamir/B") = "A. Shamir-B.md"
   /\ sanitized "A. Shamir/B" +:+ ".md" = "A ShamirB.md")
  /\ (ObsidianExport.safe_title " Crypto: 2024 " = "Crypto 2024"
      /\ sanitized " Crypto: 2024 " = " Crypto 2024 ")
  /\ ~ (exists U : Py.Unicode, @file_names_sanitized U).
Proof.
  split; [split; reflexivity|]. split; [split; reflexivity|].
  intros [U [_ Hresearchers]].
  specialize (Hresearchers (ObsidianExport.init "/vault") (Sample.researcher "A. Shamir/B")).
  vm_compute in Hresearchers. discriminate.
Qed.

(** C9, as amended.  An event is filed as [<title>.md] under
    [Events/<Category>s], where [<title>] is the title with every character
    other than alphanumerics, spaces, hyphens and underscores dropped and,
    after that, the white space at both ends cut.  A researcher is filed as
    [<name>.md] under [Researchers], where [<name>] is the name with each
    slash turned into a hyphen and every other character kept.  A daily log
    is filed under its ISO date. *)
Theorem vault_file_names {U : Py.Unicode} `{PyFloat} (self : ObsidianExport.t)
    (event : Event.t) (researcher : Researcher.t) (log : DailyLog.t) :
  let stem := ObsidianExport.safe_title (Event.title event) in
  (ObsidianExport.event_filepath self event =
     Py.path_join (ObsidianExport.base_dir self)
       ["Events"; Py.title (Event.category event) +:+ "s"; stem +:+ ".md"]
   /\ forallb keep_char (Py.chars stem) = true
   /\ (exists a b,
          sanitized (Event.title event) = a +:+ stem +:+ b
          /\ all_space a = true /\ all_space b = true)
   /\ (forall ch l, Py.chars stem = ch :: l -> Py.isspace_char ch = false)
   /\ (forall ch l, Py.chars stem = (l ++ [ch])%list -> Py.isspace_char ch = false))
  /\ (exists name,
         ObsidianExport.researcher_filepath self researcher =
           Py.path_join (ObsidianExport.base_dir self) ["Researchers"; name +:+ ".md"]
         /\ forall i,
              String.get i name =
              (fun c => if Ascii.eqb c "/" then "-"%char else c)
                <$> String.get i (Researcher.name researcher))
  /\ ObsidianExport.daily_log_filepath self log =
       Py.path_join (ObsidianExport.base_dir self)
         ["Daily Notes"; Py.isoformat (DailyLog.log_date log) +:+ ".md"].
Proof.
  intros stem.
  destruct (safe_title_chars (Event.title event)) as (la & lb & _ & _ & _ & _ & Hkeep).
  fold stem in Hkeep.
  destruct (strip_spec (sanitized (Event.title event)))
    as (a & b & Hs & Ha & Hb & _ & Hfirst & Hlast).
  rewrite <- safe_title_strip in Hs, Hfirst, Hlast. fold stem in Hs, Hfirst, Hlast.
  split; [|split; [|done]].
  - split; [done|]. split; [done|]. split; [by exists a, b|by split].
  - exists (Py.replace_char "/" "-" (Researcher.name researcher)).
    split; [done|]. intros i. apply get_replace_char.
Qed.

(** The file of an event with accents in its title: the letters outside
    ASCII that the database knows as alphanumeric stay. *)
Example accented_title :
  ObsidianExport.safe_title " Café ² 2024: x_y-z! " = "Café ² 2024 x_y-z"
  /\ Py.title "école/été" = "École/Été"
  /\ Py.strip (Py.nl +:+ "  smtp.example  ") = "smtp.example".
Proof. vm_compute. repeat split. Qed.

(* ================================================================== *)
(** ** Further properties of the ticks *)
(* ================================================================== *)

(** The deadline check does not de-duplicate the reminder days: an event due
    in [d] days is handed to each active backend as many times as [d] is
    listed. *)
Theorem reminders_once_per_listed_offset {U : Py.Unicode} `{Transport} (w : World)
    environ today db reminder_days notifiers event d kind notifier :
  _get_notifiers environ = Ok notifiers ->
  List.NoDup (map Event.id (events db)) ->
  In event (events db) ->
  Forall (fun d' => Py.valid_date (today + d') = true) reminder_days ->
  Event.submission_deadline event = Some (today + d) ->
  In (kind, notifier) notifiers ->
  reminders_for kind event
    (calls (_check_deadlines environ today db reminder_days (initial w)).1)
  = occurrences d reminder_days.
Proof.
  intros Hget Hkeys Hev Hvalid Hdeadline Hentry.
  destruct (achieves_initial _ _ w
              (check_deadlines_achieves environ today db reminder_days))
    as (-> & _ & _).
  unfold check_outcome. rewrite Hget.
  destruct notifiers as [|entry0 notifiers0] eqn:Hns; [destruct Hentry|].
  rewrite <- Hns in *.
  destruct (plan_reminders kind event notifiers today (events db) reminder_days Hvalid)
    as [-> _].
  rewrite (matching_offsets today d event reminder_days Hdeadline).
  rewrite (occurrences_NoDup event (events db) (NoDup_map_inv _ _ Hkeys) Hev).
  rewrite (registered_once environ notifiers kind notifier Hget Hentry). lia.
Qed.

Lemma reminders_once_per_listed_offset_witness :
  reminders_for "email" Sample.event_A
    (calls (@_check_deadlines Sample.faultless Sample.latin Sample.environ Sample.today Sample.db
              [7; 3; 7] (@initial Sample.faultless tt)).1)
  = 2%nat.
Proof.
  apply (reminders_once_per_listed_offset (H := Sample.faultless) tt Sample.environ
           Sample.today Sample.db [7; 3; 7]
           [("discord", Discord Sample.discord); ("email", Email Sample.email)]
           Sample.event_A 7 "email" (Email Sample.email)).
  - reflexivity.
  - exact sample_keys.
  - by left.
  - repeat constructor.
  - reflexivity.
  - right. by left.
Defined.



(** The SMTP port is parsed while the notifiers are built.  With all four
    mail credentials set and a port that is not a number, [_get_notifiers]
    raises [ValueError], and so do both ticks, before anything is delivered:
    a configured webhook gets nothing either. *)
Theorem bad_smtp_port_stops_both_ticks {U : Py.Unicode} `{Transport} (environ : environment)
    today db reminder_days (s : State) :
  Py.truthy (environ !! "SMTP_SERVER") = true ->
  Py.truthy (environ !! "SMTP_USERNAME") = true ->
  Py.truthy (environ !! "SMTP_PASSWORD") = true ->
  Py.truthy (environ !! "EMAIL_TO") = true ->
  Py.int_of_string (default "587" (environ !! "SMTP_PORT")) = None ->
  let e := ValueError "invalid literal for int() with base 10" in
  _get_notifiers environ = Raise e
  /\ _check_deadlines environ today db reminder_days s = (s, Raise e)
  /\ _send_daily_digest environ today db reminder_days s = (s, Raise e).
Proof.
  intros H1 H2 H3 H4 Hport e.
  assert (Hget : _get_notifiers environ = Raise e)
    by (unfold _get_notifiers; by rewrite H1, H2, H3, H4, Hport).
  split; [done|].
  unfold _check_deadlines, _send_daily_digest, bind, lift. by rewrite Hget.
Qed.

Lemma bad_smtp_port_stops_both_ticks_witness :
  @_check_deadlines Sample.faultless Sample.latin (<["SMTP_PORT" := "smtp"]> Sample.environ)
    Sample.today Sample.db [7; 3; 1] (@initial Sample.faultless tt)
  = (@initial Sample.faultless tt,
     Raise (ValueError "invalid literal for int() with base 10")).
Proof.
  apply (bad_smtp_port_stops_both_ticks (H := Sample.faultless)
           (<["SMTP_PORT" := "smtp"]> Sample.environ)); reflexivity.
Defined.

(** With an empty list of reminder days and an active backend, the deadline
    check has nothing to do, and the digest raises [ValueError] on
    [max(reminder_days)] before it delivers anything. *)
Theorem no_reminder_day {U : Py.Unicode} `{Transport} (environ : environment) today db entry notifiers
    (s : State) :
  _get_notifiers environ = Ok (entry :: notifiers) ->
  _check_deadlines environ today db [] s = (s, Ok tt)
  /\ _send_daily_digest environ today db [] s
     = (s, Raise (ValueError "max() arg is an empty sequence")).
Proof.
  intros Hget. unfold _check_deadlines, _send_daily_digest, bind, lift.
  by rewrite Hget.
Qed.

Lemma no_reminder_day_witness :
  @_send_daily_digest Sample.faultless Sample.environ Sample.today Sample.db []
    (@initial Sample.faultless tt)
  = (@initial Sample.faultless tt, Raise (ValueError "max() arg is an empty sequence")).
Proof.
  apply (no_reminder_day (H := Sample.faultless) Sample.environ Sample.today Sample.db
           ("discord", Discord Sample.discord) [("email", Email Sample.email)]).
  reflexivity.
Defined.

Lemma split_not_nil (sep : ascii) (s : string) : Py.split sep s <> [].
Proof.
  induction s as [|c s IH]; cbn [Py.split]; [done|].
  destruct (Ascii.eqb c sep); [done|]. by destruct (Py.split sep s).
Qed.

Lemma rmap_Forall2 {A B} (f : A -> result B) (l : list A) (ys : list B) :
  rmap f l = Ok ys <-> Forall2 (fun x y => f x = Ok y) l ys.
Proof.
  revert ys. induction l as [|x l IH]; intros ys; cbn [rmap].
  - split; [intros [= <-]; constructor | by inversion 1].
  - split.
    + destruct (f x) as [y|e] eqn:Hx; cbn [rbind]; [|discriminate].
      destruct (rmap f l) as [ys'|e] eqn:Hl; cbn [rbind]; [|discriminate].
      intros [= <-]. constructor; [done | by apply IH].
    + inversion 1 as [|? y ? ys' Hx Hl]; subst. rewrite Hx. cbn [rbind].
      apply IH in Hl. by rewrite Hl.
Qed.

(** What [init_scheduler] reads: the digest hour and, piece by piece between
    the commas, the reminder days, each an integer with white space allowed
    around it.  The list it gets is never empty, so [max(reminder_days)] in
    the digest is defined; a piece that is not an integer (a trailing comma
    leaves an empty one) makes the start-up raise [ValueError]. *)
Theorem read_config_days (environ : environment) :
  let pieces := Py.split "," (default "7,3,1" (environ !! "REMINDER_DAYS_BEFORE")) in
  (forall cfg,
      read_config environ = Ok cfg <->
      Py.int_of_string (default "9" (environ !! "DAILY_DIGEST_HOUR"))
        = Some (digest_hour cfg)
      /\ Forall2 (fun piece d => Py.int_of_string (Py.strip piece) = Some d)
           pieces (reminder_days cfg))
  /\ (forall cfg,
         read_config environ = Ok cfg ->
         reminder_days cfg <> [] /\ exists longest, py_max (reminder_days cfg) = Ok longest)
  /\ (Exists (fun piece => Py.int_of_string (Py.strip piece) = None) pieces ->
      exists e, read_config environ = Raise e).
Proof.
  intros pieces.
  assert (Hiff : forall cfg,
      read_config environ = Ok cfg <->
      Py.int_of_string (default "9" (environ !! "DAILY_DIGEST_HOUR"))
        = Some (digest_hour cfg)
      /\ Forall2 (fun piece d => Py.int_of_string (Py.strip piece) = Some d)
           pieces (reminder_days cfg)).
  { intros [hour days]. unfold read_config, parse_int at 1. fold pieces.
    cbn [digest_hour reminder_days].
    destruct (Py.int_of_string (default "9" (environ !! "DAILY_DIGEST_HOUR")))
      as [h|]; cbn [rbind]; [|split; [discriminate | by intros [? _]]].
    destruct (rmap (fun d => parse_int (Py.strip d)) pieces) as [ds|e] eqn:Hds;
      cbn [rbind].
    - apply rmap_Forall2 in Hds. split.
      + intros [= <- <-]. split; [done|].
        eapply Forall2_impl; [exact Hds|]. intros piece d. unfold parse_int.
        by destruct (Py.int_of_string (Py.strip piece)); intros [= <-].
      + intros [[= <-] Hdays]. f_equal. f_equal.
        revert Hds Hdays. generalize pieces. clear.
        induction ds as [|d ds IH] in days |- *; intros ps; inversion 1; subst;
          inversion 1; subst; [done|].
        unfold parse_int in *. destruct (Py.int_of_string _); simplify_eq.
        f_equal. by eapply IH.
    - split; [discriminate|]. intros [_ Hdays]. exfalso.
      assert (rmap (fun d => parse_int (Py.strip d)) pieces = Ok days) as Hok.
      { apply rmap_Forall2. eapply Forall2_impl; [exact Hdays|].
        intros piece d Hp. unfold parse_int. by rewrite Hp. }
      congruence. }
  split; [exact Hiff|]. split.
  - intros cfg [_ Hdays]%Hiff.
    assert (reminder_days cfg <> []) as Hne.
    { intros Hnil. rewrite Hnil in Hdays. inversion Hdays as [Hp|].
      by apply (split_not_nil "," (default "7,3,1" (environ !! "REMINDER_DAYS_BEFORE"))). }
    split; [done|]. destruct (reminder_days cfg); [done|]. cbn. eauto.
  - intros Hbad. destruct (read_config environ) as [cfg|e] eqn:Hcfg; [|eauto].
    exfalso. destruct (proj1 (Hiff cfg) eq_refl) as [_ Hdays].
    clear Hiff Hcfg. induction Hdays as [|piece d ps ds Hp _ IH].
    + inversion Hbad.
    + inversion Hbad as [? ? Hnone|]; subst; [congruence | by apply IH].
Qed.

Lemma read_config_days_witness :
  exists e, read_config (<["REMINDER_DAYS_BEFORE" := "7,3,"]> ∅) = Raise e.
Proof.
  destruct (read_config_days (<["REMINDER_DAYS_BEFORE" := "7,3,"]> ∅)) as (_ & _ & Hbad).
  apply Hbad. apply Exists_cons_tl, Exists_cons_tl, Exists_cons_hd. reflexivity.
Defined.

(** What [int] takes for an integer: white space of Unicode around it, digits
    of any script, single underscores between digits; not the separators
    FS..US (which [strip] cuts but [int] does not), not a superscript. *)
Example int_literals :
  Py.int_of_string "  -1_0 " = Some (-10)
  /\ Py.int_of_string "٣१" = Some 31
  /\ Py.int_of_string (String "028"%char "9") = None
  /\ Py.int_of_string (Py.strip (String "028"%char "9")) = Some 9
  /\ Py.int_of_string "²" = None
  /\ Py.int_of_string "1__0" = None
  /\ Py.int_of_string "" = None
  /\ read_config (<["REMINDER_DAYS_BEFORE" := "14 , 7"]> ∅)
     = Ok {| digest_hour := 9; reminder_days := [14; 7] |}.
Proof. vm_compute. repeat split. Qed.

Lemma Sorted_weaken {A} (R R' : A -> A -> Prop) (l : list A) :
  (forall x y, R x y -> R' x y) -> Sorted R l -> Sorted R' l.
Proof.
  intros Himpl. induction 1 as [|x l Hl IH Hhd]; constructor; [done|].
  destruct Hhd; constructor. by apply Himpl.
Qed.

#[global] Instance due_before_trans : Transitive due_before.
Proof.
  intros a b c. unfold due_before, due_compare.
  destruct (Todo.due_date a) as [x|], (Todo.due_date b) as [y|],
    (Todo.due_date c) as [z|]; try done.
  rewrite !Z.compare_gt_iff. lia.
Qed.

(** The todo list of the digest: every active backend is handed the same
    list, the todos that are pending or in progress (each as often as it is
    in the table), with due dates ascending and the undated ones last. *)
Theorem digest_todo_list `{Transport} (w : World)
    environ today db reminder_days notifiers longest :
  _get_notifiers environ = Ok notifiers ->
  py_max reminder_days = Ok longest ->
  Py.valid_date (today + (longest + 7)) = true ->
  let final := (_send_daily_digest environ today db reminder_days (initial w)).1 in
  exists upcoming pending_todos,
    calls final =
      map (fun entry : string * Notifier => (entry.1, Digest upcoming pending_todos))
        notifiers
    /\ pending_todos ≡ₚ List.filter is_pending (todos db)
    /\ (forall t,
          In t pending_todos <->
          In t (todos db)
          /\ (Todo.status t = Some "pending" \/ Todo.status t = Some "in_progress"))
    /\ StronglySorted due_before pending_todos.
Proof.
  intros Hget Hmax Hvalid final.
  exists (upcoming_query today (today + (longest + 7)) (events db)),
         (pending_todos_query (todos db)).
  split; [|split; [|split]].
  - destruct (achieves_initial _ _ w
                (send_daily_digest_achieves environ today db reminder_days))
      as (Hcalls & _).
    fold final in Hcalls. rewrite Hcalls. unfold digest_outcome.
    rewrite Hget, Hmax. cbn [rbind]. unfold date_add. rewrite Hvalid.
    by destruct notifiers.
  - apply merge_sort_Permutation.
  - apply pending_todos_query_In.
  - apply Sorted_StronglySorted; [apply _|].
    apply (Sorted_weaken by_due_then_priority); [|apply pending_todos_query_sorted].
    intros a b. unfold by_due_then_priority, due_before.
    by destruct (due_compare (Todo.due_date a) (Todo.due_date b)).
Qed.

Lemma digest_todo_list_witness :
  let final :=
    (@_send_daily_digest Sample.faultless Sample.environ Sample.today Sample.db
       [7; 3; 1] (@initial Sample.faultless tt)).1 in
  exists upcoming pending_todos,
    calls final = [("discord", Digest upcoming pending_todos);
                   ("email", Digest upcoming pending_todos)]
    /\ pending_todos ≡ₚ [Sample.todo_medium; Sample.todo_low; Sample.todo_high].
Proof.
  intros final.
  destruct (digest_todo_list (H := Sample.faultless) tt Sample.environ Sample.today
              Sample.db [7; 3; 1]
              [("discord", Discord Sample.discord); ("email", Email Sample.email)] 7
              eq_refl eq_refl eq_refl)
    as (upcoming & pending & Hcalls & Hperm & _).
  exists upcoming, pending. split; [exact Hcalls | exact Hperm].
Defined.

(** Which backends are active: the webhook exactly when its URL is set, the
    mail exactly when server, user, password and recipient are all set; each
    at most once, the webhook first, and with the credentials of the
    environment. *)
Theorem get_notifiers_active (environ : environment) notifiers :
  _get_notifiers environ = Ok notifiers ->
  ((exists n, In ("discord", n) notifiers) <->
   Py.truthy (environ !! "DISCORD_WEBHOOK_URL") = true)
  /\ ((exists n, In ("email", n) notifiers) <->
      Py.truthy (environ !! "SMTP_SERVER") = true
      /\ Py.truthy (environ !! "SMTP_USERNAME") = true
      /\ Py.truthy (environ !! "SMTP_PASSWORD") = true
      /\ Py.truthy (environ !! "EMAIL_TO") = true)
  /\ List.NoDup (map fst notifiers)
  /\ (forall kind n, In (kind, n) notifiers ->
        match n with
        | Discord d =>
            kind = "discord"
            /\ environ !! "DISCORD_WEBHOOK_URL" = Some (DiscordNotifier.webhook_url d)
        | Email m =>
            kind = "email"
            /\ environ !! "SMTP_SERVER" = Some (EmailNotifier.smtp_server m)
            /\ environ !! "SMTP_USERNAME" = Some (EmailNotifier.username m)
            /\ environ !! "SMTP_PASSWORD" = Some (EmailNotifier.password m)
            /\ environ !! "EMAIL_TO" = Some (EmailNotifier.to_email m)
            /\ Py.int_of_string (default "587" (environ !! "SMTP_PORT"))
               = Some (EmailNotifier.smtp_port m)
        end).
Proof.
  unfold _get_notifiers.
  destruct (environ !! "DISCORD_WEBHOOK_URL") as [url|] eqn:Hurl;
    destruct (environ !! "SMTP_SERVER") as [server|] eqn:H1;
    destruct (environ !! "SMTP_USERNAME") as [user|] eqn:H2;
    destruct (environ !! "SMTP_PASSWORD") as [pass|] eqn:H3;
    destruct (environ !! "EMAIL_TO") as [to|] eqn:H4;
    cbn [Py.truthy Py.or_empty];
    repeat match goal with
           | |- context [String.eqb ?x ""] => destruct (String.eqb x "") eqn:?
           end;
    cbn [negb andb];
    try destruct (Py.int_of_string _) as [port|] eqn:Hport; try discriminate;
    intros [= <-]; cbn [In app map fst];
    (split; [|split; [|split]]);
    try (split; [intros [? Hin]; intuition; simplify_eq | intros; intuition; try discriminate]);
    try (repeat constructor; cbn; intuition; discriminate);
    try (intros kind n Hin; intuition; simplify_eq; done);
    eauto.
Qed.

Lemma get_notifiers_active_witness :
  List.NoDup
    (map fst [("discord", Discord Sample.discord); ("email", Email Sample.email)]).
Proof.
  exact (proj1 (proj2 (proj2
    (get_notifiers_active Sample.environ
       [("discord", Discord Sample.discord); ("email", Email Sample.email)] eq_refl)))).
Defined.

(* ================================================================== *)
(** ** Further properties of the notifiers *)
(* ================================================================== *)

(** A reminder for an event with no deadline raises [TypeError] on the
    comparison of the days left, in either backend, before anything is put
    on the wire. *)
Theorem reminder_needs_deadline {U : Py.Unicode} `{Transport} (notifier : Notifier) (today : Py.date)
    (event : Event.t) (s : State) :
  Event.submission_deadline event = None ->
  send_deadline_reminder notifier today event s = (s, Raise none_le_int).
Proof.
  intros Hd. destruct notifier as [n|n]; cbn [send_deadline_reminder];
    unfold DiscordNotifier.send_deadline_reminder, DiscordNotifier.reminder_embed,
      EmailNotifier.send_deadline_reminder, EmailNotifier.reminder_html,
      Event.days_until_deadline, bind, lift;
    by rewrite Hd.
Qed.

Lemma reminder_needs_deadline_witness :
  @send_deadline_reminder Sample.faultless Sample.latin (Email Sample.email) Sample.today
    Sample.event_C (@initial Sample.faultless tt)
  = (@initial Sample.faultless tt, Raise none_le_int).
Proof.
  apply (reminder_needs_deadline (H := Sample.faultless)). reflexivity.
Defined.

Lemma slice_to_nil {A} (n : nat) (l l' : list A) :
  Py.slice_to (S n) l = Py.slice_to (S n) l' ->
  (l = [] /\ l' = []) \/ (exists x t x' t', l = x :: t /\ l' = x' :: t').
Proof. destruct l, l'; cbn; intros; simplify_eq; [by left | right; eauto 10]. Qed.

(** The digest shows the first ten events on Discord and the first fifteen
    in the mail, and the first ten todos in both, with the number of all
    pending todos: two inputs that agree on these give the same digest,
    whatever comes further down the lists. *)
Theorem digest_caps (today : Py.date) (upcoming upcoming' : list Event.t)
    (pending_todos pending_todos' : list Todo.t) :
  Py.slice_to 10 pending_todos = Py.slice_to 10 pending_todos' ->
  length pending_todos = length pending_todos' ->
  (Py.slice_to 10 upcoming = Py.slice_to 10 upcoming' ->
   DiscordNotifier.digest_embeds today upcoming pending_todos
   = DiscordNotifier.digest_embeds today upcoming' pending_todos')
  /\ (Py.slice_to 15 upcoming = Py.slice_to 15 upcoming' ->
      EmailNotifier.digest_html today upcoming pending_todos
      = EmailNotifier.digest_html today upcoming' pending_todos').
Proof.
  intros Htodos Hlen. split; intros Hevents.
  - unfold DiscordNotifier.digest_embeds. rewrite <- Htodos, <- Hlen.
    destruct (slice_to_nil _ _ _ Hevents)
      as [[-> ->]|(e & l & e' & l' & -> & ->)];
      destruct (slice_to_nil _ _ _ Htodos)
        as [[-> ->]|(t & ts & t' & ts' & -> & ->)];
      rewrite <- ?Hevents; reflexivity.
  - unfold EmailNotifier.digest_html. by rewrite <- Hevents, <- Htodos, <- Hlen.
Qed.

Lemma digest_caps_witness :
  DiscordNotifier.digest_embeds Sample.today
    (repeat Sample.event_A 10 ++ [Sample.event_C]) [Sample.todo_low]
  = DiscordNotifier.digest_embeds Sample.today
      (repeat Sample.event_A 10 ++ [Sample.event_B; Sample.event_B]) [Sample.todo_low].
Proof.
  apply (digest_caps Sample.today (repeat Sample.event_A 10 ++ [Sample.event_C])
           (repeat Sample.event_A 10 ++ [Sample.event_B; Sample.event_B])
           [Sample.todo_low] [Sample.todo_low]); reflexivity.
Defined.

(** The mail digest is never skipped: whenever the events it is given have
    their deadline set, and also when there is no event and no todo at all,
    [send_daily_digest] opens exactly one SMTP session; with nothing to
    report the mail holds both "none" lines. *)
Theorem email_digest_always_sent `{Transport} (n : EmailNotifier.t) (today : Py.date)
    (upcoming : list Event.t) (pending_todos : list Todo.t) :
  (forall e, In e upcoming -> Event.submission_deadline e <> None) ->
  (exists q, digest_request (Email n) today upcoming pending_todos = Ok (Some q)
             /\ attempts (send_daily_digest (Email n) today upcoming pending_todos) [] [q])
  /\ (exists q, digest_request (Email n) today [] [] = Ok (Some q)
                /\ says "<p>No upcoming deadlines.</p>" q = true
                /\ says "<p>No pending tasks.</p>" q = true).
Proof.
  intros Hset. split.
  - destruct (email_digest_ok today upcoming pending_todos Hset) as [html Hhtml].
    pose proof (send_daily_digest_attempts (Email n) today upcoming pending_todos) as Ha.
    cbn [digest_request] in *. rewrite Hhtml in *. cbn [rbind wire_opt] in *. eauto.
  - destruct (email_digest_ok today [] []) as [html Hhtml]; [by intros e []|].
    cbn [digest_request]. rewrite Hhtml. cbn [rbind]. eexists. split; [done|].
    unfold says, request_text, Py.lines.
    split; eapply contains_concat; try (right; left; reflexivity).
    + by apply (email_digest_no_deadlines today []).
    + by apply (email_digest_no_tasks today []).
Qed.

Lemma email_digest_always_sent_witness :
  exists q,
    digest_request (Email Sample.email) Sample.today [Sample.event_B; Sample.event_A]
      [Sample.todo_low] = Ok (Some q).
Proof.
  destruct (email_digest_always_sent (H := Sample.faultless) Sample.email Sample.today
              [Sample.event_B; Sample.event_A] [Sample.todo_low]) as [(q & Hq & _) _].
  - intros e [<-|[<-|[]]]; discriminate.
  - by exists q.
Defined.

(* ================================================================== *)
(** ** Further properties of the vault export *)
(* ================================================================== *)

Lemma classic_in (path : string) (ws : list (string * string)) :
  In path (map fst ws) \/ ~ In path (map fst ws).
Proof. destruct (in_dec string_dec path (map fst ws)); auto. Qed.

Lemma last_write_None path ws :
  last_write path ws = None <-> ~ In path (map fst ws).
Proof.
  induction ws as [|[p c] ws IH]; cbn [last_write map fst In]; [tauto|].
  destruct (last_write path ws) as [c'|].
  - split; [discriminate|]. intros Hnot. exfalso. apply Hnot. right.
    destruct (classic_in path ws) as [Hin|Hout]; [done|].
    by apply IH in Hout.
  - destruct (String.eqb_spec p path) as [->|Hne].
    + split; [discriminate|]. intros Hnot. exfalso. apply Hnot. by left.
    + split; [|done]. intros _ [Heq|Hin]; [done|]. by apply (proj1 IH).
Qed.

Lemma last_write_last path c ws1 ws2 :
  ~ In path (map fst ws2) -> last_write path (ws1 ++ (path, c) :: ws2) = Some c.
Proof.
  intros Hout%last_write_None.
  induction ws1 as [|[p c'] ws1 IH]; cbn [app last_write].
  - by rewrite Hout, String.eqb_refl.
  - by rewrite IH.
Qed.

(** What an export leaves in the vault.  A file that no entity is written to
    keeps what it held; a file that is written holds what the last write to it
    put there, in the order events, researchers, daily logs, index: of two
    entities filed under the same path only the later one is in the vault. *)
Theorem export_all_files {U : Py.Unicode} `{PyFloat} (self : ObsidianExport.t) (events : list Event.t)
    (researchers : list Researcher.t) (daily_logs : list DailyLog.t)
    (fs : gmap string string) :
  let writes := export_writes self events researchers daily_logs in
  let vault := ObsidianExport.export_all self events researchers daily_logs fs in
  (forall path, ~ In path (map fst writes) -> vault !! path = fs !! path)
  /\ (forall path content before after,
         writes = (before ++ (path, content) :: after)%list ->
         ~ In path (map fst after) ->
         vault !! path = Some content)
  /\ (forall path, In path (map fst writes) ->
         exists content, In (path, content) writes /\ vault !! path = Some content).
Proof.
  intros writes vault. subst vault. rewrite export_all_writes. fold writes.
  split; [|split].
  - intros path Hout. rewrite lookup_write_all.
    by apply last_write_None in Hout as ->.
  - intros path content before after -> Hout.
    by rewrite lookup_write_all, last_write_last.
  - intros path Hin. rewrite lookup_write_all.
    generalize writes Hin. clear. intros ws.
    induction ws as [|[p c] ws IH]; cbn [map fst In last_write]; [done|].
    intros Hin. destruct (last_write path ws) as [c'|] eqn:Hlast.
    + destruct (classic_in path ws) as [Hin'|Hout%last_write_None]; [|congruence].
      destruct (IH Hin') as (content & Hc & [= ->]). exists content. auto.
    + destruct Hin as [->|Hin]; [|by apply last_write_None in Hlast].
      rewrite String.eqb_refl. exists c. auto.
Qed.

(** Two events of one category whose titles differ only in characters the
    file name drops share a file; the export keeps the later event. *)
Lemma export_all_files_witness :
  let first := Sample.event 1 "Crypto: 2024" None None None in
  let second := Sample.event 2 "Crypto 2024!" None None None in
  let self := ObsidianExport.init "/vault" in
  ObsidianExport.event_filepath self first = ObsidianExport.event_filepath self second
  /\ @ObsidianExport.export_all Sample.latin Sample.whole_hours self [first; second] [] [] ∅
     !! "/vault/PPML-FHE-Dashboard/Events/Conferences/Crypto 2024.md"
     = Some (ObsidianExport.event_content second).
Proof.
  intros first second self. split; [reflexivity|].
  apply (proj1 (proj2 (@export_all_files Sample.latin Sample.whole_hours self [first; second] [] [] ∅))
           _ _ [(ObsidianExport.event_filepath self first,
                  ObsidianExport.event_content first)]
           [(Py.path_join (ObsidianExport.base_dir self) ["Index.md"],
             ObsidianExport.index_content [first; second])]).
  - reflexivity.
  - cbn. intros [Heq|[]]. vm_compute in Heq. discriminate.
Defined.

Lemma all_chars_weaken (test test' : ascii -> bool) (s : string) :
  (forall c, test c = true -> test' c = true) ->
  all_chars test s = true -> all_chars test' s = true.
Proof.
  intros Himpl. induction s as [|c s IH]; [done|]. cbn [all_chars].
  intros [Hc Hs]%andb_true_iff. by rewrite (Himpl c Hc), IH.
Qed.

Lemma between_not_slash (lo hi : Z) (c : ascii) :
  48 <= lo -> Py.between lo hi c = true -> not_slash c = true.
Proof.
  intros Hlo Hc. unfold not_slash. destruct (Ascii.eqb_spec c "/") as [->|]; [|done].
  unfold Py.between in Hc. change (Py.code "/") with 47 in Hc. lia.
Qed.

Ltac not_slash_by H := eapply between_not_slash; [|exact H]; lia.

(** No byte of a character outside ASCII is a slash. *)
Lemma wide_not_slash (ch : string) :
  Py.is_wide ch = true -> all_chars not_slash ch = true.
Proof.
  unfold Py.is_wide, Py.ord.
  destruct ch as [|a [|b [|c [|d [|e t]]]]]; try discriminate.
  - destruct (Py.is_ascii a) eqn:Ha; [|discriminate].
    unfold Py.is_ascii in Ha. lia.
  - destruct (Py.between 194 223 a) eqn:Ha; [|discriminate].
    destruct (Py.is_continuation b) eqn:Hb; [|discriminate]. intros _.
    cbn [all_chars]. repeat (apply andb_true_iff; split); try done;
      [not_slash_by Ha | not_slash_by Hb].
  - destruct (Py.between 224 239 a) eqn:Ha; [|discriminate].
    destruct (Py.is_continuation b) eqn:Hb; [|discriminate].
    destruct (Py.is_continuation c) eqn:Hc; [|discriminate]. intros _.
    cbn [all_chars]. repeat (apply andb_true_iff; split); try done;
      [not_slash_by Ha | not_slash_by Hb | not_slash_by Hc].
  - destruct (Py.between 240 244 a) eqn:Ha; [|discriminate].
    destruct (Py.is_continuation b) eqn:Hb; [|discriminate].
    destruct (Py.is_continuation c) eqn:Hc; [|discriminate].
    destruct (Py.is_continuation d) eqn:Hd; [|discriminate]. intros _.
    cbn [all_chars]. repeat (apply andb_true_iff; split); try done;
      [not_slash_by Ha | not_slash_by Hb | not_slash_by Hc | not_slash_by Hd].
Qed.

Lemma ascii_of_Some (ch : string) (c : ascii) :
  Py.ascii_of ch = Some c -> ch = String c "".
Proof.
  destruct ch as [|a [|b t]]; try discriminate. cbn [Py.ascii_of].
  destruct (Py.is_ascii a); [|discriminate]. by intros [= ->].
Qed.

Lemma isalnum_not_slash (c : ascii) : Py.isalnum c = true -> not_slash c = true.
Proof.
  unfold Py.isalnum, Py.isalpha, Py.isupper, Py.islower, Py.isdigit.
  intros [[H1|H1]%orb_true_iff|H1]%orb_true_iff; not_slash_by H1.
Qed.

(** No byte of a character the file name keeps is a slash. *)
Lemma keep_char_not_slash {U : Py.Unicode} (ch : string) :
  keep_char ch = true -> all_chars not_slash ch = true.
Proof.
  unfold keep_char, Py.isalnum_char.
  intros [[[Halnum|Heq]%orb_true_iff|Heq]%orb_true_iff|Heq]%orb_true_iff;
    try (apply String.eqb_eq in Heq as ->; reflexivity).
  destruct (Py.ascii_of ch) as [c|] eqn:Hc.
  - apply ascii_of_Some in Hc as ->. cbn [all_chars].
    by rewrite (isalnum_not_slash c Halnum).
  - apply andb_true_iff in Halnum as [Hwide _]. by apply wide_not_slash.
Qed.

Lemma all_chars_text (test : ascii -> bool) (l : list string) :
  Forall (fun ch => all_chars test ch = true) l -> all_chars test (Py.text l) = true.
Proof.
  induction 1 as [|ch l Hch _ IH]; [done|]. cbn [Py.text].
  by rewrite all_chars_app, Hch, IH.
Qed.

Lemma safe_title_not_slash {U : Py.Unicode} (title : string) :
  all_chars not_slash (ObsidianExport.safe_title title) = true.
Proof.
  destruct (safe_title_chars title) as (la & lb & _ & _ & _ & _ & Hkeep).
  rewrite <- (text_chars (ObsidianExport.safe_title title)).
  apply all_chars_text, List.Forall_forall. intros ch Hch.
  apply keep_char_not_slash. rewrite forallb_forall in Hkeep. by apply Hkeep.
Qed.

Lemma replace_slash_chars (s : string) :
  all_chars not_slash (Py.replace_char "/" "-" s) = true.
Proof.
  induction s as [|c s IH]; [done|]. cbn [Py.replace_char all_chars].
  rewrite IH, andb_true_r. unfold not_slash.
  destruct (Ascii.eqb c "/") eqn:Hc; [reflexivity | by rewrite Hc].
Qed.

Lemma get_app_last (x y : string) :
  y <> "" ->
  String.get (String.length (x +:+ y) - 1) (x +:+ y)
  = String.get (String.length y - 1) y.
Proof.
  intros Hy. induction x as [|c x IH]; [done|].
  change (String c x +:+ y) with (String c (x +:+ y)). cbn [String.length].
  rewrite Nat.sub_1_r. cbn [Nat.pred].
  destruct (String.length (x +:+ y)) as [|n] eqn:Hlen.
  - exfalso. destruct x; simpl in Hlen; [destruct y; [done | discriminate] | discriminate].
  - cbn [String.get]. rewrite <- IH, ?Hlen. f_equal. lia.
Qed.

Lemma ends_with_slash_app (x y : string) :
  y <> "" -> Py.ends_with_slash (x +:+ y) = Py.ends_with_slash y.
Proof. intros Hy. unfold Py.ends_with_slash. by rewrite get_app_last. Qed.

Lemma eqb_app_empty (x y : string) : y <> "" -> String.eqb (x +:+ y) "" = false.
Proof. intros Hy. apply String.eqb_neq. destruct x; simpl; [done | discriminate]. Qed.

(** Joining onto a directory whose name ends in a plain character. *)
Lemma join2_plain (x y b : string) :
  y <> "" -> Py.ends_with_slash y = false -> String.prefix "/" b = false ->
  Py.join2 (x +:+ y) b = (x +:+ y) +:+ "/" +:+ b.
Proof.
  intros Hy Hslash Hb. unfold Py.join2.
  by rewrite Hb, eqb_app_empty, ends_with_slash_app, Hslash.
Qed.

Lemma prefix_slash (s : string) :
  String.prefix "/" s
  = match s with String c _ => Ascii.eqb c "/" | EmptyString => false end.
Proof.
  destruct s as [|c s]; [reflexivity|].
  change (String.prefix "/" (String c s))
    with (if ascii_dec "/" c then String.prefix "" s else false).
  destruct (ascii_dec "/" c) as [<-|Hne].
  - by destruct s.
  - symmetry. apply Ascii.eqb_neq. congruence.
Qed.

Lemma prefix_slash_chars (s t : string) :
  all_chars not_slash s = true -> String.prefix "/" t = false ->
  String.prefix "/" (s +:+ t) = false.
Proof.
  destruct s as [|c s]; [done|]. cbn [all_chars]. intros [Hc _]%andb_true_iff _.
  change (String c s +:+ t) with (String c (s +:+ t)). rewrite prefix_slash.
  unfold not_slash in Hc. by destruct (Ascii.eqb c "/").
Qed.

Lemma app_assoc_string (a b c : string) : (a +:+ b) +:+ c = a +:+ b +:+ c.
Proof.
  induction a as [|x a IH]; [done|].
  change (String x ((a +:+ b) +:+ c) = String x (a +:+ b +:+ c)). by f_equal.
Qed.

Lemma upper_not_slash (c : ascii) : Ascii.eqb (Py.upper c) "/" = Ascii.eqb c "/".
Proof. destruct c as [[] [] [] [] [] [] [] []]; reflexivity. Qed.

(** The title-case mapping of a character begins with a slash only when the
    character does. *)
Lemma title_char_prefix_slash {U : Py.Unicode} (c : ascii) (t rest : string) :
  String.prefix "/" (Py.title_char (String c t) +:+ rest) = Ascii.eqb c "/".
Proof.
  unfold Py.title_char. destruct (Py.ascii_of (String c t)) as [c'|] eqn:Hc.
  - apply ascii_of_Some in Hc as [= <- ->].
    by rewrite append_cons, prefix_slash, upper_not_slash.
  - destruct (Py.is_wide (String c t)) eqn:Hwide.
    + destruct (Py.wide_title_head _ Hwide) as (c' & t' & -> & Hc').
      rewrite append_cons, prefix_slash.
      apply wide_not_slash in Hwide. cbn [all_chars] in Hwide.
      apply andb_true_iff in Hwide as [Hnot _]. unfold not_slash in Hnot.
      destruct (Ascii.eqb c "/"); [done|]. by apply Ascii.eqb_neq.
    + by rewrite append_cons, prefix_slash.
Qed.

(** [title] keeps a leading slash and adds none. *)
Lemma title_prefix_slash {U : Py.Unicode} (s t : string) :
  String.prefix "/" (Py.title s +:+ t)
  = match s with EmptyString => String.prefix "/" t | _ => String.prefix "/" s end.
Proof.
  destruct s as [|c s]; [done|]. unfold Py.title.
  destruct (chars_head c s) as (t' & l & ->). cbn [Py.title_from Py.text].
  by rewrite append_assoc, title_char_prefix_slash, prefix_slash.
Qed.

(** Where the files go.  File names hold no slash, so a title or a name adds
    no directory of its own.  An exporter built by [ObsidianExport(vault)]
    files an event under [<vault>/PPML-FHE-Dashboard/Events/<Category>s/] and
    a researcher under [.../Researchers/], with one exception: [os.path.join]
    starts afresh at a component that begins with a slash, so the file of an
    event whose category begins with a slash is written under that category
    alone, outside the vault. *)
Theorem export_paths {U : Py.Unicode} (vault_path : string) (event : Event.t) (researcher : Researcher.t) :
  let self := ObsidianExport.init vault_path in
  let file := ObsidianExport.safe_title (Event.title event) +:+ ".md" in
  let folder := Py.title (Event.category event) +:+ "s" in
  all_chars not_slash file = true
  /\ all_chars not_slash (ObsidianExport.researcher_filename researcher) = true
  /\ ObsidianExport.researcher_filepath self researcher
     = ObsidianExport.base_dir self +:+ "/Researchers/"
       +:+ ObsidianExport.researcher_filename researcher
  /\ (String.prefix "/" (Event.category event) = false ->
      ObsidianExport.event_filepath self event
      = ObsidianExport.base_dir self +:+ "/Events/" +:+ folder +:+ "/" +:+ file)
  /\ (String.prefix "/" (Event.category event) = true ->
      ObsidianExport.event_filepath self event = folder +:+ "/" +:+ file).
Proof.
  intros self file folder.
  assert (Hfile : all_chars not_slash file = true).
  { unfold file. rewrite all_chars_app. apply andb_true_iff. split; [|done].
    apply safe_title_not_slash. }
  assert (Hname : all_chars not_slash (ObsidianExport.researcher_filename researcher) = true).
  { unfold ObsidianExport.researcher_filename. rewrite all_chars_app.
    apply andb_true_iff. split; [apply replace_slash_chars | done]. }
  assert (Hfile0 : String.prefix "/" file = false).
  { unfold file. apply prefix_slash_chars; [|done]. apply safe_title_not_slash. }
  assert (Hname0 : String.prefix "/" (ObsidianExport.researcher_filename researcher) = false).
  { unfold ObsidianExport.researcher_filename.
    apply prefix_slash_chars; [apply replace_slash_chars | done]. }
  assert (exists x, ObsidianExport.base_dir self = x +:+ "PPML-FHE-Dashboard")
    as [x Hx].
  { cbn [self ObsidianExport.init ObsidianExport.base_dir Py.path_join fold_left].
    unfold Py.join2. rewrite prefix_slash.
    destruct (String.eqb vault_path "" || Py.ends_with_slash vault_path).
    - by exists vault_path.
    - exists (vault_path +:+ "/"). by rewrite app_assoc_string. }
  assert (Hfolder : String.prefix "/" folder = String.prefix "/" (Event.category event)).
  { unfold folder. rewrite title_prefix_slash.
    by destruct (Event.category event). }
  split; [done|]. split; [done|]. split; [|split].
  - unfold ObsidianExport.researcher_filepath.
    cbn [Py.path_join fold_left]. rewrite Hx.
    rewrite (join2_plain x "PPML-FHE-Dashboard" "Researchers") by done.
    replace ((x +:+ "PPML-FHE-Dashboard") +:+ "/" +:+ "Researchers")
      with ((x +:+ "PPML-FHE-Dashboard/") +:+ "Researchers")
      by (by rewrite !app_assoc_string).
    rewrite (join2_plain _ "Researchers" _) by done.
    by rewrite !app_assoc_string.
  - intros Hcat. unfold ObsidianExport.event_filepath.
    cbn [Py.path_join fold_left]. rewrite Hx. fold folder file.
    rewrite Hcat in Hfolder.
    rewrite (join2_plain x "PPML-FHE-Dashboard" "Events") by done.
    replace ((x +:+ "PPML-FHE-Dashboard") +:+ "/" +:+ "Events")
      with ((x +:+ "PPML-FHE-Dashboard/") +:+ "Events")
      by (by rewrite !app_assoc_string).
    rewrite (join2_plain _ "Events" folder) by done.
    replace (((x +:+ "PPML-FHE-Dashboard/") +:+ "Events") +:+ "/" +:+ folder)
      with (((x +:+ "PPML-FHE-Dashboard/") +:+ "Events/"
             +:+ Py.title (Event.category event)) +:+ "s")
      by (unfold folder; by rewrite !app_assoc_string).
    rewrite (join2_plain _ "s" file) by done.
    unfold folder. by rewrite !app_assoc_string.
  - intros Hcat. unfold ObsidianExport.event_filepath.
    cbn [Py.path_join fold_left]. fold folder file.
    rewrite Hcat in Hfolder.
    unfold Py.join2 at 2. rewrite Hfolder.
    unfold folder at 1. by rewrite (join2_plain _ "s" file).
Qed.

Lemma export_paths_witness :
  ObsidianExport.event_filepath (ObsidianExport.init "/home/me/vault")
    (Sample.event_in "/etc")
  = "/Etcs/Notes.md".
Proof.
  destruct (export_paths "/home/me/vault" (Sample.event_in "/etc") (Sample.researcher "A"))
    as (_ & _ & _ & _ & Houtside).
  by rewrite Houtside.
Defined.

Lemma string_compare_trans (a b c : string) :
  String.compare a b <> Gt -> String.compare b c <> Gt -> String.compare a c <> Gt.
Proof.
  revert b c. induction a as [|x a IH]; intros [|y b] [|z c]; cbn [String.compare];
    try done.
  unfold Ascii.compare.
  destruct (N.compare_spec (N_of_ascii x) (N_of_ascii y)) as [Hxy|Hxy|Hxy];
    destruct (N.compare_spec (N_of_ascii y) (N_of_ascii z)) as [Hyz|Hyz|Hyz];
    destruct (N.compare_spec (N_of_ascii x) (N_of_ascii z)) as [Hxz|Hxz|Hxz];
    try done; try lia.
  apply IH.
Qed.

#[global] Instance str_le_trans : Transitive str_le.
Proof.
  intros a b c. unfold str_le, String.leb.
  pose proof (string_compare_trans a b c) as Htrans.
  destruct (String.compare a b), (String.compare b c), (String.compare a c);
    cbn; try done; intros; exfalso; by apply Htrans.
Qed.

#[global] Instance str_le_total : Total str_le.
Proof.
  intros a b. unfold str_le.
  destruct (String.leb_total a b) as [->| ->]; cbn; auto.
Qed.

#[global] Instance str_le_antisym : AntiSymm eq str_le.
Proof.
  intros a b Hab Hba. apply String.leb_antisym; by apply Is_true_true.
Qed.

Lemma sorted_set_spec (l : list string) :
  List.NoDup (sorted_set l)
  /\ StronglySorted str_le (sorted_set l)
  /\ forall x, In x (sorted_set l) <-> In x l.
Proof.
  unfold sorted_set. split; [|split].
  - apply NoDup_ListNoDup. rewrite merge_sort_Permutation. apply NoDup_remove_dups.
  - apply StronglySorted_merge_sort; apply _.
  - intros x. rewrite <- !list_elem_of_In, merge_sort_Permutation.
    apply elem_of_remove_dups.
Qed.

Lemma sorted_set_ext (l l' : list string) :
  (forall x, In x l <-> In x l') -> sorted_set l = sorted_set l'.
Proof.
  intros Hsame.
  destruct (sorted_set_spec l) as (Hnd & Hs & Hin).
  destruct (sorted_set_spec l') as (Hnd' & Hs' & Hin').
  apply (StronglySorted_unique str_le); [done | done |].
  apply NoDup_Permutation; [by apply NoDup_ListNoDup..|].
  intros x. rewrite !list_elem_of_In, Hin, Hin'. apply Hsame.
Qed.

(** The index of the vault names every category that has an event, once,
    in ascending order of the category names; how many events a category has
    and in which order the events come makes no difference to it. *)
Theorem index_lists_categories {U : Py.Unicode} (events : list Event.t) :
  (exists categories,
      ObsidianExport.index_content events
      = Py.join Py.nl
          ([ "# PPML/FHE Research Dashboard"; "";
             "## Quick Links";
             "- [[Events]]"; "- [[Researchers]]"; "- [[Daily Notes]]";
             ""; "## Event Categories" ]
           ++ map (fun cat => "- [[Events/" +:+ Py.title cat +:+ "s/]]") categories)
      /\ List.NoDup categories
      /\ StronglySorted str_le categories
      /\ forall cat, In cat categories <-> exists e, In e events /\ Event.category e = cat)
  /\ (forall events',
         (forall cat, (exists e, In e events /\ Event.category e = cat)
                      <-> (exists e, In e events' /\ Event.category e = cat)) ->
         ObsidianExport.index_content events = ObsidianExport.index_content events').
Proof.
  split.
  - exists (sorted_set (map Event.category events)).
    destruct (sorted_set_spec (map Event.category events)) as (Hnd & Hs & Hin).
    split; [done|]. split; [done|]. split; [done|].
    intros cat. rewrite Hin, in_map_iff. split; intros (e & H1 & H2); eauto.
  - intros events' Hsame. unfold ObsidianExport.index_content.
    rewrite (sorted_set_ext (map Event.category events) (map Event.category events'));
      [done|].
    intros cat. rewrite !in_map_iff.
    split; intros (e & H1 & H2).
    + destruct (proj1 (Hsame cat)) as (e' & ? & ?); eauto.
    + destruct (proj2 (Hsame cat)) as (e' & ? & ?); eauto.
Qed.

Lemma index_lists_categories_witness :
  ObsidianExport.index_content [Sample.event_A; Sample.event_B; Sample.event_A]
  = ObsidianExport.index_content [Sample.event_C].
Proof.
  destruct (index_lists_categories [Sample.event_A; Sample.event_B; Sample.event_A])
    as [_ Hsame].
  apply Hsame. intros cat. split; intros (e & He & <-).
  - exists Sample.event_C. split; [by left|].
    by destruct He as [<-|[<-|[<-|[]]]].
  - exists Sample.event_A. split; [by left|].
    by destruct He as [<-|[]].
Defined.

Example index_of_sample :
  ObsidianExport.index_content
    [Sample.event 1 "a" None None None;
     {| Event.id := 2; Event.title := "b"; Event.category := "workshop";
        Event.edition := None; Event.website := None; Event.association := None;
        Event.relevance_tags := None; Event.location := None; Event.city := None;
        Event.submission_deadline := None; Event.notification_date := None;
        Event.camera_ready_date := None; Event.event_start_date := None;
        Event.event_end_date := None; Event.description := None; Event.notes := None;
        Event.status := None; Event.pinned := None;
        Event.created_at := None; Event.updated_at := None |};
     Sample.event 3 "c" None None None]
  = Py.lines [ "# PPML/FHE Research Dashboard"; "";
               "## Quick Links";
               "- [[Events]]"; "- [[Researchers]]"; "- [[Daily Notes]]";
               ""; "## Event Categories";
               "- [[Events/Conferences/]]"; "- [[Events/Workshops/]]" ].
Proof. vm_compute. reflexivity. Qed.

(* ================================================================== *)
(** ** The settings table *)
(* ================================================================== *)

Lemma next_id_above (ids : list Z) (x : Z) : In x ids -> x < next_id ids.
Proof.
  unfold next_id. induction ids as [|y ids IH]; cbn [In fold_right]; [done|].
  intros [->|Hin]; [lia|]. specialize (IH Hin). lia.
Qed.

Lemma next_id_fresh (ids : list Z) : ~ In (next_id ids) ids.
Proof. intros Hin. apply next_id_above in Hin. lia. Qed.

Lemma first_by_key_map (k : string) (f : AppSetting.t -> AppSetting.t) table :
  (forall row, AppSetting.key (f row) = AppSetting.key row) ->
  AppSetting.first_by_key k (map f table)
  = option_map f (AppSetting.first_by_key k table).
Proof.
  intros Hkey. unfold AppSetting.first_by_key.
  induction table as [|row table IH]; cbn [map find option_map]; [done|].
  rewrite Hkey. by destruct (String.eqb (AppSetting.key row) k).
Qed.

Lemma first_by_key_app (k : string) (t1 t2 : list AppSetting.t) :
  AppSetting.first_by_key k (t1 ++ t2)
  = match AppSetting.first_by_key k t1 with
    | Some row => Some row
    | None => AppSetting.first_by_key k t2
    end.
Proof.
  unfold AppSetting.first_by_key.
  induction t1 as [|row t1 IH]; cbn [app find]; [done|].
  by destruct (String.eqb (AppSetting.key row) k).
Qed.

Lemma first_by_key_Some (k : string) table setting :
  AppSetting.first_by_key k table = Some setting ->
  In setting table /\ AppSetting.key setting = k.
Proof.
  intros Hfind. apply find_some in Hfind as [Hin Hkey].
  split; [done|]. by apply String.eqb_eq.
Qed.

Lemma first_by_key_None (k : string) table :
  AppSetting.first_by_key k table = None -> ~ In k (map AppSetting.key table).
Proof.
  intros Hfind (row & Hkey & Hin)%in_map_iff.
  pose proof (find_none _ _ Hfind row Hin) as Hne. cbn in Hne.
  rewrite Hkey, String.eqb_refl in Hne. discriminate.
Qed.

Lemma setting_id_inj (table : list AppSetting.t) (a b : AppSetting.t) :
  List.NoDup (map AppSetting.id table) -> In a table -> In b table ->
  AppSetting.id a = AppSetting.id b -> a = b.
Proof.
  induction table as [|row table IH]; cbn [map In]; [done|].
  intros Hnd [->|Ha] [->|Hb] Hid; inversion Hnd as [|? ? Hout Hrest]; subst.
  - done.
  - exfalso. apply Hout. rewrite Hid. by apply in_map.
  - exfalso. apply Hout. rewrite <- Hid. by apply in_map.
  - by apply IH.
Qed.

Lemma setting_get_set_same (k v : string) (d : option string) table :
  AppSetting.get k d (AppSetting.set k v table) = Some v.
Proof.
  unfold AppSetting.get, AppSetting.set.
  destruct (AppSetting.first_by_key k table) as [setting|] eqn:Hfind.
  - rewrite first_by_key_map, Hfind;
      [|intros row; by destruct (AppSetting.id row =? AppSetting.id setting)].
    cbn [option_map]. by rewrite Z.eqb_refl.
  - rewrite first_by_key_app, Hfind. unfold AppSetting.first_by_key.
    cbn [find AppSetting.key]. by rewrite String.eqb_refl.
Qed.

Lemma setting_get_set_other (k k' v : string) (d : option string) table :
  List.NoDup (map AppSetting.id table) -> k' <> k ->
  AppSetting.get k' d (AppSetting.set k v table) = AppSetting.get k' d table.
Proof.
  intros Hids Hne. unfold AppSetting.get, AppSetting.set.
  destruct (AppSetting.first_by_key k table) as [setting|] eqn:Hfind.
  - rewrite first_by_key_map;
      [|intros row; by destruct (AppSetting.id row =? AppSetting.id setting)].
    destruct (AppSetting.first_by_key k' table) as [row|] eqn:Hrow;
      cbn [option_map]; [|done].
    apply first_by_key_Some in Hfind as [Hin1 Hk1].
    apply first_by_key_Some in Hrow as [Hin2 Hk2].
    destruct (Z.eqb_spec (AppSetting.id row) (AppSetting.id setting)) as [Hid|]; [|done].
    exfalso. apply Hne. rewrite <- Hk1, <- Hk2. f_equal.
    by apply (setting_id_inj table).
  - rewrite first_by_key_app. destruct (AppSetting.first_by_key k' table); [done|].
    unfold AppSetting.first_by_key. cbn [find AppSetting.key].
    by destruct (String.eqb_spec k k') as [->|].
Qed.

Lemma setting_set_ids (k v : string) table :
  List.NoDup (map AppSetting.id table) ->
  List.NoDup (map AppSetting.id (AppSetting.set k v table)).
Proof.
  intros Hids. unfold AppSetting.set.
  destruct (AppSetting.first_by_key k table) as [setting|].
  - rewrite map_map.
    erewrite map_ext; [exact Hids|].
    intros row. by destruct (AppSetting.id row =? AppSetting.id setting).
  - rewrite map_app. cbn [map AppSetting.id].
    apply NoDup_ListNoDup, NoDup_app. split; [by apply NoDup_ListNoDup|].
    split; [|apply NoDup_singleton].
    intros x Hx%list_elem_of_In ->%list_elem_of_singleton.
    by apply next_id_fresh in Hx.
Qed.

Lemma setting_set_keys (k v : string) table :
  map AppSetting.key (AppSetting.set k v table)
  = (map AppSetting.key table
     ++ match AppSetting.first_by_key k table with
        | Some _ => []
        | None => [k]
        end)%list.
Proof.
  unfold AppSetting.set.
  destruct (AppSetting.first_by_key k table) as [setting|].
  - rewrite map_map, app_nil_r. apply map_ext.
    intros row. by destruct (AppSetting.id row =? AppSetting.id setting).
  - by rewrite map_app.
Qed.

(** [AppSetting.set] and then [AppSetting.get] of the same key gives the
    value back, whatever the default; every other key reads as before; a key
    already in the table gets no second row, a new key gets one row at the
    end with a fresh id. *)
Theorem setting_set_then_get (k v : string) (table : list AppSetting.t) :
  List.NoDup (map AppSetting.id table) ->
  (forall d, AppSetting.get k d (AppSetting.set k v table) = Some v)
  /\ (forall k' d, k' <> k ->
        AppSetting.get k' d (AppSetting.set k v table) = AppSetting.get k' d table)
  /\ List.NoDup (map AppSetting.id (AppSetting.set k v table))
  /\ (In k (map AppSetting.key table) ->
      map AppSetting.key (AppSetting.set k v table) = map AppSetting.key table)
  /\ (~ In k (map AppSetting.key table) ->
      map AppSetting.key (AppSetting.set k v table) = (map AppSetting.key table ++ [k])%list)
  /\ (List.NoDup (map AppSetting.key table) ->
      List.NoDup (map AppSetting.key (AppSetting.set k v table))).
Proof.
  intros Hids.
  split; [intros d; apply setting_get_set_same|].
  split; [intros k' d Hne; by apply setting_get_set_other|].
  split; [by apply setting_set_ids|].
  rewrite setting_set_keys.
  destruct (AppSetting.first_by_key k table) as [setting|] eqn:Hfind.
  - rewrite app_nil_r. apply first_by_key_Some in Hfind as [Hin Hkey].
    split; [done|]. split; [|done].
    intros Hout. exfalso. apply Hout. rewrite <- Hkey. by apply in_map.
  - apply first_by_key_None in Hfind.
    split; [done|]. split; [done|].
    intros Hkeys. apply NoDup_ListNoDup, NoDup_app.
    split; [by apply NoDup_ListNoDup|]. split; [|apply NoDup_singleton].
    by intros x Hx%list_elem_of_In ->%list_elem_of_singleton.
Qed.

Lemma setting_set_then_get_witness :
  AppSetting.get "smtp_port" None (AppSetting.set "smtp_port" "587" Sample.settings)
  = Some "587"
  /\ AppSetting.get "smtp_server" (Some "")
       (AppSetting.set "smtp_port" "587" Sample.settings) = Some "".
Proof.
  destruct (setting_set_then_get "smtp_port" "587" Sample.settings) as (Hsame & Hother & _).
  - repeat constructor. intros [].
  - split; [apply Hsame|]. by rewrite Hother.
Defined.

Lemma save_keys (f : App.form) (keys : list string) :
  forall table,
    List.NoDup (map AppSetting.id table) ->
    let saved :=
      fold_left (fun table key => AppSetting.set key (Py.strip (App.form_get f key "")) table)
        keys table in
    List.NoDup (map AppSetting.id saved)
    /\ forall k d,
         (In k keys -> AppSetting.get k d saved = Some (Py.strip (App.form_get f k "")))
         /\ (~ In k keys -> AppSetting.get k d saved = AppSetting.get k d table).
Proof.
  induction keys as [|key keys IH]; intros table Hids; cbn [fold_left].
  - split; [done|]. intros k d. split; [intros []|done].
  - destruct (IH _ (setting_set_ids key (Py.strip (App.form_get f key "")) table Hids))
      as [Hsaved Hget].
    split; [done|]. intros k d. destruct (Hget k d) as [Hin Hout].
    destruct (in_dec string_dec k keys) as [Hk|Hk].
    + split; [intros _; by apply Hin|]. intros Hnot. exfalso. apply Hnot. by right.
    + rewrite (Hout Hk). split.
      * intros [->|Hin']; [apply setting_get_set_same|done].
      * intros Hnot. apply setting_get_set_other; [done|].
        intros ->. apply Hnot. by left.
Qed.

(** After [save_integrations] the settings page shows, for each of its
    twelve keys, the posted value with the white space at its ends cut (the
    empty string for a key the form lacks), whatever the table held; settings
    under any other key are as before. *)
Theorem save_integrations_round_trip (f : App.form) (table : list AppSetting.t) :
  List.NoDup (map AppSetting.id table) ->
  App.current_settings (App.save_integrations f table)
  = map (fun k => (k, Some (Py.strip (App.form_get f k "")))) App.setting_keys
  /\ (forall k d, ~ In k App.setting_keys ->
        AppSetting.get k d (App.save_integrations f table) = AppSetting.get k d table).
Proof.
  intros Hids. destruct (save_keys f App.setting_keys table Hids) as [_ Hget].
  split.
  - unfold App.current_settings. apply map_ext_in. intros k Hk. f_equal.
    by apply Hget.
  - intros k d Hk. by apply Hget.
Qed.

(** The no-break space and the em space at the ends of a posted value are
    cut like the space. *)
Lemma save_integrations_round_trip_witness :
  In ("smtp_port", Some "587")
    (App.current_settings
       (App.save_integrations (<["smtp_port" := "  587  "]> ∅) Sample.settings)).
Proof.
  destruct (save_integrations_round_trip (<["smtp_port" := "  587  "]> ∅)
              Sample.settings) as [-> _].
  - repeat constructor. intros [].
  - do 6 right. by left.
Defined.

(* ================================================================== *)
(** ** Overdue todos *)
(* ================================================================== *)

Lemma overdue_row_is_overdue (today : Py.date) (t : Todo.t) :
  App.overdue_row today t = true -> Todo.is_overdue today t = true.
Proof.
  unfold App.overdue_row, Todo.is_overdue.
  destruct (Todo.due_date t), (Todo.status t) as [st|]; try discriminate.
  intros [Hdue Hst]%andb_true_iff. by rewrite Hst.
Qed.

Lemma overdue_row_with_status (today : Py.date) (t : Todo.t) :
  Todo.status t <> None -> App.overdue_row today t = Todo.is_overdue today t.
Proof.
  unfold App.overdue_row, Todo.is_overdue.
  destruct (Todo.due_date t) as [due|], (Todo.status t) as [st|]; try done.
  intros _. by destruct (String.eqb st "completed"), (due <? today).
Qed.

(** The overdue count of the dashboard never exceeds the number of todos
    whose [is_overdue] is true, and is that number when every todo has a
    status; a todo with a past due date and no status is overdue for
    [is_overdue] and not counted. *)
Theorem overdue_count (today : Py.date) (table : list Todo.t) :
  (App.overdue_todos today table <= length (List.filter (Todo.is_overdue today) table))%nat
  /\ (Forall (fun t => Todo.status t <> None) table ->
      App.overdue_todos today table = length (List.filter (Todo.is_overdue today) table))
  /\ (forall t due,
        Todo.due_date t = Some due -> due < today -> Todo.status t = None ->
        Todo.is_overdue today t = true /\ App.overdue_todos today [t] = 0%nat)
  /\ (forall t,
        Todo.due_date t = None \/ Todo.status t = Some "completed" ->
        Todo.is_overdue today t = false /\ App.overdue_todos today [t] = 0%nat).
Proof.
  unfold App.overdue_todos. split; [|split; [|split]].
  - induction table as [|t table IH]; cbn [List.filter]; [done|].
    destruct (App.overdue_row today t) eqn:Hrow.
    + rewrite (overdue_row_is_overdue _ _ Hrow). cbn [length]. lia.
    + destruct (Todo.is_overdue today t); cbn [length]; lia.
  - induction 1 as [|t table Hst _ IH]; cbn [List.filter]; [done|].
    rewrite (overdue_row_with_status _ _ Hst).
    destruct (Todo.is_overdue today t); cbn [length]; by rewrite IH.
  - intros t due Hdue Hlt Hst. cbn [List.filter].
    unfold App.overdue_row, Todo.is_overdue. rewrite Hdue, Hst.
    split; [by apply Z.ltb_lt|done].
  - intros t Hcase. cbn [List.filter]. unfold App.overdue_row, Todo.is_overdue.
    destruct Hcase as [->| ->]; [done|].
    destruct (Todo.due_date t); [|done]. cbn. by rewrite andb_false_r.
Qed.

Lemma overdue_count_witness :
  Todo.is_overdue Sample.today Sample.todo_no_status = true
  /\ App.overdue_todos Sample.today [Sample.todo_no_status] = 0%nat.
Proof.
  destruct (overdue_count Sample.today []) as (_ & _ & Hnull & _).
  apply (Hnull Sample.todo_no_status (Sample.today - 1)); [reflexivity | lia | reflexivity].
Defined.

(* ================================================================== *)
(** ** The handlers of the timeline and of the events *)
(* ================================================================== *)

(** Rows of a table with a primary key are told apart by it. *)
Lemma unique_by {A : Type} (key : A -> Z) (table : list A) (a b : A) :
  List.NoDup (map key table) -> In a table -> In b table -> key a = key b -> a = b.
Proof.
  induction table as [|row table IH]; cbn [map In]; [done|].
  intros Hnd [->|Ha] [->|Hb] Hid; inversion Hnd as [|? ? Hout Hrest]; subst.
  - done.
  - exfalso. apply Hout. rewrite Hid. by apply in_map.
  - exfalso. apply Hout. rewrite <- Hid. by apply in_map.
  - by apply IH.
Qed.

Lemma find_map_key {A : Type} (key : A -> Z) (f : A -> A) (x : Z) (l : list A) :
  (forall a, key (f a) = key a) ->
  List.find (fun a => key a =? x) (map f l)
  = option_map f (List.find (fun a => key a =? x) l).
Proof.
  intros Hkey. induction l as [|a l IH]; cbn [map find option_map]; [done|].
  rewrite Hkey. by destruct (key a =? x).
Qed.

Lemma sql_max_cons (x : option Z) (l : list (option Z)) :
  App.sql_max (x :: l)
  = match x, App.sql_max l with
    | Some a, Some b => Some (Z.max a b)
    | Some a, None => Some a
    | None, acc => acc
    end.
Proof. reflexivity. Qed.

Lemma sql_max_above (l : list (option Z)) (k : Z) :
  In (Some k) l -> exists mx, App.sql_max l = Some mx /\ k <= mx.
Proof.
  induction l as [|x l IH]; [intros []|].
  rewrite sql_max_cons. intros [->|Hin].
  - destruct (App.sql_max l) as [b|]; eexists; (split; [done|lia]).
  - destruct (IH Hin) as (mx & -> & Hle).
    destruct x as [a|]; eexists; (split; [done|lia]).
Qed.

Lemma sql_max_null (l : list (option Z)) :
  Forall (fun x => x = None) l -> App.sql_max l = None.
Proof.
  induction 1 as [|x l -> _ IH]; [done|]. by rewrite sql_max_cons.
Qed.

(** The row that [milestone_new] adds: a fresh id, no completion date, the
    stripped title, and a sort order above every sort order of the table (1
    when no row has one). *)
Lemma milestone_new_row (fromisoformat : string -> option Py.date)
    (f : App.form) (table : list PhDMilestone.t) (title : string)
    (target_date : option Py.date) :
  f !! "title" = Some title ->
  App.parse_date fromisoformat (Py.strip (App.form_get f "target_date" ""))
  = Ok target_date ->
  exists m n,
    App.milestone_new fromisoformat f table = App.Done (table ++ [m])%list
    /\ ~ In (PhDMilestone.id m) (map PhDMilestone.id table)
    /\ PhDMilestone.title m = Py.strip title
    /\ PhDMilestone.target_date m = target_date
    /\ PhDMilestone.completed_date m = None
    /\ PhDMilestone.sort_order m = Some n
    /\ (forall row k,
          In row table -> PhDMilestone.sort_order row = Some k -> k < n)
    /\ (Forall (fun row => PhDMilestone.sort_order row = None) table -> n = 1).
Proof.
  intros Htitle Hdate. unfold App.milestone_new. rewrite Htitle, Hdate.
  eexists _, _. split; [done|]. split; [apply next_id_fresh|].
  split; [done|]. split; [done|]. split; [done|]. split; [done|]. split.
  - intros row k Hrow Hk.
    destruct (sql_max_above (map PhDMilestone.sort_order table) k) as (mx & -> & Hle).
    + rewrite <- Hk. by apply in_map.
    + cbn [App.or_zero]. lia.
  - intros Hnull. rewrite sql_max_null; [done|].
    by apply List.Forall_map.
Qed.

(** [milestone_new] answers 400 exactly when the form has no title, and that
    is its only abort; with a title it raises [ValueError] exactly when the
    stripped target date is not empty and not an ISO date; and exactly in the
    remaining case (a title, and a target date that is blank or an ISO date)
    it adds one row at the end of the table, with a fresh id, the stripped
    title, the date read, no completion date, and a sort order above every
    sort order of the table (1 when no row has one). *)
Theorem milestone_new_goes_last (fromisoformat : string -> option Py.date)
    (f : App.form) (table : list PhDMilestone.t) :
  let td := Py.strip (App.form_get f "target_date" "") in
  let answer := App.milestone_new fromisoformat f table in
  (answer = App.Abort 400 <-> f !! "title" = None)
  /\ (forall status, answer = App.Abort status -> status = 400)
  /\ ((exists e, answer = App.Failed e)
      <-> f !! "title" <> None /\ td <> "" /\ fromisoformat td = None)
  /\ (forall e, answer = App.Failed e -> e = ValueError "Invalid isoformat string")
  /\ ((exists table', answer = App.Done table')
      <-> f !! "title" <> None /\ (td = "" \/ fromisoformat td <> None))
  /\ (forall table',
        answer = App.Done table' ->
        exists title m n,
          f !! "title" = Some title
          /\ table' = (table ++ [m])%list
          /\ ~ In (PhDMilestone.id m) (map PhDMilestone.id table)
          /\ PhDMilestone.title m = Py.strip title
          /\ PhDMilestone.target_date m = (if String.eqb td "" then None else fromisoformat td)
          /\ PhDMilestone.completed_date m = None
          /\ PhDMilestone.sort_order m = Some n
          /\ (forall row k,
                In row table -> PhDMilestone.sort_order row = Some k -> k < n)
          /\ (Forall (fun row => PhDMilestone.sort_order row = None) table -> n = 1)).
Proof.
  intros td answer.
  destruct (f !! "title") as [title|] eqn:Htitle.
  - destruct (App.parse_date fromisoformat td) as [target_date|e] eqn:Hdate.
    + destruct (milestone_new_row fromisoformat f table title target_date Htitle Hdate)
        as (m & n & Hrun & Hfresh & Htit & Htarget & Hdone & Horder & Habove & Hfirst).
      fold answer in Hrun.
      assert (Hread : (td = "" \/ fromisoformat td <> None)
                      /\ target_date = (if String.eqb td "" then None else fromisoformat td)).
      { unfold App.parse_date in Hdate.
        destruct (String.eqb_spec td "") as [Hblank|Hfull].
        - split; [by left|]. by injection Hdate as <-.
        - destruct (fromisoformat td) as [d|]; [|done].
          split; [by right|]. by injection Hdate as <-. }
      destruct Hread as [Hcase Hvalue].
      rewrite Hrun. split; [|split; [|split; [|split; [|split]]]].
      * split; discriminate.
      * discriminate.
      * split; [intros [e [=]]|]. intros (_ & Hfull & Hbad).
        destruct Hcase as [Hblank|Hgood]; [by destruct Hfull | by destruct Hgood].
      * discriminate.
      * split; [done|]. intros _. by eexists.
      * intros table' [= <-]. exists title, m, n.
        rewrite <- Hvalue. by repeat (split; [done|]).
    + assert (Hrun : answer = App.Failed e).
      { unfold answer, App.milestone_new. fold td. by rewrite Htitle, Hdate. }
      assert (Hread : td <> "" /\ fromisoformat td = None
                      /\ e = ValueError "Invalid isoformat string").
      { unfold App.parse_date in Hdate.
        destruct (String.eqb_spec td "") as [Hblank|Hfull]; [done|].
        destruct (fromisoformat td) as [d|]; [done|].
        by injection Hdate as <-. }
      destruct Hread as (Hfull & Hbad & He).
      rewrite Hrun. split; [|split; [|split; [|split; [|split]]]].
      * split; discriminate.
      * discriminate.
      * split; [done|]. intros _. by eexists.
      * by intros e' [= <-].
      * split; [intros [table' [=]]|].
        intros (_ & [Hblank|Hgood]); [by destruct Hfull | by destruct Hgood].
      * discriminate.
  - assert (Hrun : answer = App.Abort 400).
    { unfold answer, App.milestone_new. by rewrite Htitle. }
    rewrite Hrun. split; [|split; [|split; [|split; [|split]]]].
    + done.
    + by intros status [= <-].
    + split; [intros [e [=]]|]. intros [Hno _]. by destruct Hno.
    + discriminate.
    + split; [intros [table' [=]]|]. intros [Hno _]. by destruct Hno.
    + discriminate.
Qed.

(** A form with a title and a blank target date: the milestone goes after
    the rows of the table, with the title stripped. *)
Lemma milestone_new_goes_last_witness :
  exists m,
    App.milestone_new Sample.no_date
      (<["title" := "  Thesis draft "]> (<["target_date" := " "]> ∅)) Sample.milestones
    = App.Done (Sample.milestones ++ [m])%list
    /\ PhDMilestone.title m = "Thesis draft"
    /\ PhDMilestone.target_date m = None
    /\ ~ In (PhDMilestone.id m) (map PhDMilestone.id Sample.milestones).
Proof.
  assert (exists table',
            App.milestone_new Sample.no_date
              (<["title" := "  Thesis draft "]> (<["target_date" := " "]> ∅))
              Sample.milestones = App.Done table')
    as [table' Hrun] by (eexists; reflexivity).
  destruct (milestone_new_goes_last Sample.no_date
              (<["title" := "  Thesis draft "]> (<["target_date" := " "]> ∅))
              Sample.milestones) as (_ & _ & _ & _ & _ & Hrow).
  destruct (Hrow table' Hrun) as (title & m & n & Htitle & -> & Hfresh & Htit & Htd & _).
  exists m. split; [exact Hrun|].
  injection Htitle as <-.
  split; [exact Htit|]. split; [exact Htd|]. exact Hfresh.
Defined.

(** [milestone_update] changes no id and no sort order and touches no other
    row; a completion date that is set stays as it is, whatever status is
    posted, and an unset one becomes today exactly when the status
    "completed" is posted for that row. *)
Theorem milestone_update_invariants (fromisoformat : string -> option Py.date)
    (mid : Z) (f : App.form) (today : Py.date) (table table' : list PhDMilestone.t) :
  List.NoDup (map PhDMilestone.id table) ->
  App.milestone_update fromisoformat mid f today table = App.Done table' ->
  Forall2
    (fun row row' =>
       PhDMilestone.id row' = PhDMilestone.id row
       /\ PhDMilestone.sort_order row' = PhDMilestone.sort_order row
       /\ (PhDMilestone.id row <> mid -> row' = row)
       /\ (forall d, PhDMilestone.completed_date row = Some d ->
                     PhDMilestone.completed_date row' = Some d)
       /\ (PhDMilestone.completed_date row = None ->
           PhDMilestone.id row = mid -> f !! "status" = Some "completed" ->
           PhDMilestone.completed_date row' = Some today)
       /\ (PhDMilestone.completed_date row = None ->
           PhDMilestone.completed_date row' <> None ->
           PhDMilestone.id row = mid /\ f !! "status" = Some "completed"))
    table table'.
Proof.
  intros Hids. unfold App.milestone_update.
  destruct (find _ table) as [m|] eqn:Hfind; [|done].
  destruct (App.updated_milestone fromisoformat m f today) as [m'|e] eqn:Hupd; [|done].
  intros [= <-]. apply find_some in Hfind as [Hm Hmid%Z.eqb_eq].
  unfold App.updated_milestone in Hupd.
  destruct (match f !! "target_date" with Some _ => _ | None => _ end) as [target|];
    [|done].
  cbn [rbind] in Hupd. injection Hupd as <-.
  apply Forall2_fmap_r, Forall_Forall2_diag, List.Forall_forall.
  intros row Hrow. cbn [compose].
  destruct (Z.eqb_spec (PhDMilestone.id row) (PhDMilestone.id m)) as [Heq|Hne].
  - assert (row = m) as -> by by apply (unique_by PhDMilestone.id table).
    cbn [PhDMilestone.id PhDMilestone.sort_order PhDMilestone.completed_date].
    split; [done|]. split; [done|]. split; [done|].
    split; [|split].
    + intros d ->. destruct (f !! "status") as [st|]; [|done].
      by destruct (String.eqb st "completed").
    + by intros -> _ ->.
    + intros ->. destruct (f !! "status") as [st|]; [|done].
      destruct (String.eqb_spec st "completed") as [->|]; done.
  - rewrite Hmid in Hne. split; [done|]. split; [done|]. split; [done|].
    split; [done|]. split; [done|]. by intros ->.
Qed.

Lemma milestone_update_invariants_witness :
  exists table',
    App.milestone_update Sample.no_date 2 (<["status" := "completed"]> ∅) Sample.today
      Sample.milestones = App.Done table'
    /\ Forall2 (fun row row' =>
                  forall d, PhDMilestone.completed_date row = Some d ->
                            PhDMilestone.completed_date row' = Some d)
         Sample.milestones table'.
Proof.
  assert (exists table',
            App.milestone_update Sample.no_date 2 (<["status" := "completed"]> ∅)
              Sample.today Sample.milestones = App.Done table')
    as [table' Hrun] by (eexists; reflexivity).
  exists table'. split; [exact Hrun|].
  eapply Forall2_impl;
    [apply (milestone_update_invariants Sample.no_date 2 (<["status" := "completed"]> ∅)
              Sample.today Sample.milestones table'
              ltac:(repeat constructor; cbn; intuition discriminate) Hrun)|].
  intros row row' (_ & _ & _ & Hkept & _). exact Hkept.
Defined.

Lemma strip_or_none_trimmed (s : string) :
  match App.strip_or_none s with
  | Some v => trimmed v
  | None => True
  end.
Proof.
  unfold App.strip_or_none. destruct (String.eqb_spec (Py.strip s) ""); [done|].
  destruct (strip_spec s) as (a & b & _ & _ & _ & _ & Hfirst & Hlast). by split.
Qed.

Lemma lstrip_chars_all_space (l : list string) :
  forallb Py.isspace_char l = true -> Py.lstrip_chars l = [].
Proof.
  induction l as [|ch l IH]; [done|]. cbn [forallb Py.lstrip_chars].
  intros [-> Hl]%andb_true_iff. by apply IH.
Qed.

(** [strip] leaves nothing exactly of a text of white space. *)
Lemma strip_empty (s : string) : Py.strip s = "" <-> all_space s = true.
Proof.
  unfold all_space.
  destruct (strip_spec s) as (a & b & _ & _ & _ & Hchars & _).
  destruct (strip_chars_spec (Py.chars s)) as (la & lb & Hl & Hla & Hlb & _).
  split.
  - intros Hs. rewrite Hs in Hchars. cbn [Py.chars] in Hchars.
    rewrite Hl, <- Hchars, !forallb_app, Hla, Hlb. reflexivity.
  - intros Hall. unfold Py.strip, Py.strip_chars.
    by rewrite (lstrip_chars_all_space _ Hall).
Qed.

Lemma parse_date_blank (fromisoformat : string -> option Py.date) (v : string)
    (d : option Py.date) :
  App.parse_date fromisoformat (Py.strip v) = Ok d -> (d = None <-> all_space v = true).
Proof.
  rewrite <- strip_empty. unfold App.parse_date.
  destruct (String.eqb_spec (Py.strip v) "") as [->|Hv].
  - by intros [= <-].
  - destruct (fromisoformat (Py.strip v)); [|done]. by intros [= <-].
Qed.

(** What [_event_from_form] leaves on the event when it returns: the id, the
    pin and the time of creation are kept and the time of the update is now;
    every optional text field is [None] or a text that is not empty and has
    no white space at its ends; a date is [None] exactly when its form field
    is missing, empty or all white space; the category and the status fall
    back to "conference" and "upcoming". *)
Theorem event_from_form_normalised (fromisoformat : string -> option Py.date)
    (event event' : Event.t) (f : App.form) (now : Py.datetime) :
  App._event_from_form fromisoformat event f now = Ok event' ->
  Event.id event' = Event.id event
  /\ Event.pinned event' = Event.pinned event
  /\ Event.created_at event' = Event.created_at event
  /\ Event.updated_at event' = Some now
  /\ Forall (fun field => match field with Some v => trimmed v | None => True end)
       [ Event.edition event'; Event.website event'; Event.association event';
         Event.relevance_tags event'; Event.location event'; Event.city event';
         Event.description event'; Event.notes event' ]
  /\ Forall (fun field : string * option Py.date =>
               field.2 = None <-> all_space (App.form_get f field.1 "") = true)
       [ ("submission_deadline", Event.submission_deadline event');
         ("notification_date", Event.notification_date event');
         ("camera_ready_date", Event.camera_ready_date event');
         ("event_start_date", Event.event_start_date event');
         ("event_end_date", Event.event_end_date event') ]
  /\ (f !! "category" = None -> Event.category event' = "conference")
  /\ (f !! "status" = None -> Event.status event' = Some "upcoming")
  /\ Event.status event' <> None.
Proof.
  unfold App._event_from_form.
  destruct (App.parse_date fromisoformat (Py.strip (App.form_get f "submission_deadline" "")))
    as [d1|] eqn:H1; [|done].
  destruct (App.parse_date fromisoformat (Py.strip (App.form_get f "notification_date" "")))
    as [d2|] eqn:H2; [|done].
  destruct (App.parse_date fromisoformat (Py.strip (App.form_get f "camera_ready_date" "")))
    as [d3|] eqn:H3; [|done].
  destruct (App.parse_date fromisoformat (Py.strip (App.form_get f "event_start_date" "")))
    as [d4|] eqn:H4; [|done].
  destruct (App.parse_date fromisoformat (Py.strip (App.form_get f "event_end_date" "")))
    as [d5|] eqn:H5; [|done].
  cbn [rbind]. intros [= <-].
  split; [done|]. split; [done|]. split; [done|]. split; [done|].
  split; [repeat constructor; apply strip_or_none_trimmed|].
  split; [repeat constructor; cbn [fst snd]; by eapply parse_date_blank|].
  unfold App.form_get. cbn.
  split; [by intros ->|]. split; [by intros ->|done].
Qed.

Lemma event_from_form_normalised_witness :
  exists event',
    App._event_from_form Sample.no_date Sample.event_A
      (<["title" := "Crypto"]> (<["website" := "  "]> ∅)) 7 = Ok event'
    /\ Event.id event' = Event.id Sample.event_A
    /\ Event.updated_at event' = Some 7
    /\ Event.category event' = "conference".
Proof.
  assert (exists event',
            App._event_from_form Sample.no_date Sample.event_A
              (<["title" := "Crypto"]> (<["website" := "  "]> ∅)) 7 = Ok event')
    as [event' Hrun] by (eexists; reflexivity).
  exists event'. split; [exact Hrun|].
  destruct (event_from_form_normalised Sample.no_date Sample.event_A event'
              (<["title" := "Crypto"]> (<["website" := "  "]> ∅)) 7 Hrun)
    as (Hid & _ & _ & Hnow & _ & _ & Hcategory & _).
  split; [exact Hid|]. split; [exact Hnow|]. by apply Hcategory.
Defined.

Lemma with_pinned_twice (e : Event.t) (a b : option bool) (now1 now2 : Py.datetime) :
  App.with_pinned (App.with_pinned e a now1) b now2 = App.with_pinned e b now2.
Proof. done. Qed.

(** Pinning changes no other event, answers the new flag and stamps the
    event with the time of the commit; pinning the same event again answers
    the opposite flag, and when no pin of the table is null the two together
    leave the table as it was but for the time of the update of that
    event. *)
Theorem event_pin_twice (event_id : Z) (now1 now2 : Py.datetime)
    (table table1 : list Event.t) (pinned1 : bool) :
  List.NoDup (map Event.id table) ->
  App.event_pin event_id now1 table = App.Done (table1, pinned1) ->
  Forall2
    (fun e e1 =>
       Event.id e1 = Event.id e
       /\ (Event.id e <> event_id -> e1 = e)
       /\ (Event.id e = event_id ->
           e1 = App.with_pinned e (Some pinned1) now1
           /\ pinned1 = App.py_not (Event.pinned e)))
    table table1
  /\ exists table2,
       App.event_pin event_id now2 table1 = App.Done (table2, negb pinned1)
       /\ ((forall e, In e table -> Event.pinned e <> None) ->
           table2 = map (fun e => if Event.id e =? event_id
                                  then App.with_pinned e (Event.pinned e) now2
                                  else e) table).
Proof.
  intros Hids. unfold App.event_pin at 1.
  destruct (find _ table) as [event|] eqn:Hfind; [|done].
  intros [= <- <-]. pose proof Hfind as [Hevent Hid%Z.eqb_eq]%find_some.
  set (pin1 := fun e : Event.t =>
                 if Event.id e =? Event.id event
                 then App.with_pinned e (Some (App.py_not (Event.pinned event))) now1
                 else e).
  assert (Hkey : forall e, Event.id (pin1 e) = Event.id e).
  { intros e. unfold pin1. by destruct (Event.id e =? Event.id event). }
  split.
  - apply Forall2_fmap_r, Forall_Forall2_diag, List.Forall_forall.
    intros e He. cbn [compose]. split; [apply Hkey|]. unfold pin1.
    destruct (Z.eqb_spec (Event.id e) (Event.id event)) as [Heq|Hne].
    + assert (e = event) as -> by by apply (unique_by Event.id table).
      split; [by intros ?|]. by intros _.
    + split; [done|]. intros He'. exfalso. apply Hne. by rewrite Hid.
  - unfold App.event_pin. rewrite (find_map_key Event.id pin1 event_id table Hkey), Hfind.
    cbn [option_map]. clear Hkey. subst pin1. cbn beta. rewrite !Z.eqb_refl.
    cbn [App.with_pinned Event.pinned Event.id App.py_not].
    eexists. split; [done|]. intros Hset. rewrite map_map.
    apply map_ext_in. intros e He. rewrite <- Hid.
    destruct (Z.eqb_spec (Event.id e) (Event.id event)) as [Heq|Hne].
    + assert (e = event) as -> by by apply (unique_by Event.id table).
      cbn [App.with_pinned Event.id]. rewrite Z.eqb_refl, with_pinned_twice.
      specialize (Hset event Hevent).
      destruct (Event.pinned event) as [b|] eqn:Hb; [|done].
      cbn [App.py_not]. by rewrite negb_involutive.
    + by destruct (Z.eqb_spec (Event.id e) (Event.id event)).
Qed.

Lemma event_pin_twice_witness :
  exists table2,
    App.event_pin 1 8 [App.with_pinned Sample.event_A (Some true) 7]
    = App.Done (table2, negb true).
Proof.
  destruct (event_pin_twice 1 7 8 [Sample.event_A]
              [App.with_pinned Sample.event_A (Some true) 7] true
              ltac:(repeat constructor; intros []) eq_refl) as [_ (table2 & Hpin & _)].
  by exists table2.
Defined.

(* ================================================================== *)
(** ** The Notion sync of the settings page *)
(* ================================================================== *)

Lemma sync_events_spec {World : Type}
    (api : World -> NotionSync.post -> World * (string + string))
    (ns : NotionSync.t) (events : list Event.t) :
  Py.truthy (NotionSync.events_db_id ns) = true ->
  forall s log count,
    exists s' log' count',
      App.sync_events api ns events s log count = (s', log', count')
      /\ s'.2 = (s.2 ++ map (fun e =>
                   NotionSync.page_post ns
                     (NotionSync.EventPage (Py.or_empty (NotionSync.events_db_id ns))
                        (NotionSync.event_properties e))) events)%list
      /\ count <= count' /\ (length log <= length log')%nat
      /\ (count' - count) + (Z.of_nat (length log') - Z.of_nat (length log))
         = Z.of_nat (length events).
Proof.
  intros Hdb. induction events as [|e events IH]; intros s log count.
  - exists s, log, count. cbn [App.sync_events map length]. rewrite app_nil_r.
    repeat split; lia.
  - cbn [App.sync_events]. unfold NotionSync.sync_event. rewrite Hdb.
    unfold NotionSync._post.
    destruct (api s.1 _) as [w [msg|json]]; cbn [rbind].
    + match goal with
      | |- context [App.sync_events api ns events ?s1 ?log1 ?count1] =>
          destruct (IH s1 log1 count1) as (s' & log' & count' & -> & Hposts & Hc & Hl & Hsum)
      end.
      exists s', log', count'. split; [done|]. rewrite Hposts. cbn [snd map].
      rewrite <- app_assoc. split; [done|].
      rewrite length_app in Hl, Hsum. cbn [length] in *. repeat split; lia.
    + match goal with
      | |- context [App.sync_events api ns events ?s1 ?log1 ?count1] =>
          destruct (IH s1 log1 count1) as (s' & log' & count' & -> & Hposts & Hc & Hl & Hsum)
      end.
      exists s', log', count'. split; [done|]. rewrite Hposts. cbn [snd map].
      rewrite <- app_assoc. split; [done|]. cbn [length] in *. repeat split; lia.
Qed.

(** With the API key and the events database set, [sync_notion] posts one
    page per event, in the order of the table and whatever the answers to
    the earlier ones, to the pages endpoint with the bearer key; every event
    is either counted in the message or logged as failed.  Without one of
    the two settings it posts nothing and flashes an error. *)
Theorem sync_notion_every_event {World : Type}
    (api : World -> NotionSync.post -> World * (string + string))
    (settings : list AppSetting.t) (events : list Event.t)
    (s : NotionSync.state (World := World)) :
  let api_key := AppSetting.get "notion_api_key" (Some "") settings in
  let events_db := AppSetting.get "notion_events_db_id" (Some "") settings in
  exists s' log message category,
    App.sync_notion api settings events s = (s', log, (message, category))
    /\ if Py.truthy api_key && Py.truthy events_db
       then s'.2 = (s.2 ++ map (fun e =>
                      {| NotionSync.url := "https://api.notion.com/v1/pages";
                         NotionSync.authorization := "Bearer " +:+ Py.or_empty api_key;
                         NotionSync.data :=
                           NotionSync.EventPage (Py.or_empty events_db)
                             (NotionSync.event_properties e) |}) events)%list
            /\ category = "success"
            /\ exists count,
                 message = "Synced " +:+ Py.str_int count +:+ " events to Notion."
                 /\ 0 <= count
                 /\ count + Z.of_nat (length log) = Z.of_nat (length events)
       else s' = s /\ log = [] /\ category = "error".
Proof.
  intros api_key events_db. unfold App.sync_notion. fold api_key events_db.
  destruct (Py.truthy api_key && Py.truthy events_db) eqn:Hset.
  - apply andb_true_iff in Hset as [Hkey Hdb].
    match goal with
    | |- context [App.sync_events api ?ns events s [] 0] =>
        destruct (sync_events_spec api ns events Hdb s [] 0)
          as (s' & log & count & -> & Hposts & Hc & Hl & Hsum)
    end.
    eexists _, _, _, _. split; [done|]. split; [exact Hposts|]. split; [done|].
    exists count. split; [done|]. cbn [length] in Hsum. lia.
  - eexists _, _, _, _. by split.
Qed.

(** Three events against an API that refuses every second request: all three
    are posted, two are counted and one is logged. *)
Example sync_notion_flaky :
  let settings :=
    AppSetting.set "notion_api_key" "secret"
      (AppSetting.set "notion_events_db_id" "db1" []) in
  let '(s', log, flash) :=
    App.sync_notion Sample.notion_flaky settings
      [Sample.event_A; Sample.event_B; Sample.event_C] (false, []) in
  length s'.2 = 3%nat
  /\ log = ["Notion sync failed for Eurocrypt: 503 Server Error"]
  /\ flash = ("Synced 2 events to Notion.", "success").
Proof. vm_compute. repeat split. Qed.

(* ================================================================== *)
(** ** The todo reminder on Discord *)
(* ================================================================== *)

Lemma prefix_self (n : string) : String.prefix n n = true.
Proof.
  induction n as [|c n IH]; simpl; [done|].
  destruct (ascii_dec c c); [exact IH | congruence].
Qed.

(** [send_todo_reminder] posts nothing for an empty list; otherwise it makes
    one post with one embed that has a line for every todo of the list,
    however long the list is. *)
Theorem todo_reminder_lists_every_todo `{Transport} (self : DiscordNotifier.t)
    (todos : list Todo.t) :
  match todos with
  | [] => forall s, DiscordNotifier.send_todo_reminder self todos s = (s, Ok tt)
  | _ :: _ =>
      exists payload,
        attempts (DiscordNotifier.send_todo_reminder self todos) []
          [HttpPost (DiscordNotifier.webhook_url self) payload]
        /\ length (default [] (payload_embeds payload)) = 1%nat
        /\ forall t, In t todos ->
             says (DiscordNotifier.todo_line t)
               (HttpPost (DiscordNotifier.webhook_url self) payload) = true
  end.
Proof.
  destruct todos as [|t0 todos]; [done|].
  eexists. split; [|split].
  - intros s. cbn [DiscordNotifier.send_todo_reminder].
    unfold DiscordNotifier.send_message, perform.
    destruct (deliver (world s) _) as [w outcome]. cbn [fst calls sent].
    by rewrite app_nil_r.
  - reflexivity.
  - intros t Ht. unfold says, request_text, Py.lines.
    cbn [payload_embeds payload_content default map].
    eapply contains_concat; [right; left; reflexivity|].
    unfold embed_text, Py.lines.
    eapply contains_concat; [right; left; reflexivity|].
    cbn [DiscordNotifier.todo_reminder_embed embed_description Py.or_empty].
    unfold Py.join. eapply contains_concat; [by apply in_map|].
    apply contains_prefix, prefix_self.
Qed.

(* ================================================================== *)
(** ** The todo handlers and the digest *)
(* ================================================================== *)

(** A todo added by [todo_new] is pending, has the priority "medium" unless
    the form names one, and is in the todo list of the next digest, next to
    the todos that were in it before. *)
Theorem new_todo_in_digest (fromisoformat : string -> option Py.date) (f : App.form)
    (table table' : list Todo.t) :
  App.todo_new fromisoformat f table = App.Done table' ->
  exists t,
    table' = (table ++ [t])%list
    /\ ~ In (Todo.id t) (map Todo.id table)
    /\ Todo.status t = Some "pending"
    /\ (f !! "priority" = None -> Todo.priority t = Some "medium")
    /\ In t (pending_todos_query table')
    /\ (forall t0, In t0 (pending_todos_query table) -> In t0 (pending_todos_query table')).
Proof.
  unfold App.todo_new. destruct (f !! "title") as [title|]; [|done].
  destruct (App.parse_date fromisoformat _) as [due|]; [|done].
  intros [= <-]. eexists. split; [done|]. split; [apply next_id_fresh|].
  split; [done|]. split; [unfold App.form_get; by intros ->|].
  split.
  - apply pending_todos_query_In. split; [|by left]. apply in_or_app. right. by left.
  - intros t0 [Hin Hst]%pending_todos_query_In. apply pending_todos_query_In.
    split; [|done]. apply in_or_app. by left.
Qed.

Lemma new_todo_in_digest_witness :
  exists table',
    App.todo_new Sample.no_date (<["title" := " read "]> ∅) [Sample.todo_done]
    = App.Done table'
    /\ exists t, In t (pending_todos_query table') /\ Todo.status t = Some "pending".
Proof.
  assert (exists table',
            App.todo_new Sample.no_date (<["title" := " read "]> ∅) [Sample.todo_done]
            = App.Done table') as [table' Hrun] by (eexists; reflexivity).
  exists table'. split; [exact Hrun|].
  destruct (new_todo_in_digest Sample.no_date (<["title" := " read "]> ∅)
              [Sample.todo_done] table' Hrun) as (t & _ & _ & Hst & _ & Hin & _).
  by exists t.
Defined.

(** A todo whose status [todo_update] sets to anything but "pending" and
    "in_progress" is in no later digest; for every other todo the update
    changes nothing about being in the digest. *)
Theorem closed_todo_leaves_digest (fromisoformat : string -> option Py.date) (tid : Z)
    (f : App.form) (table table' : list Todo.t) (st : string) :
  App.todo_update fromisoformat tid f table = App.Done table' ->
  f !! "status" = Some st -> st <> "pending" -> st <> "in_progress" ->
  (forall t, In t (pending_todos_query table') -> Todo.id t <> tid)
  /\ (forall t, Todo.id t <> tid ->
        In t (pending_todos_query table') <-> In t (pending_todos_query table)).
Proof.
  unfold App.todo_update.
  destruct (find _ table) as [t0|] eqn:Hfind; [|done].
  destruct (App.updated_todo fromisoformat t0 f) as [t'|] eqn:Hupd; [|done].
  intros [= <-] Hst Hne1 Hne2. apply find_some in Hfind as [Ht0 Htid%Z.eqb_eq].
  assert (Hclosed : Todo.status t' = Some st /\ Todo.id t' = tid).
  { unfold App.updated_todo in Hupd.
    destruct (match f !! "due_date" with Some _ => _ | None => _ end); [|done].
    cbn [rbind] in Hupd. injection Hupd as <-. cbn. by rewrite Hst. }
  destruct Hclosed as [Hst' Hid'].
  assert (Hrows : forall t, In t (map (fun row => if Todo.id row =? Todo.id t0 then t' else row)
                                    table) ->
                            t = t' \/ (In t table /\ Todo.id t <> tid)).
  { intros t (row & <- & Hrow)%in_map_iff.
    destruct (Z.eqb_spec (Todo.id row) (Todo.id t0)); [by left|right].
    split; [done|]. by rewrite <- Htid. }
  split.
  - intros t [Hin Hpending]%pending_todos_query_In.
    destruct (Hrows t Hin) as [->|[_ Hne]]; [|done].
    rewrite Hst' in Hpending. destruct Hpending as [[= ->]|[= ->]]; done.
  - intros t Hne. rewrite !pending_todos_query_In. split; intros [Hin Hpending].
    + destruct (Hrows t Hin) as [->|[Hin' _]]; [done|]. by split.
    + split; [|done]. apply in_map_iff. exists t. split; [|done].
      destruct (Z.eqb_spec (Todo.id t) (Todo.id t0)) as [Heq|]; [|done].
      exfalso. apply Hne. by rewrite Heq.
Qed.

Lemma closed_todo_leaves_digest_witness :
  exists table',
    App.todo_update Sample.no_date 2 (<["status" := "completed"]> ∅)
      [Sample.todo_medium; Sample.todo_low] = App.Done table'
    /\ forall t, In t (pending_todos_query table') -> Todo.id t <> 2.
Proof.
  assert (exists table',
            App.todo_update Sample.no_date 2 (<["status" := "completed"]> ∅)
              [Sample.todo_medium; Sample.todo_low] = App.Done table')
    as [table' Hrun] by (eexists; reflexivity).
  exists table'. split; [exact Hrun|].
  apply (closed_todo_leaves_digest Sample.no_date 2 (<["status" := "completed"]> ∅)
           [Sample.todo_medium; Sample.todo_low] table' "completed" Hrun);
    [reflexivity | discriminate | discriminate].
Defined.

(* ================================================================== *)
(** ** The dashboard *)
(* ================================================================== *)

Lemma slice_to_drop {A : Type} (n : nat) (l : list A) :
  l = (Py.slice_to n l ++ skipn n l)%list.
Proof. unfold Py.slice_to. by rewrite firstn_skipn. Qed.

(** The dashboard shows at most 15 events, in ascending order of deadline,
    each with a deadline from today to 60 days ahead; an event of that window
    that it leaves out is cut by the limit, and then no shown event has a
    later deadline than it. *)
Theorem dashboard_nearest_deadlines (today : Py.date) (table : list Event.t) :
  Py.valid_date (today + 60) = true ->
  exists shown,
    App.dashboard_upcoming today table = Ok shown
    /\ (length shown <= 15)%nat
    /\ StronglySorted by_deadline shown
    /\ (forall e, In e shown ->
          In e table
          /\ exists d, Event.submission_deadline e = Some d /\ today <= d <= today + 60)
    /\ (forall e d,
          In e table -> Event.submission_deadline e = Some d ->
          today <= d <= today + 60 -> ~ In e shown ->
          length shown = 15%nat
          /\ forall e' d', In e' shown -> Event.submission_deadline e' = Some d' ->
                           d' <= d).
Proof.
  intros Hvalid. unfold App.dashboard_upcoming, date_add. rewrite Hvalid. cbn [rbind].
  eexists. split; [done|].
  set (all := upcoming_query today (today + 60) table).
  assert (Hsorted : StronglySorted by_deadline all).
  { apply StronglySorted_merge_sort; apply _. }
  rewrite (slice_to_drop 15 all) in Hsorted.
  split; [unfold Py.slice_to; rewrite length_firstn; lia|].
  split; [by apply StronglySorted_app_1_l in Hsorted|].
  split.
  - intros e He%In_slice_to. by apply upcoming_query_In in He.
  - intros e d He Hd Hwindow Hout.
    assert (Hall : In e all) by (apply upcoming_query_In; eauto).
    rewrite (slice_to_drop 15 all) in Hall. apply in_app_or in Hall as [Hin|Hcut]; [done|].
    split.
    + unfold Py.slice_to. rewrite length_firstn.
      destruct (Nat.le_gt_cases 15 (length all)) as [Hlen|Hlen]; [lia|].
      rewrite skipn_all2 in Hcut by lia. destruct Hcut.
    + intros e' d' He' Hd'.
      pose proof (StronglySorted_app_1_elem_of _ _ _ e' e Hsorted
                    (proj2 (list_elem_of_In _ _) He') (proj2 (list_elem_of_In _ _) Hcut))
        as Hle.
      unfold by_deadline, date_asc in Hle. rewrite Hd, Hd' in Hle.
      apply Is_true_true in Hle. lia.
Qed.

Lemma dashboard_nearest_deadlines_witness :
  exists shown, App.dashboard_upcoming Sample.today (events Sample.db) = Ok shown.
Proof.
  destruct (dashboard_nearest_deadlines Sample.today (events Sample.db) eq_refl)
    as (shown & Hshown & _).
  by exists shown.
Defined.

(* ================================================================== *)
(** ** The Discord test of the settings page *)
(* ================================================================== *)

(** [test_discord] never raises.  Without a webhook in the settings it posts
    nothing and flashes an error; with one it posts the test message, with no
    embed, once, and flashes success exactly when the post went through. *)
Theorem test_discord_outcome `{Transport} (settings : list AppSetting.t) (s : State) :
  let webhook := AppSetting.get "discord_webhook_url" (Some "") settings in
  let post :=
    HttpPost (Py.or_empty webhook)
      {| payload_content := "Test message from PPML/FHE Dashboard!";
         payload_embeds := None |} in
  exists s' message category,
    App.test_discord settings s = (s', Ok (message, category))
    /\ if Py.truthy webhook
       then sent s' = (sent s ++ [post])%list
            /\ (category = "success" <-> (deliver (world s) post).2 = None)
       else s' = s /\ category = "error".
Proof.
  intros webhook post. unfold App.test_discord. fold webhook.
  destruct (Py.truthy webhook); [|by eexists _, _, _].
  unfold DiscordNotifier.send_message, perform. cbn [DiscordNotifier.webhook_url].
  fold post. destruct (deliver (world s) post) as [w [msg|]]; cbn [snd].
  - eexists _, _, _. split; [done|]. split; [done|]. split; discriminate.
  - eexists _, _, _. split; [done|]. by split.
Qed.
